(** * mace/core/operator.cc : operator registration, placement and binding

    A shallow embedding of the operator registry of MACE
    ([OpConstructContext], [Operation::Init], [OpKeyBuilder],
    [OpRegistrationInfo], [OpRegistryBase], [OpConditionBuilder]) and the
    properties of it that the specification states.

    Conventions of the embedding.
    - A C++ class is a [Module] with its state as the record [t] and its
      member functions as functions that take the object first.  A mutating
      member function returns the new object.
    - A call that ends the process ([MACE_CHECK], [LOG(FATAL)]) or that has
      no defined behaviour (a null dereference, an unchecked index past the
      end, a read of a member that no constructor initialised) returns
      [Abort] with the reason; everything else returns [Ok].
    - [std::string] is [string], [std::vector] and protobuf repeated fields
      are [list], [std::map] is [gmap], [std::set] is [gset].
    - Declarations that [operator.h] and the generated protobuf header
      provide, and that are not part of this file, are the fields of the
      class [Declarations]. *)

From Stdlib Require Import ZArith.
From stdpp Require Import base option list strings pretty gmap fin_maps.

(** ** Outcomes *)

Inductive fault : Type :=
| CheckFailed (diagnostic : string)
    (** [MACE_CHECK(cond, args...)] with [cond] false, or [LOG(FATAL)]:
        the streamed arguments, concatenated *)
| OutOfRange (index size : nat)
    (** [Get(index)] on a repeated field of [size <= index] elements *)
| NoSuchKey (key : string)
    (** [std::map::at(key)] without an element of that key *)
| NullPointer
    (** [->] on a null [shared_ptr] or on [nullptr] *)
| Uninitialized.
    (** read of a data member that the constructor left indeterminate *)

Inductive result (A : Type) : Type :=
| Ok (a : A)
| Abort (f : fault).
Arguments Ok {A} a.
Arguments Abort {A} f.

#[global] Instance result_ret : MRet result := fun A a => Ok a.
#[global] Instance result_bind : MBind result := fun A B k m =>
  match m with
  | Ok a => k a
  | Abort f => Abort f
  end.

(** [MACE_CHECK(cond, args...)] *)
Definition MACE_CHECK (cond : bool) (diagnostic : string) : result unit :=
  if cond then Ok tt else Abort (CheckFailed diagnostic).

(** Dereference of a pointer that may be null. *)
Definition deref {A : Type} (p : option A) : result A :=
  match p with
  | Some a => Ok a
  | None => Abort NullPointer
  end.

(** [field.Get(index)] of a protobuf repeated field: no bounds check in a
    release build. *)
Definition Get {A : Type} (field : list A) (index : nat) : result A :=
  match field !! index with
  | Some a => Ok a
  | None => Abort (OutOfRange index (length field))
  end.

(** ** Declarations taken from the headers *)

(** [DataType] is a protobuf enum; the code converts it from and to [int]
    with [static_cast], so a value is its integer. *)
Abbreviation DataType := Z (only parsing).

(** [DataType()], the value a [std::map] inserts for a missing key. *)
Definition DataType_default : DataType := 0%Z.

Class Declarations : Type := {
  (** [enum MemoryType] *)
  MemoryType : Type;
  (** [enum DeviceType] and its enumerator [DeviceType::CPU] *)
  DeviceType : Type;
  DeviceType_eq_dec :: EqDecision DeviceType;
  DeviceType_countable :: Countable DeviceType;
  CPU : DeviceType;
  (** the characters [std::ostream << DeviceType] writes *)
  DeviceType_text : DeviceType -> string;
  (** the enumerators [DT_FLOAT] and [DT_HALF] of [DataType] *)
  DT_FLOAT : DataType;
  DT_HALF : DataType;
  (** [std::string DataTypeToString(DataType)] of [mace/core/types.h] *)
  DataTypeToString : DataType -> string;
  (** [class Allocator] *)
  Allocator : Type;
}.

(** ** The operator definition (protobuf message [OperatorDef]) *)

Module Argument.
Record t : Type := mk { name : string; i : Z }.

Definition set_i (value : Z) (a : t) : t := {| name := name a; i := value |}.
End Argument.

Module OutputShape.
Record t : Type := mk { dims : list Z }.

Definition dims_size (s : t) : nat := length (dims s).
End OutputShape.

Module OperatorDef.
Record t : Type := mk {
  input : list string;
  output : list string;
  name : string;
  type : string;
  arg : list Argument.t;
  output_shape : list OutputShape.t;
  output_type : list DataType;
}.

Definition input_size (d : t) : nat := length (input d).
Definition output_size (d : t) : nat := length (output d).
Definition arg_size (d : t) : nat := length (arg d).
Definition output_shape_size (d : t) : nat := length (output_shape d).
Definition output_type_size (d : t) : nat := length (output_type d).

(** the definition with its [arg] field replaced (what writes through
    [mutable_arg] amount to) *)
Definition with_arg (args : list Argument.t) (d : t) : t :=
  {| input := input d; output := output d; name := name d; type := type d;
     arg := args; output_shape := output_shape d;
     output_type := output_type d |}.
End OperatorDef.

Module ProtoArgHelper.
(** Modelled from the spec: [ProtoArgHelper::GetOptionalArg<OperatorDef, int>]
    is declared in a header that is not part of this file.  The
    specification describes attribute access by name with a default supplied
    by the caller ("absent attribute => default"); the integer value of the
    first argument of that name is returned. *)
Definition GetOptionalArg (def : OperatorDef.t) (arg_name : string)
    (default_value : Z) : Z :=
  match List.find (fun a => bool_decide (Argument.name a = arg_name))
                  (OperatorDef.arg def) with
  | Some a => Argument.i a
  | None => default_value
  end.
End ProtoArgHelper.

(** ** Loops *)

(** [for (auto x : l) body] over state [s] *)
Fixpoint for_each {A S : Type} (body : A -> S -> result S) (l : list A)
    (s : S) : result S :=
  match l with
  | [] => Ok s
  | x :: l' => s' ← body x s; for_each body l' s'
  end.

(** [for (i = first; i < first + count; ++i) body] over state [s] *)
Fixpoint for_range {S : Type} (body : nat -> S -> result S)
    (first count : nat) (s : S) : result S :=
  match count with
  | O => Ok s
  | Datatypes.S count' => s' ← body first s; for_range body (1 + first) count' s'
  end.

(** ** [OpKeyBuilder] *)

Module OpKeyBuilder.
Section with_declarations.
Context `{Declarations}.

Record t : Type := mk {
  op_name_ : string;
  device_type_ : option DeviceType;   (** [None] until [Device] is called *)
  type_constraint_ : gmap string DataType;
}.

(** [OpKeyBuilder::OpKeyBuilder(op_name)] *)
Definition new (op_name : string) : t :=
  {| op_name_ := op_name; device_type_ := None; type_constraint_ := ∅ |}.

Definition Device (device : DeviceType) (b : t) : t :=
  {| op_name_ := op_name_ b; device_type_ := Some device;
     type_constraint_ := type_constraint_ b |}.

Definition TypeConstraint (attr_name : string) (allowed : DataType) (b : t)
    : t :=
  {| op_name_ := op_name_ b; device_type_ := device_type_ b;
     type_constraint_ := <[attr_name := allowed]> (type_constraint_ b) |}.

Definition type_order : list string := ["T"].

(** [type_constraint_[type]]: a missing key reads as [DataType()]. *)
Definition type_constraint_at (b : t) (type : string) : DataType :=
  default DataType_default (type_constraint_ b !! type).

(** [OpKeyBuilder::Build]; [ss] is the text written so far. *)
Definition Build (b : t) : result string :=
  let ss := "" in
  let ss := ss +:+ op_name_ b in
  match device_type_ b with
  | None => Abort Uninitialized
  | Some device =>
      let ss := ss +:+ DeviceType_text device in
      Ok (fold_left
            (fun ss type =>
               ((ss +:+ type) +:+ "_")
                 +:+ DataTypeToString (type_constraint_at b type))
            type_order ss)
  end.
End with_declarations.
End OpKeyBuilder.

Arguments OpKeyBuilder.Build {_} b : simpl never.

(** ** [OpConstructContext] *)

(** A pointer to an object this file never looks into ([Workspace *],
    [Device *], [TensorShapeMap *]): its address, [None] for [nullptr]. *)
Abbreviation pointer := (option N) (only parsing).

(** [std::vector::resize(count, value)], where [value] is a data member that
    may still be indeterminate ([None]); it is read only to fill new
    elements. *)
Definition vector_resize {A : Type} (count : nat) (value : option A)
    (v : list A) : result (list A) :=
  match value with
  | Some x => Ok (resize count x v)
  | None =>
      if decide (count <= length v) then Ok (take count v)
      else Abort Uninitialized
  end.

Module OpConstructContext.
Section with_declarations.
Context `{Declarations}.

Record t : Type := mk {
  operator_def_ : option OperatorDef.t;   (** [shared_ptr], may be null *)
  ws_ : pointer;
  device_ : pointer;
  tensor_shape_info_ : pointer;
  output_mem_type_ : option MemoryType;   (** [None] until first set *)
  input_mem_types_ : list MemoryType;
  input_data_types_ : list DataType;
}.

(** [OpConstructContext(Workspace *ws)] *)
Definition new (ws : pointer) : t :=
  {| operator_def_ := None; ws_ := ws; device_ := None;
     tensor_shape_info_ := None; output_mem_type_ := None;
     input_mem_types_ := []; input_data_types_ := [] |}.

(** [OpConstructContext(Workspace *ws, TensorShapeMap *info)] *)
Definition new_with_info (ws info : pointer) : t :=
  {| operator_def_ := None; ws_ := ws; device_ := None;
     tensor_shape_info_ := info; output_mem_type_ := None;
     input_mem_types_ := []; input_data_types_ := [] |}.

Definition operator_def (c : t) : option OperatorDef.t := operator_def_ c.

Definition set_operator_def (operator_def : option OperatorDef.t) (c : t)
    : t :=
  {| operator_def_ := operator_def; ws_ := ws_ c; device_ := device_ c;
     tensor_shape_info_ := tensor_shape_info_ c;
     output_mem_type_ := output_mem_type_ c;
     input_mem_types_ := input_mem_types_ c;
     input_data_types_ := [] |}.

Definition set_output_mem_type (type : MemoryType) (c : t) : result t :=
  _ ← MACE_CHECK (bool_decide (is_Some (operator_def_ c))) "";
  Ok {| operator_def_ := operator_def_ c; ws_ := ws_ c; device_ := device_ c;
        tensor_shape_info_ := tensor_shape_info_ c;
        output_mem_type_ := Some type;
        input_mem_types_ := [];
        input_data_types_ := input_data_types_ c |}.

Definition SetInputInfo (idx : nat) (mem_type : MemoryType) (dt : DataType)
    (c : t) : result t :=
  mem_types ←
    (if bool_decide (input_mem_types_ c = []) then
       def ← deref (operator_def_ c);
       vector_resize (OperatorDef.input_size def) (output_mem_type_ c)
                     (input_mem_types_ c)
     else Ok (input_mem_types_ c));
  data_types ←
    (if bool_decide (input_data_types_ c = []) then
       def ← deref (operator_def_ c);
       let op_dt : DataType :=
         ProtoArgHelper.GetOptionalArg def "T" DT_FLOAT in
       vector_resize (OperatorDef.input_size def) (Some op_dt)
                     (input_data_types_ c)
     else Ok (input_data_types_ c));
  _ ← MACE_CHECK (bool_decide (idx < length mem_types)
                  && bool_decide (idx < length data_types)) "";
  Ok {| operator_def_ := operator_def_ c; ws_ := ws_ c; device_ := device_ c;
        tensor_shape_info_ := tensor_shape_info_ c;
        output_mem_type_ := output_mem_type_ c;
        input_mem_types_ := <[idx := mem_type]> mem_types;
        input_data_types_ := <[idx := dt]> data_types |}.

Definition GetInputMemType (idx : nat) (c : t) : result MemoryType :=
  if bool_decide (input_mem_types_ c = []) then
    match output_mem_type_ c with
    | Some type => Ok type
    | None => Abort Uninitialized
    end
  else
    _ ← MACE_CHECK (bool_decide (idx < length (input_mem_types_ c)))
          (pretty idx +:+ " < " +:+ pretty (length (input_mem_types_ c)));
    Get (input_mem_types_ c) idx.

Definition GetInputDataType (idx : nat) (c : t) : result DataType :=
  if bool_decide (input_data_types_ c = []) then
    def ← deref (operator_def_ c);
    Ok (ProtoArgHelper.GetOptionalArg def "T" DT_FLOAT)
  else
    _ ← MACE_CHECK (bool_decide (idx < length (input_data_types_ c))) "";
    Get (input_data_types_ c) idx.
End with_declarations.
End OpConstructContext.

(** ** The workspace and its tensors (external collaborators) *)

Module Tensor.
Section with_declarations.
Context `{Declarations}.

(** Modelled from the spec: [class Tensor] is not part of this file.  A
    tensor is created with an allocator and a data type, and carries the
    shape that [SetShapeConfigured] records. *)
Record t : Type := mk {
  allocator_ : Allocator;
  dtype_ : DataType;
  shape_configured_ : list Z;
}.

Definition new (alloc : Allocator) (type : DataType) : t :=
  {| allocator_ := alloc; dtype_ := type; shape_configured_ := [] |}.

Definition SetShapeConfigured (shape_configured : list Z) (x : t) : t :=
  {| allocator_ := allocator_ x; dtype_ := dtype_ x;
     shape_configured_ := shape_configured |}.
End with_declarations.
End Tensor.

(** A [Tensor *] into a workspace.  The workspace owns its tensors, one per
    name, so the pointer is the name the tensor is stored under; [None] is
    [nullptr]. *)
Abbreviation Tensor_ptr := (option string) (only parsing).

Module Workspace.
Section with_declarations.
Context `{Declarations}.

(** Modelled from the spec: [class Workspace] is not part of this file.  The
    specification lists what is consumed from it: [HasTensor(name) -> bool],
    [GetTensor(name) -> TensorRef] and [CreateTensor(name, allocator,
    dataType) -> TensorRef] over a namespace of tensors. *)
Record t : Type := mk { tensor_map_ : gmap string Tensor.t }.

Definition HasTensor (name : string) (ws : t) : bool :=
  bool_decide (is_Some (tensor_map_ ws !! name)).

Definition GetTensor (name : string) (ws : t) : Tensor_ptr :=
  if HasTensor name ws then Some name else None.

Definition CreateTensor (name : string) (alloc : Allocator)
    (type : DataType) (ws : t) : Tensor_ptr * t :=
  (Some name,
   {| tensor_map_ := <[name := Tensor.new alloc type]> (tensor_map_ ws) |}).

(** [ptr->SetShapeConfigured(shape)] for a pointer into the workspace *)
Definition SetShapeConfigured_at (ptr : Tensor_ptr) (shape : list Z)
    (ws : t) : result t :=
  name ← deref ptr;
  Ok {| tensor_map_ :=
          alter (Tensor.SetShapeConfigured shape) name (tensor_map_ ws) |}.
End with_declarations.
End Workspace.

Module Device.
Section with_declarations.
Context `{Declarations}.

Record t : Type := mk { allocator : Allocator }.
End with_declarations.
End Device.

(** ** [OpInitContext] *)

Module OpInitContext.
Section with_declarations.
Context `{Declarations}.

(** [ws_] and [device_] are pointers to live objects; the record holds the
    objects they designate, as they are when the context is used. *)
Record t : Type := mk { ws_ : Workspace.t; device_ : Device.t }.

Definition new (ws : Workspace.t) (device : Device.t) : t :=
  {| ws_ := ws; device_ := device |}.

Definition workspace (c : t) : Workspace.t := ws_ c.
Definition device (c : t) : Device.t := device_ c.
End with_declarations.
End OpInitContext.

(** ** [Operation] *)

Module Operation.
Section with_declarations.
Context `{Declarations}.

Record t : Type := mk {
  operator_def_ : option OperatorDef.t;
  inputs_ : list Tensor_ptr;
  outputs_ : list Tensor_ptr;
}.

(** [Operation::Operation(OpConstructContext *context)] *)
Definition new (context : OpConstructContext.t) : t :=
  {| operator_def_ := OpConstructContext.operator_def context;
     inputs_ := []; outputs_ := [] |}.

(** the diagnostic of the check on an input tensor *)
Definition missing_input_diagnostic (def : OperatorDef.t)
    (input_str : string) : string :=
  "op " +:+ OperatorDef.type def
    +:+ ": Encountered a non-existing input tensor: " +:+ input_str.

(** body of the loop over the input names; the state is [inputs_] *)
Definition bind_input (def : OperatorDef.t) (ws : Workspace.t)
    (input_str : string) (inputs : list Tensor_ptr)
    : result (list Tensor_ptr) :=
  let tensor := Workspace.GetTensor input_str ws in
  _ ← MACE_CHECK (bool_decide (tensor <> None))
        (missing_input_diagnostic def input_str);
  Ok (inputs ++ [tensor]).

(** the diagnostic of the check on the number of output types *)
Definition output_type_diagnostic (def : OperatorDef.t) : string :=
  "operator output size != operator output type size"
    +:+ pretty (OperatorDef.output_size def)
    +:+ pretty (OperatorDef.output_type_size def).

(** the data type of a tensor created for output [i] *)
Definition output_data_type (def : OperatorDef.t) (i : nat)
    : result DataType :=
  if bool_decide (i < OperatorDef.output_type_size def) then
    Get (OperatorDef.output_type def) i
  else
    Ok (ProtoArgHelper.GetOptionalArg def "T" DT_FLOAT).

(** [shape_configured], filled from [output_shape(i).dims(dim)] *)
Definition configured_shape (shape : OutputShape.t) : result (list Z) :=
  for_range
    (fun dim shape_configured =>
       d ← Get (OutputShape.dims shape) dim;
       Ok (<[dim := d]> shape_configured))
    0 (OutputShape.dims_size shape)
    (replicate (OutputShape.dims_size shape) 0%Z).

(** body of the loop over the outputs; the state is the workspace and
    [outputs_] *)
Definition bind_output (context : OpInitContext.t) (def : OperatorDef.t)
    (i : nat) (state : Workspace.t * list Tensor_ptr)
    : result (Workspace.t * list Tensor_ptr) :=
  let '(ws, outputs) := state in
  output_str ← Get (OperatorDef.output def) i;
  '(ws, outputs) ←
    (if Workspace.HasTensor output_str ws then
       Ok (ws, outputs ++ [Workspace.GetTensor output_str ws])
     else
       _ ← MACE_CHECK
             (bool_decide (OperatorDef.output_type_size def = 0)
              || bool_decide (OperatorDef.output_size def
                              = OperatorDef.output_type_size def))
             (output_type_diagnostic def);
       output_type ← output_data_type def i;
       let '(tensor, ws) :=
         Workspace.CreateTensor output_str
           (Device.allocator (OpInitContext.device context)) output_type ws in
       (* MACE_CHECK_NOTNULL *)
       _ ← MACE_CHECK (bool_decide (tensor <> None)) "";
       Ok (ws, outputs ++ [tensor]));
  if bool_decide (i < OperatorDef.output_shape_size def) then
    shape ← Get (OperatorDef.output_shape def) i;
    shape_configured ← configured_shape shape;
    ws ← Workspace.SetShapeConfigured_at
           (Workspace.GetTensor output_str ws) shape_configured ws;
    Ok (ws, outputs)
  else Ok (ws, outputs).

(** [Operation::Init]: the bound operation and the workspace it leaves *)
Definition Init (context : OpInitContext.t) (self : t)
    : result (t * Workspace.t) :=
  let ws := OpInitContext.workspace context in
  def ← deref (operator_def_ self);
  inputs ← for_each (bind_input def ws) (OperatorDef.input def)
             (inputs_ self);
  '(ws, outputs) ←
    for_range (bind_output context def) 0 (OperatorDef.output_size def)
              (ws, outputs_ self);
  Ok ({| operator_def_ := operator_def_ self; inputs_ := inputs;
         outputs_ := outputs |}, ws).
End with_declarations.
End Operation.

(** ** [OpRegistrationInfo] *)

Module OpRegistrationInfo.
Section with_declarations.
Context `{Declarations}.

(** [OpCreator]: a [std::function] from an [OpConstructContext] pointer to
    a [unique_ptr<Operation>] *)
Definition OpCreator : Type := OpConstructContext.t -> Operation.t.

(** [DevicePlacer]: a [std::function] from an [OpConstructContext] pointer
    to a [std::set<DeviceType>] *)
Definition DevicePlacer : Type :=
  OpConstructContext.t -> result (gset DeviceType).

(** What the member [device_placer] holds: the lambda of the constructor,
    which captures [this] and reads [this->devices] when it is called, or a
    function assigned later. *)
Inductive placer : Type :=
| constructor_lambda
| assigned (f : DevicePlacer).

Record t : Type := mk {
  devices : gset DeviceType;
  device_placer : placer;
  creators : gmap string OpCreator;
}.

(** the body of the lambda in [OpRegistrationInfo::OpRegistrationInfo] *)
Definition default_device_placer (this : t) (context : OpConstructContext.t)
    : result (gset DeviceType) :=
  let op := OpConstructContext.operator_def context in
  if bool_decide (CPU ∈ devices this) then
    op ← deref op;
    if bool_decide (OperatorDef.output_shape_size op
                    = OperatorDef.output_size op) then
      shape ← Get (OperatorDef.output_shape op) 0;
      if bool_decide (OutputShape.dims_size shape <> 4) then Ok {[ CPU ]}
      else Ok (devices this)
    else Ok (devices this)
  else Ok (devices this).

(** [OpRegistrationInfo::OpRegistrationInfo()] *)
Definition new : t :=
  {| devices := ∅; device_placer := constructor_lambda; creators := ∅ |}.

(** [info->device_placer(context)] *)
Definition call_device_placer (info : t) (context : OpConstructContext.t)
    : result (gset DeviceType) :=
  match device_placer info with
  | constructor_lambda => default_device_placer info context
  | assigned f => f context
  end.

Definition set_device_placer (p : placer) (info : t) : t :=
  {| devices := devices info; device_placer := p;
     creators := creators info |}.

Definition AddDevice (device : DeviceType) (info : t) : t :=
  {| devices := {[ device ]} ∪ devices info;
     device_placer := device_placer info; creators := creators info |}.

Definition Register (key : string) (creator : OpCreator) (info : t)
    : result t :=
  _ ← MACE_CHECK (bool_decide (creators info !! key = None))
        ("Key already registered: " +:+ key);
  Ok {| devices := devices info; device_placer := device_placer info;
        creators := <[key := creator]> (creators info) |}.
End with_declarations.
End OpRegistrationInfo.

(** ** [OpConditionBuilder] *)

Module OpConditionBuilder.
Section with_declarations.
Context `{Declarations}.

Record t : Type := mk {
  type_ : string;
  placer_ : option OpRegistrationInfo.DevicePlacer;  (** [None]: empty *)
}.

Definition new (type : string) : t := {| type_ := type; placer_ := None |}.

Definition type (b : t) : string := type_ b.

Definition SetDevicePlacerFunc (placer : option OpRegistrationInfo.DevicePlacer)
    (b : t) : t :=
  {| type_ := type_ b; placer_ := placer |}.

(** [Finalize(info)]; [info] may be [nullptr]. The result is the object
    [info] points to afterwards. *)
Definition Finalize (b : t) (info : option OpRegistrationInfo.t)
    : option OpRegistrationInfo.t :=
  match info, placer_ b with
  | Some info, Some placer =>
      Some (OpRegistrationInfo.set_device_placer
              (OpRegistrationInfo.assigned placer) info)
  | _, _ => info
  end.
End with_declarations.
End OpConditionBuilder.

(** ** [OpRegistryBase] *)

Module OpRegistryBase.
Section with_declarations.
Context `{Declarations}.

(** [registry_] maps an operator type to its [OpRegistrationInfo], which it
    owns through a [unique_ptr]. *)
Record t : Type := mk { registry_ : gmap string OpRegistrationInfo.t }.

Definition empty : t := {| registry_ := ∅ |}.

(** [registry_.at(op_type)] *)
Definition at_ (op_type : string) (r : t) : result OpRegistrationInfo.t :=
  match registry_ r !! op_type with
  | Some info => Ok info
  | None => Abort (NoSuchKey op_type)
  end.

(** the entry of [op_type], created on first sight *)
Definition ensure (op_type : string) (r : t) : t :=
  if bool_decide (registry_ r !! op_type = None) then
    {| registry_ := <[op_type := OpRegistrationInfo.new]> (registry_ r) |}
  else r.

(** [OpRegistryBase::Register(op_type, device_type, dt, creator)] *)
Definition Register (op_type : string) (device_type : DeviceType)
    (dt : DataType) (creator : OpRegistrationInfo.OpCreator) (r : t)
    : result t :=
  let r := ensure op_type r in
  info ← at_ op_type r;
  let info := OpRegistrationInfo.AddDevice device_type info in
  let r := {| registry_ := <[op_type := info]> (registry_ r) |} in
  op_key ← OpKeyBuilder.Build
             (OpKeyBuilder.TypeConstraint "T" dt
                (OpKeyBuilder.Device device_type (OpKeyBuilder.new op_type)));
  info ← at_ op_type r;
  info ← OpRegistrationInfo.Register op_key creator info;
  Ok {| registry_ := <[op_type := info]> (registry_ r) |}.

(** [OpRegistryBase::Register(const OpConditionBuilder &builder)] *)
Definition Register_condition (builder : OpConditionBuilder.t) (r : t)
    : result t :=
  let op_type := OpConditionBuilder.type builder in
  let r := ensure op_type r in
  match OpConditionBuilder.Finalize builder (registry_ r !! op_type) with
  | Some info => Ok {| registry_ := <[op_type := info]> (registry_ r) |}
  | None => Ok r
  end.

Definition AvailableDevices (op_type : string)
    (context : OpConstructContext.t) (r : t) : result (gset DeviceType) :=
  _ ← MACE_CHECK (bool_decide (registry_ r !! op_type <> None))
        (op_type +:+ " operation is not registered.");
  info ← at_ op_type r;
  OpRegistrationInfo.call_device_placer info context.

(** the loop of [CreateOperation] over the arguments; the state is the
    argument list of the definition *)
Definition downgrade_arg (i : nat) (args : list Argument.t)
    : result (list Argument.t) :=
  a ← Get args i;
  if bool_decide (Argument.name a = "T") then
    Ok (alter (Argument.set_i DT_FLOAT) i args)
  else Ok args.

(** [OpRegistryBase::CreateOperation]: the operation, and the context with
    the definition as the call leaves it (the definition is shared, and is
    written in place). *)
Definition CreateOperation (context : OpConstructContext.t)
    (device_type : DeviceType) (r : t)
    : result (Operation.t * OpConstructContext.t) :=
  operator_def ← deref (OpConstructContext.operator_def context);
  let dtype : DataType :=
    ProtoArgHelper.GetOptionalArg operator_def "T" DT_FLOAT in
  '(operator_def, dtype) ←
    (if bool_decide (device_type = CPU) && bool_decide (dtype = DT_HALF) then
       let arg_size := OperatorDef.arg_size operator_def in
       args ← for_range downgrade_arg 0 arg_size
                (OperatorDef.arg operator_def);
       Ok (OperatorDef.with_arg args operator_def, DT_FLOAT)
     else Ok (operator_def, dtype));
  let context :=
    {| OpConstructContext.operator_def_ := Some operator_def;
       OpConstructContext.ws_ := OpConstructContext.ws_ context;
       OpConstructContext.device_ := OpConstructContext.device_ context;
       OpConstructContext.tensor_shape_info_ :=
         OpConstructContext.tensor_shape_info_ context;
       OpConstructContext.output_mem_type_ :=
         OpConstructContext.output_mem_type_ context;
       OpConstructContext.input_mem_types_ :=
         OpConstructContext.input_mem_types_ context;
       OpConstructContext.input_data_types_ :=
         OpConstructContext.input_data_types_ context |} in
  let op_type := OperatorDef.type operator_def in
  _ ← MACE_CHECK (bool_decide (registry_ r !! op_type <> None))
        (op_type +:+ " operation is not registered.");
  key ← OpKeyBuilder.Build
          (OpKeyBuilder.TypeConstraint "T" dtype
             (OpKeyBuilder.Device device_type (OpKeyBuilder.new op_type)));
  info ← at_ op_type r;
  match OpRegistrationInfo.creators info !! key with
  | None => Abort (CheckFailed ("Key not registered: " +:+ key))
  | Some creator => Ok (creator context, context)
  end.
End with_declarations.
End OpRegistryBase.

(** ** Notions used in the statements *)

Section statement_notions.
Context `{Declarations}.

(** The text of the key of a triple: the operator type, the device as it
    prints, and for the constraint ["T"] its name, ["_"] and the name of the
    data type. *)
Definition key_text (op_type : string) (device : DeviceType) (dt : DataType)
    : string :=
  op_type +:+ DeviceType_text device +:+ "T" +:+ "_" +:+ DataTypeToString dt.

(** The key as [OpRegistryBase::Register] and [CreateOperation] build it. *)
Definition build_key (op_type : string) (device : DeviceType) (dt : DataType)
    : result string :=
  OpKeyBuilder.Build
    (OpKeyBuilder.TypeConstraint "T" dt
       (OpKeyBuilder.Device device (OpKeyBuilder.new op_type))).

(** Two devices print apart: with the same number of characters, and with
    the same characters only when they are the same device. *)
Definition devices_print_apart (d1 d2 : DeviceType) : Prop :=
  String.length (DeviceType_text d1) = String.length (DeviceType_text d2)
  /\ (DeviceType_text d1 = DeviceType_text d2 -> d1 = d2).

(** Two data types are named apart: the name of one ends with the name of
    the other only when they are the same data type. *)
Definition types_named_apart (dt1 dt2 : DataType) : Prop :=
  forall p : string,
    DataTypeToString dt1 = p +:+ DataTypeToString dt2
    \/ DataTypeToString dt2 = p +:+ DataTypeToString dt1 ->
    dt1 = dt2.

(** The registration record of [op_type] as [Register] sees it, once it has
    created it on first sight. *)
Definition info_of (op_type : string) (r : OpRegistryBase.t)
    : OpRegistrationInfo.t :=
  default OpRegistrationInfo.new (OpRegistryBase.registry_ r !! op_type).

(** The creators registered for [op_type]; none when the type is unknown. *)
Definition creators_of (op_type : string) (r : OpRegistryBase.t)
    : gmap string OpRegistrationInfo.OpCreator :=
  OpRegistrationInfo.creators (info_of op_type r).

(** What [CreateOperation] does once the definition and the data type are
    settled: look the creator up under [key] and call it on the context. *)
Definition dispatch (r : OpRegistryBase.t) (op_type key : string)
    (context : OpConstructContext.t)
    : result (Operation.t * OpConstructContext.t) :=
  match OpRegistryBase.registry_ r !! op_type with
  | None =>
      Abort (CheckFailed (op_type +:+ " operation is not registered."))
  | Some info =>
      match OpRegistrationInfo.creators info !! key with
      | None => Abort (CheckFailed ("Key not registered: " +:+ key))
      | Some creator => Ok (creator context, context)
      end
  end.

(** The context with its definition replaced and nothing else touched. *)
Definition with_operator_def (def : OperatorDef.t)
    (context : OpConstructContext.t) : OpConstructContext.t :=
  {| OpConstructContext.operator_def_ := Some def;
     OpConstructContext.ws_ := OpConstructContext.ws_ context;
     OpConstructContext.device_ := OpConstructContext.device_ context;
     OpConstructContext.tensor_shape_info_ :=
       OpConstructContext.tensor_shape_info_ context;
     OpConstructContext.output_mem_type_ :=
       OpConstructContext.output_mem_type_ context;
     OpConstructContext.input_mem_types_ :=
       OpConstructContext.input_mem_types_ context;
     OpConstructContext.input_data_types_ :=
       OpConstructContext.input_data_types_ context |}.

(** The argument list with the integer of every argument named ["T"] set
    to [DT_FLOAT]. *)
Definition downgraded (args : list Argument.t) : list Argument.t :=
  (fun a => if bool_decide (Argument.name a = "T")
            then Argument.set_i DT_FLOAT a else a) <$> args.

(** The calls a client makes on a construct context. *)
Inductive context_call : Type :=
| call_set_operator_def (operator_def : option OperatorDef.t)
| call_set_output_mem_type (type : MemoryType)
| call_SetInputInfo (idx : nat) (mem_type : MemoryType) (dt : DataType).

Definition make_call (call : context_call) (c : OpConstructContext.t)
    : result OpConstructContext.t :=
  match call with
  | call_set_operator_def operator_def =>
      Ok (OpConstructContext.set_operator_def operator_def c)
  | call_set_output_mem_type type =>
      OpConstructContext.set_output_mem_type type c
  | call_SetInputInfo idx mem_type dt =>
      OpConstructContext.SetInputInfo idx mem_type dt c
  end.

(** A sequence of calls, in order; it stops at the first that aborts. *)
Definition make_calls (calls : list context_call)
    (c : OpConstructContext.t) : result OpConstructContext.t :=
  for_each make_call calls c.

(** A per-input vector is either not materialized or as long as the
    current definition has inputs. *)
Definition sized_for (def : OperatorDef.t) {A : Type} (v : list A) : Prop :=
  v <> [] -> length v = OperatorDef.input_size def.

(** The invariant as the specification words it. *)
Definition input_vectors_sized (c : OpConstructContext.t) : Prop :=
  forall def, OpConstructContext.operator_def c = Some def ->
    sized_for def (OpConstructContext.input_mem_types_ c)
    /\ sized_for def (OpConstructContext.input_data_types_ c).

(** Whether, at the end of [calls], [set_operator_def] has been called
    after the last [set_output_mem_type] (or without any). *)
Definition def_set_since_mem_reset (calls : list context_call) : bool :=
  fold_left
    (fun since call =>
       match call with
       | call_set_operator_def _ => true
       | call_set_output_mem_type _ => false
       | call_SetInputInfo _ _ _ => since
       end)
    calls false.

(** What one call keeps: the data types are sized for the current
    definition, and so are the memory types unless [set_operator_def] came
    after the last [set_output_mem_type]. *)
Definition sized_unless_stale (since : bool) (c : OpConstructContext.t)
    : Prop :=
  forall def, OpConstructContext.operator_def c = Some def ->
    sized_for def (OpConstructContext.input_data_types_ c)
    /\ (since = false ->
        sized_for def (OpConstructContext.input_mem_types_ c)).

(** The data type [Init] gives a tensor it creates for output [i]. *)
Definition resolved_output_type (def : OperatorDef.t) (i : nat) : DataType :=
  default (ProtoArgHelper.GetOptionalArg def "T" DT_FLOAT)
          (OperatorDef.output_type def !! i).

(** The workspace once the shape configured for output [i], if there is
    one, is recorded on the tensor [name]. *)
Definition with_configured_shape (def : OperatorDef.t) (i : nat)
    (name : string) (ws : Workspace.t) : Workspace.t :=
  match OperatorDef.output_shape def !! i with
  | Some shape =>
      {| Workspace.tensor_map_ :=
           alter (Tensor.SetShapeConfigured (OutputShape.dims shape)) name
                 (Workspace.tensor_map_ ws) |}
  | None => ws
  end.

(** The workspace with a tensor created under [name]. *)
Definition with_created (name : string) (tensor : Tensor.t)
    (ws : Workspace.t) : Workspace.t :=
  {| Workspace.tensor_map_ := <[name := tensor]> (Workspace.tensor_map_ ws) |}.
End statement_notions.

(** ** Notions used in the further statements *)

Section further_notions.
Context `{Declarations}.

(** The data type of the operation: what ["T"] resolves to. *)
Definition op_data_type (def : OperatorDef.t) : DataType :=
  ProtoArgHelper.GetOptionalArg def "T" DT_FLOAT.

(** A context that holds the definition [def] and the output memory type
    [M], as [set_operator_def] and [set_output_mem_type] leave them. *)
Definition holds (c : OpConstructContext.t) (def : OperatorDef.t)
    (M : MemoryType) : Prop :=
  OpConstructContext.operator_def_ c = Some def
  /\ OpConstructContext.output_mem_type_ c = Some M.

(** Neither per-input vector is materialized. *)
Definition unmaterialized (c : OpConstructContext.t) : Prop :=
  OpConstructContext.input_mem_types_ c = []
  /\ OpConstructContext.input_data_types_ c = [].

(** Whether [CreateOperation] rewrites the definition for [device]. *)
Definition downgrades (device : DeviceType) (def : OperatorDef.t) : bool :=
  bool_decide (device = CPU) && bool_decide (op_data_type def = DT_HALF).

(** The definition [CreateOperation] leaves behind and hands to the
    creator, and the data type it builds the key with. *)
Definition dispatched_def (device : DeviceType) (def : OperatorDef.t)
    : OperatorDef.t :=
  if downgrades device def
  then OperatorDef.with_arg (downgraded (OperatorDef.arg def)) def
  else def.

Definition dispatched_type (device : DeviceType) (def : OperatorDef.t)
    : DataType :=
  if downgrades device def then DT_FLOAT else op_data_type def.

(** The registrations a module makes at start-up. *)
Inductive registry_call : Type :=
| call_Register (op_type : string) (device : DeviceType) (dt : DataType)
    (creator : OpRegistrationInfo.OpCreator)
| call_Register_condition (builder : OpConditionBuilder.t).

Definition make_registry_call (call : registry_call) (r : OpRegistryBase.t)
    : result OpRegistryBase.t :=
  match call with
  | call_Register op_type device dt creator =>
      OpRegistryBase.Register op_type device dt creator r
  | call_Register_condition builder =>
      OpRegistryBase.Register_condition builder r
  end.

(** Every key of every registration is the key of the operator type with a
    device that the registration lists. *)
Definition keys_have_devices (r : OpRegistryBase.t) : Prop :=
  forall op_type info key,
    OpRegistryBase.registry_ r !! op_type = Some info ->
    is_Some (OpRegistrationInfo.creators info !! key) ->
    exists device dt,
      device ∈ OpRegistrationInfo.devices info
      /\ key = key_text op_type device dt.

(** The placer a builder leaves on a registration. *)
Definition finalized (builder : OpConditionBuilder.t)
    (info : OpRegistrationInfo.t) : OpRegistrationInfo.t :=
  match OpConditionBuilder.placer_ builder with
  | Some placer =>
      OpRegistrationInfo.set_device_placer
        (OpRegistrationInfo.assigned placer) info
  | None => info
  end.
End further_notions.


(** ** The enumerators of MACE's public headers

    One instance of [Declarations], on which the definitions run: the
    enumerators of [mace/public/mace.h] and [mace.proto], and the table of
    [DataTypeToString]. *)

Module MaceHeaders.
Inductive MemoryType : Type := CPU_BUFFER | GPU_BUFFER | GPU_IMAGE.

Inductive DeviceType : Type := CPU | GPU | HEXAGON.

#[global] Instance DeviceType_eq_dec : EqDecision DeviceType.
Proof. solve_decision. Defined.

Definition DeviceType_to_nat (d : DeviceType) : nat :=
  match d with CPU => 0 | GPU => 2 | HEXAGON => 3 end.

Definition DeviceType_of_nat (n : nat) : option DeviceType :=
  match n with
  | 0 => Some CPU
  | 2 => Some GPU
  | 3 => Some HEXAGON
  | _ => None
  end.

#[global] Instance DeviceType_countable : Countable DeviceType.
Proof.
  refine (inj_countable DeviceType_to_nat DeviceType_of_nat _).
  intros []; reflexivity.
Defined.

Definition DT_INVALID : DataType := 0%Z.
Definition DT_FLOAT : DataType := 1%Z.
Definition DT_UINT8 : DataType := 2%Z.
Definition DT_HALF : DataType := 3%Z.
Definition DT_INT32 : DataType := 4%Z.

Definition DataTypeToString (dt : DataType) : string :=
  if bool_decide (dt = DT_FLOAT) then "DT_FLOAT"
  else if bool_decide (dt = DT_HALF) then "DT_HALF"
  else if bool_decide (dt = DT_UINT8) then "DT_UINT8"
  else if bool_decide (dt = DT_INT32) then "DT_INT32"
  else "".

Definition declarations : Declarations :=
  Build_Declarations MemoryType DeviceType DeviceType_eq_dec
    DeviceType_countable CPU (fun d => pretty (DeviceType_to_nat d))
    DT_FLOAT DT_HALF DataTypeToString unit.

#[local] Existing Instance declarations.

(** A convolution node: inputs, outputs, arguments, configured shapes and
    declared output types as given. *)
Definition conv2d (input output : list string) (arg : list Argument.t)
    (output_shape : list OutputShape.t) (output_type : list DataType)
    : OperatorDef.t :=
  OperatorDef.mk input output "conv1" "Conv2D" arg output_shape output_type.

(** A construct context that holds [def] and puts outputs in [type]. *)
Definition context_of (def : OperatorDef.t) (type : MemoryType)
    : OpConstructContext.t :=
  OpConstructContext.mk (Some def) None None None (Some type) [] [].

(** The registration of an operator type for [CPU] and [GPU], with the
    placer of the constructor. *)
Definition cpu_gpu_info : OpRegistrationInfo.t :=
  OpRegistrationInfo.AddDevice GPU
    (OpRegistrationInfo.AddDevice CPU OpRegistrationInfo.new).

Definition cpu_gpu_registry : OpRegistryBase.t :=
  OpRegistryBase.mk {[ "Conv2D" := cpu_gpu_info ]}.

(** A workspace that holds the one tensor ["x"]. *)
Definition workspace_x : Workspace.t :=
  Workspace.mk {[ "x" := Tensor.new tt DT_FLOAT ]}.
End MaceHeaders.

(** * Properties *)

(** ** Strings as character lists *)

Lemma to_list_app (a b : string) :
  String.list_ascii_of_string (a +:+ b)
  = String.list_ascii_of_string a ++ String.list_ascii_of_string b.
Proof. induction a as [|c a IH]; simpl; [done|]. by rewrite IH. Qed.

Lemma to_list_inj (a b : string) :
  String.list_ascii_of_string a = String.list_ascii_of_string b -> a = b.
Proof.
  intros E.
  rewrite <- (String.string_of_list_ascii_of_string a),
          <- (String.string_of_list_ascii_of_string b).
  by rewrite E.
Qed.

Lemma to_list_length (a : string) :
  length (String.list_ascii_of_string a) = String.length a.
Proof. induction a; simpl; congruence. Qed.

Lemma string_app_assoc (a b c : string) : (a +:+ b) +:+ c = a +:+ b +:+ c.
Proof. apply to_list_inj. rewrite !to_list_app. by rewrite <- app_assoc. Qed.

Lemma string_app_nil_l (a : string) : "" +:+ a = a.
Proof. reflexivity. Qed.

(** If two concatenations agree, the shorter tail is a suffix of the longer
    one. *)
Lemma app_eq_suffix {A : Type} (l1 l2 s1 s2 : list A) :
  l1 ++ s1 = l2 ++ s2 -> length s1 <= length s2 ->
  exists p, s2 = p ++ s1 /\ l1 = l2 ++ p.
Proof.
  revert l1. induction l2 as [|x l2 IH]; intros l1 E Hlen.
  - exists l1. by split.
  - destruct l1 as [|y l1].
    + simpl in E. apply (f_equal length) in E.
      simpl in E. rewrite length_app in E. lia.
    + injection E as -> E. destruct (IH _ E Hlen) as (p & -> & ->).
      by exists p.
Qed.

Lemma string_app_eq_suffix (l1 l2 s1 s2 : string) :
  l1 +:+ s1 = l2 +:+ s2 -> String.length s1 <= String.length s2 ->
  exists p, s2 = p +:+ s1 /\ l1 = l2 +:+ p.
Proof.
  intros E Hlen. apply (f_equal String.list_ascii_of_string) in E.
  rewrite !to_list_app in E.
  destruct (app_eq_suffix _ _ _ _ E) as (p & E2 & E1).
  { by rewrite !to_list_length. }
  exists (String.string_of_list_ascii p). split; apply to_list_inj;
    by rewrite to_list_app, String.list_ascii_of_string_of_list_ascii.
Qed.

Lemma string_app_inv_tail (a b c : string) : a +:+ c = b +:+ c -> a = b.
Proof.
  intros E. apply (f_equal String.list_ascii_of_string) in E.
  rewrite !to_list_app in E. apply app_inv_tail in E. by apply to_list_inj.
Qed.

Lemma string_app_inj_tail_length (a b c d : string) :
  String.length c = String.length d -> a +:+ c = b +:+ d -> a = b /\ c = d.
Proof.
  intros Hlen E. apply (f_equal String.list_ascii_of_string) in E.
  rewrite !to_list_app in E. apply app_inj_2 in E as [E1 E2].
  - split; by apply to_list_inj.
  - by rewrite !to_list_length.
Qed.

(** ** Loops *)

Lemma Get_Some {A : Type} (field : list A) (index : nat) (a : A) :
  field !! index = Some a -> Get field index = Ok a.
Proof. unfold Get. by intros ->. Qed.

Lemma for_each_cons {A S : Type} (body : A -> S -> result S) (x : A)
    (l : list A) (s : S) :
  for_each body (x :: l) s = body x s ≫= for_each body l.
Proof. reflexivity. Qed.

Lemma for_range_S {S : Type} (body : nat -> S -> result S)
    (first count : nat) (s : S) :
  for_range body first (Datatypes.S count) s
  = body first s ≫= for_range body (Datatypes.S first) count.
Proof. reflexivity. Qed.

Lemma for_range_app {S : Type} (body : nat -> S -> result S)
    (first count1 count2 : nat) (s : S) :
  for_range body first (count1 + count2) s
  = for_range body first count1 s
    ≫= for_range body (first + count1) count2.
Proof.
  revert first s. induction count1 as [|count1 IH]; intros first s.
  - simpl. by rewrite Nat.add_0_r.
  - rewrite Nat.add_succ_l, !for_range_S.
    destruct (body first s) as [s'|f]; simpl; [|done].
    rewrite IH. by rewrite Nat.add_succ_r.
Qed.

Lemma result_bind_Ok {A : Type} (m : result A) : m ≫= Ok = m.
Proof. by destruct m. Qed.

Lemma for_range_snoc {S : Type} (body : nat -> S -> result S) (count : nat)
    (s : S) :
  for_range body 0 (Datatypes.S count) s
  = for_range body 0 count s ≫= body count.
Proof.
  replace (Datatypes.S count) with (count + 1) by lia.
  rewrite for_range_app. destruct (for_range body 0 count s); [|done].
  cbn. apply result_bind_Ok.
Qed.

(** ** The registration key *)

Section key.
Context `{Declarations}.

(** [Build] depends on the builder only through its operator type name, its
    device and the data type bound to ["T"]. *)
Lemma Build_key_text (b : OpKeyBuilder.t) (device : DeviceType)
    (dt : DataType) :
  OpKeyBuilder.device_type_ b = Some device ->
  OpKeyBuilder.type_constraint_ b !! "T" = Some dt ->
  OpKeyBuilder.Build b = Ok (key_text (OpKeyBuilder.op_name_ b) device dt).
Proof.
  intros Hd Ht. unfold OpKeyBuilder.Build, key_text. rewrite Hd. simpl.
  unfold OpKeyBuilder.type_constraint_at. rewrite Ht. simpl.
  by rewrite !string_app_assoc.
Qed.

Lemma build_key_text (op_type : string) (device : DeviceType)
    (dt : DataType) :
  build_key op_type device dt = Ok (key_text op_type device dt).
Proof.
  unfold build_key.
  rewrite (Build_key_text _ device dt); [done|done|].
  simpl. by rewrite lookup_insert_eq.
Qed.

Lemma key_text_split (op_type device_text name : string) :
  op_type +:+ device_text +:+ "T" +:+ "_" +:+ name
  = ((op_type +:+ device_text) +:+ "T" +:+ "_") +:+ name.
Proof. by rewrite !string_app_assoc. Qed.

Lemma key_text_inj (t1 t2 : string) (d1 d2 : DeviceType) (dt1 dt2 : DataType) :
  devices_print_apart d1 d2 -> types_named_apart dt1 dt2 ->
  key_text t1 d1 dt1 = key_text t2 d2 dt2 ->
  t1 = t2 /\ d1 = d2 /\ dt1 = dt2.
Proof.
  intros [Hwidth Hdev] Hname E. unfold key_text in E.
  rewrite !key_text_split in E.
  assert (dt1 = dt2) as <-.
  { destruct (Nat.le_gt_cases (String.length (DataTypeToString dt1))
                              (String.length (DataTypeToString dt2))) as [L|L].
    - destruct (string_app_eq_suffix _ _ _ _ E L) as (p & Ep & _).
      apply (Hname p). by right.
    - symmetry in E.
      destruct (string_app_eq_suffix _ _ _ _ E) as (p & Ep & _); [lia|].
      apply (Hname p). by left. }
  apply string_app_inv_tail in E.
  apply string_app_inv_tail in E.
  apply string_app_inj_tail_length in E as [-> E]; [|done].
  split_and!; auto.
Qed.

(** C3.  The key is a function of the triple alone: every builder that holds
    an operator type name, a device and a data type for ["T"] builds the
    same text, whatever the order of the calls that configured it
    (building twice gives byte-identical strings).  And two triples whose
    devices print apart and whose data types are named apart build the same
    key only when they are the same triple. *)
Theorem key_deterministic_and_injective
    (op_type1 op_type2 : string) (device1 device2 : DeviceType)
    (dt1 dt2 : DataType) :
  (forall b : OpKeyBuilder.t,
     OpKeyBuilder.op_name_ b = op_type1 ->
     OpKeyBuilder.device_type_ b = Some device1 ->
     OpKeyBuilder.type_constraint_ b !! "T" = Some dt1 ->
     OpKeyBuilder.Build b = build_key op_type1 device1 dt1)
  /\ build_key op_type1 device1 dt1 = Ok (key_text op_type1 device1 dt1)
  /\ (devices_print_apart device1 device2 ->
      types_named_apart dt1 dt2 ->
      (op_type1, device1, dt1) <> (op_type2, device2, dt2) ->
      build_key op_type1 device1 dt1 <> build_key op_type2 device2 dt2).
Proof.
  split_and!.
  - intros b <- Hd Ht. rewrite build_key_text. by apply Build_key_text.
  - apply build_key_text.
  - intros Hdev Hname Hne E. rewrite !build_key_text in E.
    injection E as E. apply key_text_inj in E as (-> & -> & ->); done.
Qed.
End key.

(** ** Registration *)

Section registration.
Context `{Declarations}.

(** [Register] in one step: it aborts when the key of the triple is taken,
    and otherwise records the device and the creator. *)
Lemma Register_unfold (op_type : string) (device : DeviceType)
    (dt : DataType) (creator : OpRegistrationInfo.OpCreator)
    (r : OpRegistryBase.t) :
  OpRegistryBase.Register op_type device dt creator r
  = let info := info_of op_type r in
    let key := key_text op_type device dt in
    match OpRegistrationInfo.creators info !! key with
    | Some _ => Abort (CheckFailed ("Key already registered: " +:+ key))
    | None =>
        Ok {| OpRegistryBase.registry_ :=
                <[op_type :=
                    {| OpRegistrationInfo.devices :=
                         {[ device ]} ∪ OpRegistrationInfo.devices info;
                       OpRegistrationInfo.device_placer :=
                         OpRegistrationInfo.device_placer info;
                       OpRegistrationInfo.creators :=
                         <[key := creator]>
                           (OpRegistrationInfo.creators info) |}]>
                  (OpRegistryBase.registry_ r) |}
    end.
Proof.
  unfold OpRegistryBase.Register.
  fold (build_key op_type device dt). rewrite build_key_text.
  unfold info_of, OpRegistryBase.ensure, OpRegistryBase.at_.
  destruct r as [registry]. simpl.
  case_bool_decide as Hreg; simpl.
  - rewrite Hreg. rewrite lookup_insert_eq. simpl. rewrite lookup_insert_eq.
    simpl. unfold OpRegistrationInfo.Register. simpl.
    rewrite lookup_empty. simpl. by rewrite !insert_insert_eq.
  - destruct (registry !! op_type) as [info|] eqn:E; [|done]. simpl.
    rewrite lookup_insert_eq. simpl.
    unfold OpRegistrationInfo.Register. simpl.
    destruct (OpRegistrationInfo.creators info !! _) eqn:K; simpl; [done|].
    by rewrite insert_insert_eq.
Qed.
End registration.

(** ** Device placement *)

Section placement.
Context `{Declarations}.

Lemma AvailableDevices_registered (r : OpRegistryBase.t) (op_type : string)
    (info : OpRegistrationInfo.t) (context : OpConstructContext.t) :
  OpRegistryBase.registry_ r !! op_type = Some info ->
  OpRegistryBase.AvailableDevices op_type context r
  = OpRegistrationInfo.call_device_placer info context.
Proof.
  intros Hinfo. unfold OpRegistryBase.AvailableDevices, OpRegistryBase.at_.
  rewrite Hinfo. by rewrite bool_decide_true.
Qed.

(** C1.  For an operator type registered with the devices [CPU] and [gpu]
    that keeps the placer of the constructor, and a definition with one
    declared output: one configured shape of rank 3 gives exactly [{CPU}],
    one configured shape of rank 4 gives [{CPU, gpu}], and no configured
    shape gives [{CPU, gpu}]. *)
Theorem default_placement_rule (r : OpRegistryBase.t) (op_type : string)
    (info : OpRegistrationInfo.t) (gpu : DeviceType)
    (context : OpConstructContext.t) (def : OperatorDef.t) :
  OpRegistryBase.registry_ r !! op_type = Some info ->
  OpRegistrationInfo.devices info = {[ CPU; gpu ]} ->
  OpRegistrationInfo.device_placer info
  = OpRegistrationInfo.constructor_lambda ->
  OpConstructContext.operator_def context = Some def ->
  OperatorDef.output_size def = 1 ->
  (forall shape, OperatorDef.output_shape def = [shape] ->
     OutputShape.dims_size shape = 3 ->
     OpRegistryBase.AvailableDevices op_type context r = Ok {[ CPU ]})
  /\ (forall shape, OperatorDef.output_shape def = [shape] ->
        OutputShape.dims_size shape = 4 ->
        OpRegistryBase.AvailableDevices op_type context r
        = Ok {[ CPU; gpu ]})
  /\ (OperatorDef.output_shape def = [] ->
      OpRegistryBase.AvailableDevices op_type context r = Ok {[ CPU; gpu ]}).
Proof.
  intros Hinfo Hdev Hplacer Hdef Hout.
  rewrite (AvailableDevices_registered _ _ _ _ Hinfo).
  unfold OpRegistrationInfo.call_device_placer,
    OpRegistrationInfo.default_device_placer.
  rewrite Hplacer, Hdef, Hdev. simpl.
  rewrite bool_decide_true
    by (apply elem_of_union; left; by apply elem_of_singleton).
  unfold OperatorDef.output_shape_size. rewrite Hout.
  split_and!.
  - intros shape -> Hrank. simpl. rewrite Hrank. done.
  - intros shape -> Hrank. simpl. rewrite Hrank. done.
  - intros ->. done.
Qed.

Lemma Register_condition_lookup (r : OpRegistryBase.t)
    (builder : OpConditionBuilder.t) (f : OpRegistrationInfo.DevicePlacer) :
  OpConditionBuilder.placer_ builder = Some f ->
  exists r' info,
    OpRegistryBase.Register_condition builder r = Ok r'
    /\ OpRegistryBase.registry_ r' !! OpConditionBuilder.type builder
       = Some info
    /\ OpRegistrationInfo.device_placer info = OpRegistrationInfo.assigned f.
Proof.
  intros Hf. unfold OpRegistryBase.Register_condition, OpRegistryBase.ensure.
  set (op_type := OpConditionBuilder.type builder).
  case_bool_decide as Hreg; simpl.
  - rewrite lookup_insert_eq. simpl. rewrite Hf.
    eexists _, _. split; [done|]. simpl. by rewrite lookup_insert_eq.
  - destruct (OpRegistryBase.registry_ r !! op_type) as [info|] eqn:E; [|done].
    simpl. rewrite Hf.
    eexists _, _. split; [done|]. simpl. by rewrite lookup_insert_eq.
Qed.

(** C9.  Once a condition builder made for the operator type [t] and given
    a placer function with [SetDevicePlacerFunc] is registered,
    [AvailableDevices] for [t] is that function's result on the context,
    whatever the definition's output shapes are.  A builder that was given
    no placer function (or an empty one) leaves the registration it is
    finalized on as it is, finalizing on [nullptr] does nothing whatever
    the builder holds, and registering a builder without a placer function
    for a registered type leaves the registry as it is.  The same holds
    of every builder, by what it holds and the type it names. *)
Theorem override_precedence :
  (forall (r : OpRegistryBase.t) (t : string)
          (f : OpRegistrationInfo.DevicePlacer),
     exists r',
       OpRegistryBase.Register_condition
         (OpConditionBuilder.SetDevicePlacerFunc (Some f)
            (OpConditionBuilder.new t)) r
       = Ok r'
       /\ forall context,
            OpRegistryBase.AvailableDevices t context r' = f context)
  /\ (forall (t : string) (info : OpRegistrationInfo.t),
        OpConditionBuilder.Finalize (OpConditionBuilder.new t) (Some info)
        = Some info
        /\ OpConditionBuilder.Finalize
             (OpConditionBuilder.SetDevicePlacerFunc None
                (OpConditionBuilder.new t)) (Some info)
           = Some info)
  /\ (forall (t : string) (f : OpRegistrationInfo.DevicePlacer),
        OpConditionBuilder.Finalize
          (OpConditionBuilder.SetDevicePlacerFunc (Some f)
             (OpConditionBuilder.new t)) None
        = None)
  /\ (forall (r : OpRegistryBase.t) (t : string)
             (info : OpRegistrationInfo.t),
        OpRegistryBase.registry_ r !! t = Some info ->
        OpRegistryBase.Register_condition (OpConditionBuilder.new t) r
        = Ok r)
  /\ (forall (r : OpRegistryBase.t) (builder : OpConditionBuilder.t)
             (f : OpRegistrationInfo.DevicePlacer),
        OpConditionBuilder.placer_ builder = Some f ->
        exists r',
          OpRegistryBase.Register_condition builder r = Ok r'
          /\ forall context,
               OpRegistryBase.AvailableDevices
                 (OpConditionBuilder.type builder) context r'
               = f context)
  /\ (forall (builder : OpConditionBuilder.t) (info : OpRegistrationInfo.t),
        OpConditionBuilder.placer_ builder = None ->
        OpConditionBuilder.Finalize builder (Some info) = Some info)
  /\ (forall builder : OpConditionBuilder.t,
        OpConditionBuilder.Finalize builder None = None)
  /\ (forall (r : OpRegistryBase.t) (builder : OpConditionBuilder.t)
             (info : OpRegistrationInfo.t),
        OpConditionBuilder.placer_ builder = None ->
        OpRegistryBase.registry_ r !! OpConditionBuilder.type builder
        = Some info ->
        OpRegistryBase.Register_condition builder r = Ok r).
Proof.
  assert (forall (r : OpRegistryBase.t) (builder : OpConditionBuilder.t)
                 (f : OpRegistrationInfo.DevicePlacer),
            OpConditionBuilder.placer_ builder = Some f ->
            exists r',
              OpRegistryBase.Register_condition builder r = Ok r'
              /\ forall context,
                   OpRegistryBase.AvailableDevices
                     (OpConditionBuilder.type builder) context r'
                   = f context) as Hoverride.
  { intros r builder f Hf.
    destruct (Register_condition_lookup r builder f Hf)
      as (r' & info & Hr' & Hinfo & Hplacer).
    exists r'. split; [done|]. intros context.
    rewrite (AvailableDevices_registered _ _ _ _ Hinfo).
    unfold OpRegistrationInfo.call_device_placer. by rewrite Hplacer. }
  assert (forall (r : OpRegistryBase.t) (builder : OpConditionBuilder.t)
                 (info : OpRegistrationInfo.t),
            OpConditionBuilder.placer_ builder = None ->
            OpRegistryBase.registry_ r !! OpConditionBuilder.type builder
            = Some info ->
            OpRegistryBase.Register_condition builder r = Ok r) as Hkeep.
  { intros [registry] builder info Hnone Hinfo.
    unfold OpRegistryBase.Register_condition, OpRegistryBase.ensure.
    simpl in *. rewrite Hinfo. simpl. rewrite Hinfo.
    unfold OpConditionBuilder.Finalize. rewrite Hnone.
    by rewrite insert_id. }
  split_and!.
  - intros r t f.
    exact (Hoverride r
             (OpConditionBuilder.SetDevicePlacerFunc (Some f)
                (OpConditionBuilder.new t)) f eq_refl).
  - intros t info. by split.
  - intros t f. reflexivity.
  - intros r t info Hinfo.
    exact (Hkeep r (OpConditionBuilder.new t) info eq_refl Hinfo).
  - exact Hoverride.
  - intros builder info Hnone. unfold OpConditionBuilder.Finalize.
    by rewrite Hnone.
  - intros builder. unfold OpConditionBuilder.Finalize. done.
  - exact Hkeep.
Qed.

(** C10, as the code has it.  For an operator type registered for [CPU]
    that keeps the placer of the constructor, and a definition with no
    declared output and no configured shape, the guard
    [output_shape_size() == output_size()] holds as [0 == 0], and the placer
    goes on to read [output_shape(0)] of an empty field: index 0 of 0
    elements. *)
Theorem default_placer_zero_outputs (op_type : string) (dt : DataType)
    (creator : OpRegistrationInfo.OpCreator) (c : OpConstructContext.t)
    (input : list string) (name type : string) (arg : list Argument.t)
    (output_type : list DataType) :
  OpRegistryBase.Register op_type CPU dt creator OpRegistryBase.empty
  ≫= OpRegistryBase.AvailableDevices op_type
       (OpConstructContext.set_operator_def
          (Some (OperatorDef.mk input [] name type arg [] output_type)) c)
  = Abort (OutOfRange 0 0).
Proof.
  rewrite Register_unfold. cbn zeta.
  assert (info_of op_type OpRegistryBase.empty = OpRegistrationInfo.new)
    as -> by (unfold info_of; cbn; by rewrite lookup_empty).
  cbn. rewrite lookup_empty. cbn [mbind result_bind].
  erewrite AvailableDevices_registered by (cbn; apply lookup_insert_eq).
  unfold OpRegistrationInfo.call_device_placer,
    OpRegistrationInfo.default_device_placer. cbn.
  rewrite bool_decide_true
    by (apply elem_of_union; left; by apply elem_of_singleton).
  reflexivity.
Qed.
End placement.

Section registration_claims.
Context `{Declarations}.

(** C8.  From a registry in which neither key is taken, registering one
    (operator type, device) pair with two different data types, named
    differently, succeeds both times and leaves two distinct keys among the
    creators of that type; and after a registration of a triple has
    succeeded, registering the same triple again aborts on the check of
    the key. *)
Theorem register_twice (r : OpRegistryBase.t) (op_type : string)
    (device : DeviceType) (dt1 : DataType)
    (creator1 creator2 : OpRegistrationInfo.OpCreator) :
  (forall dt2 : DataType,
     dt1 <> dt2 ->
     (DataTypeToString dt1 = DataTypeToString dt2 -> dt1 = dt2) ->
     creators_of op_type r !! key_text op_type device dt1 = None ->
     creators_of op_type r !! key_text op_type device dt2 = None ->
     exists r1 r2,
       OpRegistryBase.Register op_type device dt1 creator1 r = Ok r1
       /\ OpRegistryBase.Register op_type device dt2 creator2 r1 = Ok r2
       /\ key_text op_type device dt1 <> key_text op_type device dt2
       /\ creators_of op_type r2 !! key_text op_type device dt1
          = Some creator1
       /\ creators_of op_type r2 !! key_text op_type device dt2
          = Some creator2
       /\ device ∈ OpRegistrationInfo.devices (info_of op_type r2))
  /\ (forall r1,
        OpRegistryBase.Register op_type device dt1 creator1 r = Ok r1 ->
        OpRegistryBase.Register op_type device dt1 creator2 r1
        = Abort (CheckFailed ("Key already registered: "
                              +:+ key_text op_type device dt1))).
Proof.
  split.
  - intros dt2 Hne Hname Hfree1 Hfree2.
    assert (key_text op_type device dt1 <> key_text op_type device dt2)
      as Hkey.
    { unfold key_text. intros E.
      do 4 apply (inj (String.app _)) in E. auto. }
    unfold creators_of in *.
    eexists _, _. split_and!.
    + rewrite Register_unfold. simpl. by rewrite Hfree1.
    + rewrite Register_unfold. unfold info_of at 1. simpl.
      rewrite lookup_insert_eq. simpl.
      rewrite lookup_insert_ne by done. by rewrite Hfree2.
    + done.
    + unfold info_of at 1. simpl. rewrite lookup_insert_eq. simpl.
      rewrite lookup_insert_ne by auto. by rewrite lookup_insert_eq.
    + unfold info_of at 1. simpl. rewrite lookup_insert_eq. simpl.
      by rewrite lookup_insert_eq.
    + unfold info_of at 1. simpl. rewrite lookup_insert_eq. simpl.
      apply elem_of_union. left. by apply elem_of_singleton.
  - intros r1 Hr1. rewrite Register_unfold in Hr1. simpl in Hr1.
    destruct (OpRegistrationInfo.creators (info_of op_type r) !! _)
      eqn:Hfree; [done|].
    injection Hr1 as <-.
    rewrite Register_unfold. unfold info_of at 1. simpl.
    rewrite lookup_insert_eq. simpl. by rewrite lookup_insert_eq.
Qed.
End registration_claims.

(** ** Creating an operation *)

Section creation.
Context `{Declarations}.

Lemma downgrade_arg_at (pre post : list Argument.t) (a : Argument.t) :
  OpRegistryBase.downgrade_arg (length pre) (pre ++ a :: post)
  = Ok (pre ++ (if bool_decide (Argument.name a = "T")
                then Argument.set_i DT_FLOAT a else a) :: post).
Proof.
  unfold OpRegistryBase.downgrade_arg, Get.
  rewrite list_lookup_middle by done. simpl.
  case_bool_decide; [|done].
  rewrite alter_app_r_alt, Nat.sub_diag by lia. done.
Qed.

Lemma downgrade_loop (args : list Argument.t) (count first : nat) :
  first + count = length args ->
  for_range OpRegistryBase.downgrade_arg first count
    (downgraded (take first args) ++ drop first args)
  = Ok (downgraded args).
Proof.
  revert first. induction count as [|count IH]; intros first Hlen.
  - simpl. rewrite take_ge, drop_ge by lia. by rewrite app_nil_r.
  - destruct (lookup_lt_is_Some_2 args first) as [a Ha]; [lia|].
    assert (length (downgraded (take first args)) = first) as Hfirst.
    { unfold downgraded. rewrite length_fmap, length_take. lia. }
    rewrite for_range_S, (drop_S _ _ _ Ha).
    pose proof (downgrade_arg_at (downgraded (take first args))
                  (drop (S first) args) a) as Hstep.
    rewrite Hfirst in Hstep. rewrite Hstep. simpl.
    rewrite <- (IH (S first)) by lia.
    rewrite (take_S_r _ _ _ Ha). unfold downgraded at 2.
    rewrite fmap_app. simpl. by rewrite <- app_assoc.
Qed.

Lemma downgrade_all (args : list Argument.t) :
  for_range OpRegistryBase.downgrade_arg 0 (length args) args
  = Ok (downgraded args).
Proof. apply (downgrade_loop args (length args) 0). done. Qed.

Lemma GetOptionalArg_downgraded (def : OperatorDef.t) :
  ProtoArgHelper.GetOptionalArg
    (OperatorDef.with_arg (downgraded (OperatorDef.arg def)) def)
    "T" DT_FLOAT
  = DT_FLOAT.
Proof.
  unfold ProtoArgHelper.GetOptionalArg. simpl.
  induction (OperatorDef.arg def) as [|a args IH]; simpl; [done|].
  destruct (bool_decide (Argument.name a = "T")) eqn:E; simpl.
  - by rewrite E.
  - by rewrite E.
Qed.

Lemma with_operator_def_same (def : OperatorDef.t)
    (context : OpConstructContext.t) :
  OpConstructContext.operator_def context = Some def ->
  with_operator_def def context = context.
Proof. destruct context. simpl. by intros ->. Qed.

(** C2.  For a context whose definition resolves ["T"] to [DT_HALF]:
    on [CPU], [CreateOperation] sets the integer of every argument named
    ["T"] to [DT_FLOAT] and leaves the other arguments (so ["T"] resolves
    to [DT_FLOAT] afterwards), and it looks the creator up under the key
    built with [DT_FLOAT] and calls it on the context that holds the
    rewritten definition; on any other device it leaves the definition as
    it is and looks the creator up under the key built with [DT_HALF]. *)
Theorem half_precision_downgrade (r : OpRegistryBase.t)
    (context : OpConstructContext.t) (def : OperatorDef.t) :
  OpConstructContext.operator_def context = Some def ->
  ProtoArgHelper.GetOptionalArg def "T" DT_FLOAT = DT_HALF ->
  let def' := OperatorDef.with_arg (downgraded (OperatorDef.arg def)) def in
  (OpRegistryBase.CreateOperation context CPU r
   = dispatch r (OperatorDef.type def)
       (key_text (OperatorDef.type def) CPU DT_FLOAT)
       (with_operator_def def' context)
   /\ ProtoArgHelper.GetOptionalArg def' "T" DT_FLOAT = DT_FLOAT
   /\ forall i a, OperatorDef.arg def !! i = Some a ->
        OperatorDef.arg def' !! i
        = Some (if bool_decide (Argument.name a = "T")
                then Argument.mk "T" DT_FLOAT else a))
  /\ (forall gpu : DeviceType, gpu <> CPU ->
        OpRegistryBase.CreateOperation context gpu r
        = dispatch r (OperatorDef.type def)
            (key_text (OperatorDef.type def) gpu DT_HALF) context).
Proof.
  intros Hdef Hhalf def'. split_and!.
  - unfold OpRegistryBase.CreateOperation. rewrite Hdef. cbn.
    rewrite Hhalf, !bool_decide_true by done. cbn.
    unfold OperatorDef.arg_size. rewrite downgrade_all. cbn.
    fold def'. fold (with_operator_def def' context).
    rewrite (Build_key_text _ CPU DT_FLOAT)
      by (cbn; by rewrite ?lookup_insert_eq).
    cbn. unfold dispatch, OpRegistryBase.at_.
    by destruct (OpRegistryBase.registry_ r !! OperatorDef.type def).
  - apply GetOptionalArg_downgraded.
  - intros i a Ha. unfold def', downgraded. cbn.
    rewrite list_lookup_fmap, Ha. cbn.
    case_bool_decide as Hn; [|done].
    destruct a as [n v]. cbn in *. by rewrite Hn.
  - intros gpu Hgpu. unfold OpRegistryBase.CreateOperation.
    rewrite Hdef. cbn. rewrite (bool_decide_false (gpu = CPU)) by done.
    cbn. fold (with_operator_def def context).
    rewrite (with_operator_def_same _ _ Hdef). rewrite Hhalf.
    rewrite (Build_key_text _ gpu DT_HALF)
      by (cbn; by rewrite ?lookup_insert_eq).
    cbn. unfold dispatch, OpRegistryBase.at_.
    by destruct (OpRegistryBase.registry_ r !! OperatorDef.type def).
Qed.
End creation.

(** ** Memory types and data types of the inputs *)

Section negotiation.
Context `{Declarations}.

(** the first two calls on a fresh context: the definition, then the memory
    type of the outputs *)
Lemma configured_context (ws : pointer) (def : OperatorDef.t)
    (M : MemoryType) :
  OpConstructContext.set_output_mem_type M
    (OpConstructContext.set_operator_def (Some def)
       (OpConstructContext.new ws))
  = Ok (OpConstructContext.mk (Some def) ws None None (Some M) [] []).
Proof. reflexivity. Qed.

(** C4.  On a fresh context given a definition and the output memory type
    [M], with no call of [SetInputInfo], [GetInputMemType] returns [M] for
    every index; after one call [SetInputInfo(2, M2, D2)] for a definition
    with four inputs, it returns [M2] for index 2 and [M] for index 0, and
    aborts on the bounds check for index 5. *)
Theorem input_mem_type_defaults (ws : pointer) (def : OperatorDef.t)
    (M M2 : MemoryType) (D2 : DataType) :
  (forall idx,
     OpConstructContext.set_output_mem_type M
       (OpConstructContext.set_operator_def (Some def)
          (OpConstructContext.new ws))
     ≫= OpConstructContext.GetInputMemType idx
     = Ok M)
  /\ (OperatorDef.input_size def = 4 ->
      exists c,
        OpConstructContext.set_output_mem_type M
          (OpConstructContext.set_operator_def (Some def)
             (OpConstructContext.new ws))
        ≫= OpConstructContext.SetInputInfo 2 M2 D2
        = Ok c
        /\ OpConstructContext.GetInputMemType 2 c = Ok M2
        /\ OpConstructContext.GetInputMemType 0 c = Ok M
        /\ OpConstructContext.GetInputMemType 5 c
           = Abort (CheckFailed "5 < 4")).
Proof.
  rewrite configured_context. split.
  - intros idx. reflexivity.
  - intros Hsize. eexists. split_and!.
    + cbn. unfold OpConstructContext.SetInputInfo. cbn.
      rewrite Hsize. cbn. reflexivity.
    + reflexivity.
    + reflexivity.
    + reflexivity.
Qed.
End negotiation.

(** ** The lengths of the per-input vectors *)

Section vector_lengths.
Context `{Declarations}.

Lemma vector_resize_empty_sized {A : Type} (def : OperatorDef.t)
    (value : option A) (v : list A) :
  vector_resize (OperatorDef.input_size def) value [] = Ok v ->
  sized_for def v.
Proof.
  unfold vector_resize, sized_for. destruct value as [x|].
  - intros [= <-] _. rewrite resize_nil. apply length_replicate.
  - case_decide; [|done]. intros [= <-]. by rewrite take_nil.
Qed.

Lemma SetInputInfo_sized (since : bool) (idx : nat) (mem_type : MemoryType)
    (dt : DataType) (c c' : OpConstructContext.t) :
  sized_unless_stale since c ->
  OpConstructContext.SetInputInfo idx mem_type dt c = Ok c' ->
  sized_unless_stale since c'.
Proof.
  intros Hinv Hcall def' Hdef'.
  unfold OpConstructContext.SetInputInfo in Hcall.
  destruct (OpConstructContext.operator_def_ c) as [def|] eqn:Hdef.
  2: { repeat case_bool_decide; simpl in Hcall; try done.
       destruct c'. simplify_eq/=.
       destruct (bool_decide _ && bool_decide _); simplify_eq/=. }
  destruct (Hinv def Hdef) as [Hdata Hmem].
  assert (exists mem_types data_types,
             sized_for def data_types
             /\ (since = false -> sized_for def mem_types)
             /\ c' = OpConstructContext.mk (Some def)
                       (OpConstructContext.ws_ c)
                       (OpConstructContext.device_ c)
                       (OpConstructContext.tensor_shape_info_ c)
                       (OpConstructContext.output_mem_type_ c)
                       (<[idx := mem_type]> mem_types)
                       (<[idx := dt]> data_types))
    as (mem_types & data_types & Hd & Hm & ->).
  { simpl in Hcall.
    destruct (if bool_decide (OpConstructContext.input_mem_types_ c = [])
              then _ else _) as [mem_types|] eqn:Em; [|done].
    simpl in Hcall.
    destruct (if bool_decide (OpConstructContext.input_data_types_ c = [])
              then _ else _) as [data_types|] eqn:Ed; [|done].
    simpl in Hcall.
    destruct (bool_decide _ && bool_decide _); [|done].
    simpl in Hcall. injection Hcall as <-.
    exists mem_types, data_types. split_and!; [| |done].
    - case_bool_decide as Hempty.
      + injection Ed as <-. rewrite Hempty, resize_nil.
        intros _. apply length_replicate.
      + by injection Ed as <-.
    - intros Hsince.
      destruct (decide (OpConstructContext.input_mem_types_ c = []))
        as [Hempty|Hempty].
      + rewrite bool_decide_true, Hempty in Em by done.
        by eapply vector_resize_empty_sized.
      + rewrite bool_decide_false in Em by done. injection Em as <-. auto. }
  simpl in Hdef'. injection Hdef' as <-. simpl.
  unfold sized_for in *. rewrite !length_insert. split.
  - intros Hne. apply Hd. intros ->. by destruct idx.
  - intros Hsince Hne. apply Hm; [done|]. intros ->. by destruct idx.
Qed.

Lemma make_calls_sized (calls : list context_call) (since : bool)
    (c c' : OpConstructContext.t) :
  sized_unless_stale since c ->
  make_calls calls c = Ok c' ->
  sized_unless_stale
    (fold_left
       (fun since call =>
          match call with
          | call_set_operator_def _ => true
          | call_set_output_mem_type _ => false
          | call_SetInputInfo _ _ _ => since
          end)
       calls since)
    c'.
Proof.
  revert since c. induction calls as [|call calls IH]; intros since c Hinv.
  - simpl. by intros [= <-].
  - unfold make_calls. simpl.
    destruct (make_call call c) as [c1|] eqn:Hcall; [|done]. simpl.
    apply IH. destruct call as [operator_def|type|idx mem_type dt].
    + simpl in Hcall. injection Hcall as <-.
      intros def _. simpl. split; [|done]. intros Hne. by contradict Hne.
    + simpl in Hcall. unfold OpConstructContext.set_output_mem_type in Hcall.
      destruct (MACE_CHECK _ _); [|done]. simpl in Hcall.
      injection Hcall as <-. intros def Hdef. simpl in *.
      split; [by apply Hinv|]. intros _ Hne. by contradict Hne.
    + by eapply SetInputInfo_sized.
Qed.

(** C5, as the code has it.  After any sequence of [set_operator_def],
    [set_output_mem_type] and [SetInputInfo] on a fresh context that runs
    to its end, [input_data_types], when materialized, is as long as the
    current definition has inputs; and so is [input_mem_types], provided
    [set_operator_def] has not been called after the last
    [set_output_mem_type]. *)
Theorem input_vectors_sized_unless_stale (ws : pointer)
    (calls : list context_call) (c : OpConstructContext.t)
    (def : OperatorDef.t) :
  make_calls calls (OpConstructContext.new ws) = Ok c ->
  OpConstructContext.operator_def c = Some def ->
  sized_for def (OpConstructContext.input_data_types_ c)
  /\ (def_set_since_mem_reset calls = false ->
      sized_for def (OpConstructContext.input_mem_types_ c)).
Proof.
  intros Hcalls Hdef.
  apply (make_calls_sized calls false (OpConstructContext.new ws) c);
    [|done|done].
  intros def' Hdef'. done.
Qed.
End vector_lengths.

(** ** Binding an operation to the workspace *)

Section binding.
Context `{Declarations}.

Lemma GetTensor_present (name : string) (ws : Workspace.t) :
  Workspace.HasTensor name ws = true ->
  Workspace.GetTensor name ws = Some name.
Proof. unfold Workspace.GetTensor. by intros ->. Qed.

Lemma GetTensor_absent (name : string) (ws : Workspace.t) :
  Workspace.HasTensor name ws = false ->
  Workspace.GetTensor name ws = None.
Proof. unfold Workspace.GetTensor. by intros ->. Qed.

Lemma HasTensor_lookup (name : string) (ws : Workspace.t) :
  Workspace.HasTensor name ws = true
  <-> is_Some (Workspace.tensor_map_ ws !! name).
Proof. unfold Workspace.HasTensor. by rewrite bool_decide_eq_true. Qed.

Lemma bind_input_present (def : OperatorDef.t) (ws : Workspace.t)
    (name : string) (inputs : list Tensor_ptr) :
  Workspace.HasTensor name ws = true ->
  Operation.bind_input def ws name inputs = Ok (inputs ++ [Some name]).
Proof.
  intros Hname. unfold Operation.bind_input.
  by rewrite (GetTensor_present _ _ Hname).
Qed.

Lemma bind_input_absent (def : OperatorDef.t) (ws : Workspace.t)
    (name : string) (inputs : list Tensor_ptr) :
  Workspace.HasTensor name ws = false ->
  Operation.bind_input def ws name inputs
  = Abort (CheckFailed (Operation.missing_input_diagnostic def name)).
Proof.
  intros Hname. unfold Operation.bind_input.
  by rewrite (GetTensor_absent _ _ Hname).
Qed.

Lemma bind_inputs_present (def : OperatorDef.t) (ws : Workspace.t)
    (names : list string) (inputs : list Tensor_ptr) :
  (forall name, name ∈ names -> Workspace.HasTensor name ws = true) ->
  for_each (Operation.bind_input def ws) names inputs
  = Ok (inputs ++ (Some <$> names)).
Proof.
  revert inputs. induction names as [|name names IH]; intros inputs Hall.
  - simpl. by rewrite app_nil_r.
  - rewrite for_each_cons, bind_input_present by (apply Hall; left).
    simpl. rewrite IH by (intros; apply Hall; by right).
    by rewrite <- app_assoc.
Qed.

Lemma bind_inputs_missing (def : OperatorDef.t) (ws : Workspace.t)
    (present rest : list string) (missing : string)
    (inputs : list Tensor_ptr) :
  (forall name, name ∈ present -> Workspace.HasTensor name ws = true) ->
  Workspace.HasTensor missing ws = false ->
  for_each (Operation.bind_input def ws) (present ++ missing :: rest) inputs
  = Abort (CheckFailed (Operation.missing_input_diagnostic def missing)).
Proof.
  revert inputs. induction present as [|name present IH];
    intros inputs Hall Hmissing.
  - simpl app. by rewrite for_each_cons, bind_input_absent.
  - simpl app.
    rewrite for_each_cons, bind_input_present by (apply Hall; left).
    simpl. apply IH; [|done]. intros; apply Hall; by right.
Qed.

(** Among names of which one is missing, there is a first missing one. *)
Lemma first_missing (ws : Workspace.t) (names : list string) :
  (exists name, name ∈ names /\ Workspace.HasTensor name ws = false) ->
  exists present missing rest,
    names = present ++ missing :: rest
    /\ (forall name, name ∈ present -> Workspace.HasTensor name ws = true)
    /\ Workspace.HasTensor missing ws = false.
Proof.
  induction names as [|name names IH]; intros (n & Hin & Hn).
  - by apply elem_of_nil in Hin.
  - destruct (Workspace.HasTensor name ws) eqn:Hname.
    + destruct IH as (present & missing & rest & -> & Hall & Hmissing).
      { apply elem_of_cons in Hin as [->|Hin]; [congruence|eauto]. }
      exists (name :: present), missing, rest. split_and!; [done| |done].
      intros x [->|Hx]%elem_of_cons; auto.
    + exists [], name, names. split_and!; [done| |done].
      intros x Hx. by apply elem_of_nil in Hx.
Qed.

(** [Init] once every input name has a tensor: the inputs are bound, and the
    loop over the outputs decides the rest. *)
Lemma Init_inputs_bound (context : OpInitContext.t) (self : Operation.t)
    (def : OperatorDef.t) :
  Operation.operator_def_ self = Some def ->
  (forall name,
     name ∈ OperatorDef.input def ->
     Workspace.HasTensor name (OpInitContext.workspace context) = true) ->
  Operation.Init context self
  = for_range (Operation.bind_output context def) 0
      (OperatorDef.output_size def)
      (OpInitContext.workspace context, Operation.outputs_ self)
    ≫= fun '(ws', outputs) =>
         Ok (Operation.mk (Some def)
               (Operation.inputs_ self ++ (Some <$> OperatorDef.input def))
               outputs, ws').
Proof.
  intros Hdef Hall. unfold Operation.Init. rewrite Hdef. cbn.
  by rewrite (bind_inputs_present def _ _ _ Hall).
Qed.

(** C7.  [Init] aborts, with the diagnostic that names the operator type
    and the first declared input name without a tensor, whenever some
    declared input name has no tensor in the workspace; when every input
    name has a tensor, the loop over the inputs binds them all in declared
    order, and [Init] goes on to the outputs. *)
Theorem missing_input_fatality (context : OpInitContext.t)
    (self : Operation.t) (def : OperatorDef.t) :
  Operation.operator_def_ self = Some def ->
  let ws := OpInitContext.workspace context in
  ((exists name,
      name ∈ OperatorDef.input def /\ Workspace.HasTensor name ws = false) ->
   exists present missing rest,
     OperatorDef.input def = present ++ missing :: rest
     /\ (forall name, name ∈ present -> Workspace.HasTensor name ws = true)
     /\ Workspace.HasTensor missing ws = false
     /\ Operation.Init context self
        = Abort (CheckFailed
                   ("op " +:+ OperatorDef.type def
                    +:+ ": Encountered a non-existing input tensor: "
                    +:+ missing)))
  /\ ((forall name,
         name ∈ OperatorDef.input def ->
         Workspace.HasTensor name ws = true) ->
      let inputs := Operation.inputs_ self ++ (Some <$> OperatorDef.input def)
      in
      for_each (Operation.bind_input def ws) (OperatorDef.input def)
        (Operation.inputs_ self)
      = Ok inputs
      /\ Operation.Init context self
         = for_range (Operation.bind_output context def) 0
             (OperatorDef.output_size def) (ws, Operation.outputs_ self)
           ≫= fun '(ws', outputs) =>
                Ok (Operation.mk (Some def) inputs outputs, ws')).
Proof.
  intros Hdef ws. split.
  - intros Hsome.
    destruct (first_missing ws _ Hsome)
      as (present & missing & rest & Hnames & Hall & Hmissing).
    exists present, missing, rest. split_and!; [done..|].
    unfold Operation.Init. rewrite Hdef. cbn. fold ws.
    rewrite Hnames, (bind_inputs_missing def ws) by done. done.
  - intros Hall inputs. split.
    + by apply bind_inputs_present.
    + by apply Init_inputs_bound.
Qed.


(** The loop that fills [shape_configured] copies the dimensions. *)
Lemma configured_shape_loop (dims : list Z) (count first : nat) :
  first + count = length dims ->
  for_range
    (fun dim shape_configured =>
       d ← Get dims dim; Ok (<[dim := d]> shape_configured))
    first count (take first dims ++ replicate count 0%Z)
  = Ok dims.
Proof.
  revert first. induction count as [|count IH]; intros first Hlen.
  - simpl. rewrite take_ge by lia. by rewrite app_nil_r.
  - destruct (lookup_lt_is_Some_2 dims first) as [d Hd]; [lia|].
    rewrite for_range_S. cbv beta. rewrite (Get_Some _ _ _ Hd). cbn.
    rewrite <- (IH (S first)) by lia. f_equal.
    rewrite (take_S_r _ _ _ Hd), <- app_assoc. cbn.
    rewrite insert_app_r_alt by (rewrite length_take; lia).
    rewrite length_take, Nat.min_l, Nat.sub_diag by lia. done.
Qed.

Lemma configured_shape_dims (shape : OutputShape.t) :
  Operation.configured_shape shape = Ok (OutputShape.dims shape).
Proof.
  unfold Operation.configured_shape, OutputShape.dims_size.
  apply (configured_shape_loop (OutputShape.dims shape) _ 0). done.
Qed.

(** recording the configured shape, for a tensor that is in the workspace *)
Lemma configure_output_shape (def : OperatorDef.t) (i : nat)
    (name : string) (ws : Workspace.t) (outputs : list Tensor_ptr) :
  Workspace.HasTensor name ws = true ->
  (if bool_decide (i < OperatorDef.output_shape_size def) then
     shape ← Get (OperatorDef.output_shape def) i;
     shape_configured ← Operation.configured_shape shape;
     ws' ← Workspace.SetShapeConfigured_at
             (Workspace.GetTensor name ws) shape_configured ws;
     Ok (ws', outputs)
   else Ok (ws, outputs))
  = Ok (with_configured_shape def i name ws, outputs).
Proof.
  intros Hname. unfold with_configured_shape, Get.
  unfold OperatorDef.output_shape_size. case_bool_decide as Hi.
  - destruct (lookup_lt_is_Some_2 _ _ Hi) as [shape Hshape].
    rewrite Hshape. cbn. rewrite configured_shape_dims. cbn.
    by rewrite (GetTensor_present _ _ Hname).
  - by rewrite lookup_ge_None_2 by lia.
Qed.

Lemma output_data_type_resolved (def : OperatorDef.t) (i : nat) :
  Operation.output_data_type def i = Ok (resolved_output_type def i).
Proof.
  unfold Operation.output_data_type, resolved_output_type, Get.
  unfold OperatorDef.output_type_size. case_bool_decide as Hi.
  - destruct (lookup_lt_is_Some_2 _ _ Hi) as [ty Hty]. by rewrite Hty.
  - by rewrite lookup_ge_None_2 by lia.
Qed.

Lemma bind_output_existing (context : OpInitContext.t)
    (def : OperatorDef.t) (i : nat) (name : string) (ws : Workspace.t)
    (outputs : list Tensor_ptr) :
  OperatorDef.output def !! i = Some name ->
  Workspace.HasTensor name ws = true ->
  Operation.bind_output context def i (ws, outputs)
  = Ok (with_configured_shape def i name ws, outputs ++ [Some name]).
Proof.
  intros Hi Hname. unfold Operation.bind_output.
  rewrite (Get_Some _ _ _ Hi). cbn. rewrite Hname. cbn.
  rewrite configure_output_shape by done.
  by rewrite (GetTensor_present _ _ Hname).
Qed.

Lemma bind_output_created (context : OpInitContext.t)
    (def : OperatorDef.t) (i : nat) (name : string) (ws : Workspace.t)
    (outputs : list Tensor_ptr) :
  OperatorDef.output def !! i = Some name ->
  Workspace.HasTensor name ws = false ->
  OperatorDef.output_type_size def = 0
  \/ OperatorDef.output_size def = OperatorDef.output_type_size def ->
  Operation.bind_output context def i (ws, outputs)
  = Ok (with_configured_shape def i name
          (with_created name
             (Tensor.new (Device.allocator (OpInitContext.device context))
                         (resolved_output_type def i))
             ws),
        outputs ++ [Some name]).
Proof.
  intros Hi Hname Hcount. unfold Operation.bind_output.
  rewrite (Get_Some _ _ _ Hi). cbn. rewrite Hname. cbn.
  assert (bool_decide (OperatorDef.output_type_size def = 0)
          || bool_decide (OperatorDef.output_size def
                          = OperatorDef.output_type_size def) = true) as ->.
  { apply orb_true_iff. rewrite !bool_decide_eq_true. done. }
  cbn. rewrite output_data_type_resolved. cbn.
  apply configure_output_shape.
  apply HasTensor_lookup. cbn. rewrite lookup_insert_eq. eauto.
Qed.

Lemma bind_output_mismatch (context : OpInitContext.t)
    (def : OperatorDef.t) (i : nat) (name : string) (ws : Workspace.t)
    (outputs : list Tensor_ptr) :
  OperatorDef.output def !! i = Some name ->
  Workspace.HasTensor name ws = false ->
  OperatorDef.output_type_size def <> 0 ->
  OperatorDef.output_size def <> OperatorDef.output_type_size def ->
  Operation.bind_output context def i (ws, outputs)
  = Abort (CheckFailed (Operation.output_type_diagnostic def)).
Proof.
  intros Hi Hname Hnonzero Hdiffer. unfold Operation.bind_output.
  rewrite (Get_Some _ _ _ Hi). cbn. rewrite Hname. cbn.
  rewrite (bool_decide_false _ Hnonzero), (bool_decide_false _ Hdiffer).
  reflexivity.
Qed.

Lemma with_configured_shape_lookup (def : OperatorDef.t) (i : nat)
    (name other : string) (ws : Workspace.t) :
  Workspace.tensor_map_ (with_configured_shape def i name ws) !! other
  = match OperatorDef.output_shape def !! i with
    | Some shape =>
        if decide (name = other) then
          Tensor.SetShapeConfigured (OutputShape.dims shape)
            <$> Workspace.tensor_map_ ws !! name
        else Workspace.tensor_map_ ws !! other
    | None => Workspace.tensor_map_ ws !! other
    end.
Proof.
  unfold with_configured_shape.
  destruct (OperatorDef.output_shape def !! i); [|done]. cbn.
  apply lookup_alter.
Qed.


Lemma with_configured_shape_dom (def : OperatorDef.t) (i : nat)
    (name : string) (ws : Workspace.t) :
  dom (Workspace.tensor_map_ (with_configured_shape def i name ws))
  = dom (Workspace.tensor_map_ ws).
Proof.
  unfold with_configured_shape.
  destruct (OperatorDef.output_shape def !! i); [|done]. cbn.
  apply dom_alter_L.
Qed.

(** the tensor under [name] after the configured shape is recorded: the
    same allocator and data type *)
Lemma with_configured_shape_tensor (def : OperatorDef.t) (i : nat)
    (name : string) (ws : Workspace.t) (tensor : Tensor.t) :
  Workspace.tensor_map_ ws !! name = Some tensor ->
  exists tensor',
    Workspace.tensor_map_ (with_configured_shape def i name ws) !! name
    = Some tensor'
    /\ Tensor.allocator_ tensor' = Tensor.allocator_ tensor
    /\ Tensor.dtype_ tensor' = Tensor.dtype_ tensor.
Proof.
  intros Htensor. rewrite with_configured_shape_lookup.
  destruct (OperatorDef.output_shape def !! i); [|eauto].
  rewrite decide_True by done. rewrite Htensor. cbn. eauto.
Qed.

Lemma with_configured_shape_other (def : OperatorDef.t) (i : nat)
    (name other : string) (ws : Workspace.t) :
  other <> name ->
  Workspace.tensor_map_ (with_configured_shape def i name ws) !! other
  = Workspace.tensor_map_ ws !! other.
Proof.
  intros Hother. rewrite with_configured_shape_lookup.
  destruct (OperatorDef.output_shape def !! i); [|done].
  by rewrite decide_False by auto.
Qed.

(** [Init] aborts when the loop over the outputs does at output [i]. *)
Lemma Init_output_abort (context : OpInitContext.t) (self : Operation.t)
    (def : OperatorDef.t) (i : nat) (name : string) (ws : Workspace.t)
    (outputs : list Tensor_ptr) (f : fault) :
  Operation.operator_def_ self = Some def ->
  (forall input_str,
     input_str ∈ OperatorDef.input def ->
     Workspace.HasTensor input_str (OpInitContext.workspace context) = true) ->
  OperatorDef.output def !! i = Some name ->
  for_range (Operation.bind_output context def) 0 i
    (OpInitContext.workspace context, Operation.outputs_ self)
  = Ok (ws, outputs) ->
  Operation.bind_output context def i (ws, outputs) = Abort f ->
  Operation.Init context self = Abort f.
Proof.
  intros Hdef Hinputs Hi Hreach Hstep.
  rewrite (Init_inputs_bound _ _ _ Hdef Hinputs).
  apply lookup_lt_Some in Hi. unfold OperatorDef.output_size.
  replace (length (OperatorDef.output def))
    with (i + S (length (OperatorDef.output def) - S i)) by lia.
  rewrite for_range_app, Hreach. cbn [mbind result_bind].
  rewrite for_range_S, Nat.add_0_l, Hstep. done.
Qed.

End binding.

(** * Further properties *)

(** ** The construct context *)

Section context_overrides.
Context `{Declarations}.

(** [SetInputInfo] on a context that holds a definition and an output
    memory type: the vectors it works on, the check, the two writes. *)
Lemma SetInputInfo_unfold (c : OpConstructContext.t) (def : OperatorDef.t)
    (M : MemoryType) (idx : nat) (mem_type : MemoryType) (dt : DataType) :
  holds c def M ->
  let mem_types :=
    if bool_decide (OpConstructContext.input_mem_types_ c = [])
    then replicate (OperatorDef.input_size def) M
    else OpConstructContext.input_mem_types_ c in
  let data_types :=
    if bool_decide (OpConstructContext.input_data_types_ c = [])
    then replicate (OperatorDef.input_size def) (op_data_type def)
    else OpConstructContext.input_data_types_ c in
  OpConstructContext.SetInputInfo idx mem_type dt c
  = if bool_decide (idx < length mem_types)
       && bool_decide (idx < length data_types)
    then Ok (OpConstructContext.mk (Some def)
               (OpConstructContext.ws_ c) (OpConstructContext.device_ c)
               (OpConstructContext.tensor_shape_info_ c) (Some M)
               (<[idx := mem_type]> mem_types) (<[idx := dt]> data_types))
    else Abort (CheckFailed "").
Proof.
  intros [Hdef HM] mem_types data_types.
  unfold OpConstructContext.SetInputInfo. rewrite Hdef, HM. cbn.
  assert ((if bool_decide (OpConstructContext.input_mem_types_ c = [])
           then Ok (resize (OperatorDef.input_size def) M
                      (OpConstructContext.input_mem_types_ c))
           else Ok (OpConstructContext.input_mem_types_ c))
          = Ok mem_types) as ->.
  { unfold mem_types. case_bool_decide as E; [|done].
    by rewrite E, resize_nil. }
  assert ((if bool_decide (OpConstructContext.input_data_types_ c = [])
           then Ok (resize (OperatorDef.input_size def)
                      (ProtoArgHelper.GetOptionalArg def "T" DT_FLOAT)
                      (OpConstructContext.input_data_types_ c))
           else Ok (OpConstructContext.input_data_types_ c))
          = Ok data_types) as ->.
  { unfold data_types. case_bool_decide as E; [|done].
    by rewrite E, resize_nil. }
  cbn. by destruct (bool_decide _ && bool_decide _).
Qed.

(** [SetInputInfo] with an index in range, before any override. *)
Lemma SetInputInfo_first (c : OpConstructContext.t) (def : OperatorDef.t)
    (M : MemoryType) (idx : nat) (mem_type : MemoryType) (dt : DataType) :
  holds c def M -> unmaterialized c ->
  idx < OperatorDef.input_size def ->
  OpConstructContext.SetInputInfo idx mem_type dt c
  = Ok (OpConstructContext.mk (Some def)
          (OpConstructContext.ws_ c) (OpConstructContext.device_ c)
          (OpConstructContext.tensor_shape_info_ c) (Some M)
          (<[idx := mem_type]> (replicate (OperatorDef.input_size def) M))
          (<[idx := dt]>
             (replicate (OperatorDef.input_size def) (op_data_type def)))).
Proof.
  intros Hholds [Hmem Hdata] Hidx.
  rewrite (SetInputInfo_unfold c def M) by done. cbn zeta.
  rewrite Hmem, Hdata. cbn.
  rewrite !length_replicate, bool_decide_true by done. done.
Qed.

Lemma GetInputMemType_materialized (c : OpConstructContext.t) (idx : nat) :
  OpConstructContext.input_mem_types_ c <> [] ->
  OpConstructContext.GetInputMemType idx c
  = match OpConstructContext.input_mem_types_ c !! idx with
    | Some type => Ok type
    | None =>
        Abort (CheckFailed
                 (pretty idx +:+ " < "
                  +:+ pretty (length (OpConstructContext.input_mem_types_ c))))
    end.
Proof.
  intros Hne. unfold OpConstructContext.GetInputMemType, Get.
  rewrite bool_decide_false by done.
  destruct (OpConstructContext.input_mem_types_ c !! idx) as [type|] eqn:E.
  - rewrite bool_decide_true by (by eapply lookup_lt_Some). done.
  - rewrite bool_decide_false by (apply lookup_ge_None in E; lia). done.
Qed.

Lemma GetInputDataType_materialized (c : OpConstructContext.t) (idx : nat) :
  OpConstructContext.input_data_types_ c <> [] ->
  OpConstructContext.GetInputDataType idx c
  = match OpConstructContext.input_data_types_ c !! idx with
    | Some dt => Ok dt
    | None => Abort (CheckFailed "")
    end.
Proof.
  intros Hne. unfold OpConstructContext.GetInputDataType, Get.
  rewrite bool_decide_false by done.
  destruct (OpConstructContext.input_data_types_ c !! idx) as [dt|] eqn:E.
  - rewrite bool_decide_true by (by eapply lookup_lt_Some). done.
  - rewrite bool_decide_false by (apply lookup_ge_None in E; lia). done.
Qed.

Lemma insert_replicate_ne {A : Type} (idx count : nat) (x y : A) :
  idx < count -> <[idx := x]> (replicate count y) <> [].
Proof.
  intros Hidx E. apply (f_equal length) in E.
  rewrite length_insert, length_replicate in E. simpl in E. lia.
Qed.

Lemma lookup_insert_replicate {A : Type} (idx j count : nat) (x y : A) :
  idx < count ->
  <[idx := x]> (replicate count y) !! j
  = if decide (j < count) then Some (if decide (j = idx) then x else y)
    else None.
Proof.
  intros Hidx. case_decide as Hj.
  - case_decide as E.
    + subst j. apply list_lookup_insert_eq. by rewrite length_replicate.
    + rewrite list_lookup_insert_ne by auto. by apply lookup_replicate_2.
  - apply lookup_ge_None. rewrite length_insert, length_replicate. lia.
Qed.

(** X1.  The first [SetInputInfo(idx, mem_type, dt)] with [idx] in range
    succeeds, and afterwards every input but [idx] still reports the
    defaults: [GetInputMemType(j)] is [mem_type] at [idx] and the output
    memory type elsewhere, [GetInputDataType(j)] is [dt] at [idx] and the
    data type of the operation elsewhere, and both abort on their bounds
    check for every [j] at or past the input count. *)
Theorem first_override_reads (c : OpConstructContext.t)
    (def : OperatorDef.t) (M : MemoryType) (idx : nat)
    (mem_type : MemoryType) (dt : DataType) :
  holds c def M -> unmaterialized c ->
  idx < OperatorDef.input_size def ->
  exists c',
    OpConstructContext.SetInputInfo idx mem_type dt c = Ok c'
    /\ forall j,
         OpConstructContext.GetInputMemType j c'
         = (if decide (j < OperatorDef.input_size def)
            then Ok (if decide (j = idx) then mem_type else M)
            else Abort (CheckFailed
                          (pretty j +:+ " < "
                           +:+ pretty (OperatorDef.input_size def))))
         /\ OpConstructContext.GetInputDataType j c'
            = (if decide (j < OperatorDef.input_size def)
               then Ok (if decide (j = idx) then dt else op_data_type def)
               else Abort (CheckFailed "")).
Proof.
  intros Hholds Hfresh Hidx. eexists. split.
  { by apply (SetInputInfo_first c def M). }
  intros j. split.
  - rewrite GetInputMemType_materialized
      by (cbn; by apply insert_replicate_ne).
    cbn. rewrite lookup_insert_replicate by done.
    rewrite length_insert, length_replicate. by case_decide.
  - rewrite GetInputDataType_materialized
      by (cbn; by apply insert_replicate_ne).
    cbn. rewrite lookup_insert_replicate by done. by case_decide.
Qed.

Lemma holds_after_first (c : OpConstructContext.t) (def : OperatorDef.t)
    (M : MemoryType) (mem_types : list MemoryType)
    (data_types : list DataType) :
  holds (OpConstructContext.mk (Some def)
           (OpConstructContext.ws_ c) (OpConstructContext.device_ c)
           (OpConstructContext.tensor_shape_info_ c) (Some M)
           mem_types data_types) def M.
Proof. by split. Qed.

(** X2.  Misuse of the context ends the process: [set_output_mem_type]
    before any definition fails its check; the first [SetInputInfo] with
    an index at or past the input count fails the bounds check; and
    [SetInputInfo] before any definition dereferences a null pointer. *)
Theorem context_misuse_aborts :
  (forall (c : OpConstructContext.t) (type : MemoryType),
     OpConstructContext.operator_def_ c = None ->
     OpConstructContext.set_output_mem_type type c
     = Abort (CheckFailed ""))
  /\ (forall (c : OpConstructContext.t) (def : OperatorDef.t)
             (M : MemoryType) (idx : nat) (mem_type : MemoryType)
             (dt : DataType),
        holds c def M -> unmaterialized c ->
        OperatorDef.input_size def <= idx ->
        OpConstructContext.SetInputInfo idx mem_type dt c
        = Abort (CheckFailed ""))
  /\ (forall (c : OpConstructContext.t) (idx : nat) (mem_type : MemoryType)
             (dt : DataType),
        OpConstructContext.operator_def_ c = None ->
        OpConstructContext.input_mem_types_ c = [] ->
        OpConstructContext.SetInputInfo idx mem_type dt c
        = Abort NullPointer).
Proof.
  split_and!.
  - intros c type Hdef. unfold OpConstructContext.set_output_mem_type.
    by rewrite Hdef.
  - intros c def M idx mem_type dt Hholds [Hmem Hdata] Hidx.
    rewrite (SetInputInfo_unfold c def M) by done. cbn zeta.
    rewrite Hmem, Hdata. cbn. rewrite !length_replicate.
    by rewrite bool_decide_false by lia.
  - intros c idx mem_type dt Hdef Hmem.
    unfold OpConstructContext.SetInputInfo. by rewrite Hdef, Hmem.
Qed.

(** X3.  Overrides accumulate.  After [SetInputInfo(i, m1, d1)] and then
    [SetInputInfo(j, m2, d2)], both in range, input [j] reports [m2] and
    [d2], input [i] (when it is not [j]) still reports [m1] and [d1], and
    every other input reports the defaults. *)
Theorem second_override_reads (c : OpConstructContext.t)
    (def : OperatorDef.t) (M : MemoryType) (i j : nat)
    (m1 m2 : MemoryType) (d1 d2 : DataType) :
  holds c def M -> unmaterialized c ->
  i < OperatorDef.input_size def ->
  j < OperatorDef.input_size def ->
  exists c'',
    OpConstructContext.SetInputInfo i m1 d1 c
    ≫= OpConstructContext.SetInputInfo j m2 d2
    = Ok c''
    /\ forall k, k < OperatorDef.input_size def ->
         OpConstructContext.GetInputMemType k c''
         = Ok (if decide (k = j) then m2
               else if decide (k = i) then m1 else M)
         /\ OpConstructContext.GetInputDataType k c''
            = Ok (if decide (k = j) then d2
                  else if decide (k = i) then d1 else op_data_type def).
Proof.
  intros Hholds Hfresh Hi Hj.
  rewrite (SetInputInfo_first c def M) by done. cbn [mbind result_bind].
  rewrite (SetInputInfo_unfold _ def M) by apply holds_after_first.
  cbn zeta. cbn [OpConstructContext.input_mem_types_
                 OpConstructContext.input_data_types_
                 OpConstructContext.ws_ OpConstructContext.device_
                 OpConstructContext.tensor_shape_info_].
  rewrite (bool_decide_false (<[i:=m1]> _ = []))
    by (by apply insert_replicate_ne).
  rewrite (bool_decide_false (<[i:=d1]> _ = []))
    by (by apply insert_replicate_ne).
  rewrite !length_insert, !length_replicate, bool_decide_true by done.
  cbn. eexists. split; [done|]. intros k Hk. split.
  - rewrite GetInputMemType_materialized.
    2: { cbn. intros E. apply (f_equal length) in E.
         rewrite !length_insert, length_replicate in E. simpl in E. lia. }
    cbn. case_decide as Ekj.
    + subst k. rewrite list_lookup_insert_eq; [done|].
      by rewrite length_insert, length_replicate.
    + rewrite list_lookup_insert_ne by auto.
      rewrite lookup_insert_replicate by done.
      by rewrite decide_True by done.
  - rewrite GetInputDataType_materialized.
    2: { cbn. intros E. apply (f_equal length) in E.
         rewrite !length_insert, length_replicate in E. simpl in E. lia. }
    cbn. case_decide as Ekj.
    + subst k. rewrite list_lookup_insert_eq; [done|].
      by rewrite length_insert, length_replicate.
    + rewrite list_lookup_insert_ne by auto.
      rewrite lookup_insert_replicate by done.
      by rewrite decide_True by done.
Qed.

(** X4.  Each setter discards the overrides of one kind and keeps the
    other.  After an override of input [idx], [set_output_mem_type(M')]
    makes every input report the memory type [M'], while input [idx] keeps
    its overridden data type; and [set_operator_def(def2)] makes every
    input report the data type of [def2], while input [idx] keeps its
    overridden memory type. *)
Theorem setters_discard_overrides (c : OpConstructContext.t)
    (def : OperatorDef.t) (M : MemoryType) (idx : nat)
    (mem_type : MemoryType) (dt : DataType) :
  holds c def M -> unmaterialized c ->
  idx < OperatorDef.input_size def ->
  (forall M' : MemoryType,
     exists c',
       OpConstructContext.SetInputInfo idx mem_type dt c
       ≫= OpConstructContext.set_output_mem_type M'
       = Ok c'
       /\ (forall k, OpConstructContext.GetInputMemType k c' = Ok M')
       /\ OpConstructContext.GetInputDataType idx c' = Ok dt)
  /\ (forall def2 : OperatorDef.t,
        exists c',
          OpConstructContext.SetInputInfo idx mem_type dt c
          ≫= (fun c' =>
                Ok (OpConstructContext.set_operator_def (Some def2) c'))
          = Ok c'
          /\ (forall k,
                OpConstructContext.GetInputDataType k c'
                = Ok (op_data_type def2))
          /\ OpConstructContext.GetInputMemType idx c' = Ok mem_type).
Proof.
  intros Hholds Hfresh Hidx. split.
  - intros M'. rewrite (SetInputInfo_first c def M) by done.
    eexists. split; [reflexivity|]. split.
    + intros k. reflexivity.
    + rewrite GetInputDataType_materialized
        by (cbn; by apply insert_replicate_ne).
      cbn. rewrite lookup_insert_replicate by done.
      by rewrite !decide_True by done.
  - intros def2. rewrite (SetInputInfo_first c def M) by done.
    eexists. split; [reflexivity|]. split.
    + intros k. reflexivity.
    + rewrite GetInputMemType_materialized
        by (cbn; by apply insert_replicate_ne).
      cbn. rewrite lookup_insert_replicate by done.
      by rewrite !decide_True by done.
Qed.

(** X5.  After [set_operator_def] the bounds of the memory types are those
    of the previous definition.  With an override made under [def] and the
    definition then replaced by [def2]: [GetInputMemType(k)] answers for
    every [k] below the input count of [def], also past the input count of
    [def2]; and [SetInputInfo(k, ..)] fails its check as soon as [k] is at
    or past either input count, also when [k] is an input of [def2]. *)
Theorem memory_types_keep_old_bounds (c : OpConstructContext.t)
    (def def2 : OperatorDef.t) (M : MemoryType) (idx : nat)
    (mem_type : MemoryType) (dt : DataType) :
  holds c def M -> unmaterialized c ->
  idx < OperatorDef.input_size def ->
  exists c',
    OpConstructContext.SetInputInfo idx mem_type dt c
    ≫= (fun c' => Ok (OpConstructContext.set_operator_def (Some def2) c'))
    = Ok c'
    /\ (forall k, k < OperatorDef.input_size def ->
          OpConstructContext.GetInputMemType k c'
          = Ok (if decide (k = idx) then mem_type else M))
    /\ (forall k mem_type' dt',
          OperatorDef.input_size def <= k
          \/ OperatorDef.input_size def2 <= k ->
          OpConstructContext.SetInputInfo k mem_type' dt' c'
          = Abort (CheckFailed "")).
Proof.
  intros Hholds Hfresh Hidx.
  rewrite (SetInputInfo_first c def M) by done.
  eexists. split; [reflexivity|]. split.
  - intros k Hk. rewrite GetInputMemType_materialized
      by (cbn; by apply insert_replicate_ne).
    cbn. rewrite lookup_insert_replicate by done.
    by rewrite decide_True by done.
  - intros k mem_type' dt' Hk.
    rewrite (SetInputInfo_unfold _ def2 M) by (by split).
    cbn.
    rewrite (bool_decide_false (<[idx:=mem_type]> _ = []))
      by (by apply insert_replicate_ne).
    rewrite length_insert, !length_replicate.
    destruct Hk as [Hk|Hk].
    + by rewrite (bool_decide_false (k < OperatorDef.input_size def)) by lia.
    + rewrite (bool_decide_false (k < OperatorDef.input_size def2)) by lia.
      by rewrite andb_false_r.
Qed.
End context_overrides.

(** ** The registry *)

Section registry_more.
Context `{Declarations}.

Lemma info_of_lookup (op_type : string) (r : OpRegistryBase.t)
    (info : OpRegistrationInfo.t) :
  OpRegistryBase.registry_ r !! op_type = Some info ->
  info_of op_type r = info.
Proof. unfold info_of. by intros ->. Qed.

(** [Register(builder)] in one step: it never aborts. *)
Lemma Register_condition_unfold (builder : OpConditionBuilder.t)
    (r : OpRegistryBase.t) :
  OpRegistryBase.Register_condition builder r
  = Ok {| OpRegistryBase.registry_ :=
            <[OpConditionBuilder.type builder :=
                finalized builder
                  (info_of (OpConditionBuilder.type builder) r)]>
              (OpRegistryBase.registry_ r) |}.
Proof.
  unfold OpRegistryBase.Register_condition, OpRegistryBase.ensure,
    OpConditionBuilder.Finalize, finalized, info_of.
  set (op_type := OpConditionBuilder.type builder).
  destruct r as [registry]. cbn.
  destruct (registry !! op_type) as [info|] eqn:E; cbn.
  - rewrite E. by destruct (OpConditionBuilder.placer_ builder).
  - rewrite lookup_insert_eq.
    destruct (OpConditionBuilder.placer_ builder); cbn;
      by rewrite insert_insert_eq.
Qed.

(** [CreateOperation] in one step, for a context that holds a
    definition. *)
Lemma CreateOperation_unfold (context : OpConstructContext.t)
    (def : OperatorDef.t) (device : DeviceType) (r : OpRegistryBase.t) :
  OpConstructContext.operator_def context = Some def ->
  OpRegistryBase.CreateOperation context device r
  = dispatch r (OperatorDef.type def)
      (key_text (OperatorDef.type def) device (dispatched_type device def))
      (with_operator_def (dispatched_def device def) context).
Proof.
  intros Hdef. unfold OpRegistryBase.CreateOperation.
  rewrite Hdef. cbn.
  unfold dispatched_type, dispatched_def, downgrades, op_data_type.
  destruct (bool_decide (device = CPU)
            && bool_decide (ProtoArgHelper.GetOptionalArg def "T" DT_FLOAT
                            = DT_HALF)) eqn:Hdown; cbn.
  - unfold OperatorDef.arg_size. rewrite downgrade_all. cbn.
    fold (with_operator_def
            (OperatorDef.with_arg (downgraded (OperatorDef.arg def)) def)
            context).
    rewrite (Build_key_text _ device DT_FLOAT)
      by (cbn; by rewrite ?lookup_insert_eq).
    cbn. unfold dispatch, OpRegistryBase.at_.
    by destruct (OpRegistryBase.registry_ r !! OperatorDef.type def).
  - fold (with_operator_def def context).
    rewrite (Build_key_text _ device
               (ProtoArgHelper.GetOptionalArg def "T" DT_FLOAT))
      by (cbn; by rewrite ?lookup_insert_eq).
    cbn. unfold dispatch, OpRegistryBase.at_.
    by destruct (OpRegistryBase.registry_ r !! OperatorDef.type def).
Qed.

Lemma dispatched_def_type (device : DeviceType) (def : OperatorDef.t) :
  OperatorDef.type (dispatched_def device def) = OperatorDef.type def.
Proof. unfold dispatched_def. by destruct (downgrades device def). Qed.

(** X6.  What [AvailableDevices] and [CreateOperation] do when the
    registry cannot serve them: an operator type that was never
    registered fails the check with ["<type> operation is not
    registered."], for every device and data type; a registered type
    without a creator under the key of the device and the data type used
    for dispatch ends with ["Key not registered: <key>"]; and a context
    without a definition is a null dereference. *)
Theorem registry_failures (r : OpRegistryBase.t)
    (context : OpConstructContext.t) (device : DeviceType) :
  (forall op_type,
     OpRegistryBase.registry_ r !! op_type = None ->
     OpRegistryBase.AvailableDevices op_type context r
     = Abort (CheckFailed (op_type +:+ " operation is not registered.")))
  /\ (forall def,
        OpConstructContext.operator_def context = Some def ->
        OpRegistryBase.registry_ r !! OperatorDef.type def = None ->
        OpRegistryBase.CreateOperation context device r
        = Abort (CheckFailed
                   (OperatorDef.type def
                    +:+ " operation is not registered.")))
  /\ (forall def info,
        OpConstructContext.operator_def context = Some def ->
        OpRegistryBase.registry_ r !! OperatorDef.type def = Some info ->
        OpRegistrationInfo.creators info
        !! key_text (OperatorDef.type def) device
             (dispatched_type device def) = None ->
        OpRegistryBase.CreateOperation context device r
        = Abort (CheckFailed
                   ("Key not registered: "
                    +:+ key_text (OperatorDef.type def) device
                          (dispatched_type device def))))
  /\ (OpConstructContext.operator_def context = None ->
      OpRegistryBase.CreateOperation context device r = Abort NullPointer).
Proof.
  split_and!.
  - intros op_type Hnone. unfold OpRegistryBase.AvailableDevices.
    rewrite Hnone. by rewrite bool_decide_false by auto.
  - intros def Hdef Hnone. rewrite (CreateOperation_unfold _ def) by done.
    unfold dispatch. by rewrite Hnone.
  - intros def info Hdef Hinfo Hkey.
    rewrite (CreateOperation_unfold _ def) by done.
    unfold dispatch. rewrite Hinfo.
    unfold OpRegistrationInfo.OpCreator in *. by rewrite Hkey.
  - intros Hdef. unfold OpRegistryBase.CreateOperation. by rewrite Hdef.
Qed.

Lemma Register_ok_inv (op_type : string) (device : DeviceType)
    (dt : DataType) (creator : OpRegistrationInfo.OpCreator)
    (r r' : OpRegistryBase.t) :
  OpRegistryBase.Register op_type device dt creator r = Ok r' ->
  creators_of op_type r !! key_text op_type device dt = None
  /\ r' = {| OpRegistryBase.registry_ :=
               <[op_type :=
                   {| OpRegistrationInfo.devices :=
                        {[ device ]}
                        ∪ OpRegistrationInfo.devices (info_of op_type r);
                      OpRegistrationInfo.device_placer :=
                        OpRegistrationInfo.device_placer (info_of op_type r);
                      OpRegistrationInfo.creators :=
                        <[key_text op_type device dt := creator]>
                          (creators_of op_type r) |}]>
                 (OpRegistryBase.registry_ r) |}.
Proof.
  rewrite Register_unfold. cbn zeta. unfold creators_of.
  destruct (OpRegistrationInfo.creators (info_of op_type r) !! _);
    [done|]. by intros [= <-].
Qed.

(** X7.  What a registration leaves alone.  A successful
    [Register(op_type, device, dt, creator)] never replaces or removes a
    creator that was registered, of any operator type; it leaves the
    registrations of all other operator types as they were; it adds
    [device] to the devices of [op_type] and keeps its placer. *)
Theorem registration_frame (op_type : string) (device : DeviceType)
    (dt : DataType) (creator : OpRegistrationInfo.OpCreator)
    (r r' : OpRegistryBase.t) :
  OpRegistryBase.Register op_type device dt creator r = Ok r' ->
  (forall op_type' key creator',
     creators_of op_type' r !! key = Some creator' ->
     creators_of op_type' r' !! key = Some creator')
  /\ (forall op_type', op_type' <> op_type ->
        OpRegistryBase.registry_ r' !! op_type'
        = OpRegistryBase.registry_ r !! op_type')
  /\ OpRegistrationInfo.devices (info_of op_type r')
     = {[ device ]} ∪ OpRegistrationInfo.devices (info_of op_type r)
  /\ OpRegistrationInfo.device_placer (info_of op_type r')
     = OpRegistrationInfo.device_placer (info_of op_type r)
  /\ creators_of op_type r' !! key_text op_type device dt = Some creator.
Proof.
  intros Hreg. apply Register_ok_inv in Hreg as [Hfree ->].
  unfold creators_of in *. split_and!.
  - intros op_type' key creator' Hold.
    destruct (decide (op_type' = op_type)) as [->|Hne].
    + unfold info_of at 1. cbn. rewrite lookup_insert_eq. cbn.
      rewrite lookup_insert_ne; [done|]. intros <-. congruence.
    + unfold info_of at 1. cbn. by rewrite lookup_insert_ne by auto.
  - intros op_type' Hne. cbn. by rewrite lookup_insert_ne by auto.
  - unfold info_of at 1. cbn. by rewrite lookup_insert_eq.
  - unfold info_of at 1. cbn. by rewrite lookup_insert_eq.
  - unfold info_of at 1. cbn. rewrite lookup_insert_eq. cbn.
    by rewrite lookup_insert_eq.
Qed.

(** X8.  Registration and creation round-trip.  Once
    [Register(op_type, device, dt, creator)] has succeeded, and whatever
    is registered successfully afterwards, [CreateOperation] on [device]
    for a definition of type [op_type] whose data type used for dispatch
    is [dt] calls [creator] on the context, which holds the definition as
    [CreateOperation] leaves it.  In particular a creator registered for
    ([CPU], [DT_FLOAT]) serves a definition whose ["T"] is [DT_HALF]. *)
Theorem register_then_create (op_type : string) (device : DeviceType)
    (dt : DataType) (creator : OpRegistrationInfo.OpCreator)
    (later : list registry_call) (r r1 r2 : OpRegistryBase.t)
    (context : OpConstructContext.t) (def : OperatorDef.t) :
  OpRegistryBase.Register op_type device dt creator r = Ok r1 ->
  for_each make_registry_call later r1 = Ok r2 ->
  OpConstructContext.operator_def context = Some def ->
  OperatorDef.type def = op_type ->
  dispatched_type device def = dt ->
  OpRegistryBase.CreateOperation context device r2
  = Ok (creator (with_operator_def (dispatched_def device def) context),
        with_operator_def (dispatched_def device def) context).
Proof.
  intros Hreg Hlater Hdef Htype Hdt.
  assert (creators_of op_type r2 !! key_text op_type device dt
          = Some creator) as Hkey.
  { assert (creators_of op_type r1 !! key_text op_type device dt
            = Some creator) as Hkey1.
    { apply Register_ok_inv in Hreg as [_ ->]. unfold creators_of, info_of.
      cbn. rewrite lookup_insert_eq. cbn. by rewrite lookup_insert_eq. }
    clear Hreg. revert r1 Hlater Hkey1.
    induction later as [|call later IH]; intros r1 Hlater Hkey1.
    - by injection Hlater as <-.
    - rewrite for_each_cons in Hlater.
      destruct (make_registry_call call r1) as [r1'|] eqn:Hcall; [|done].
      apply (IH r1' Hlater).
      destruct call as [t d' dt' c'|builder]; cbn in Hcall.
      + apply Register_ok_inv in Hcall as [Hfree ->].
        unfold creators_of in *.
        destruct (decide (op_type = t)) as [<-|Hne].
        * unfold info_of at 1. cbn. rewrite lookup_insert_eq. cbn.
          rewrite lookup_insert_ne; [done|]. intros E.
          rewrite E in Hfree. congruence.
        * unfold info_of at 1. cbn. by rewrite lookup_insert_ne by auto.
      + rewrite Register_condition_unfold in Hcall. injection Hcall as <-.
        unfold creators_of in *.
        destruct (decide (op_type = OpConditionBuilder.type builder))
          as [E|Hne].
        * unfold info_of at 1. cbn. rewrite <- E, lookup_insert_eq. cbn.
          unfold finalized.
          by destruct (OpConditionBuilder.placer_ builder).
        * unfold info_of at 1. cbn. by rewrite lookup_insert_ne by auto. }
  rewrite (CreateOperation_unfold _ def) by done.
  rewrite Htype, Hdt. unfold dispatch.
  unfold creators_of, info_of in Hkey.
  destruct (OpRegistryBase.registry_ r2 !! op_type) as [info|]; cbn in Hkey.
  - unfold OpRegistrationInfo.OpCreator in *. by rewrite Hkey.
  - by rewrite lookup_empty in Hkey.
Qed.

Lemma finalized_devices (builder : OpConditionBuilder.t)
    (info : OpRegistrationInfo.t) :
  OpRegistrationInfo.devices (finalized builder info)
  = OpRegistrationInfo.devices info.
Proof. unfold finalized. by destruct (OpConditionBuilder.placer_ builder). Qed.

Lemma finalized_creators (builder : OpConditionBuilder.t)
    (info : OpRegistrationInfo.t) :
  OpRegistrationInfo.creators (finalized builder info)
  = OpRegistrationInfo.creators info.
Proof. unfold finalized. by destruct (OpConditionBuilder.placer_ builder). Qed.

(** a key of the registration that [Register] or [Register(builder)]
    starts from is a key of a registration that is in the registry *)
Lemma info_of_key (op_type key : string) (r : OpRegistryBase.t) :
  is_Some (OpRegistrationInfo.creators (info_of op_type r) !! key) ->
  OpRegistryBase.registry_ r !! op_type = Some (info_of op_type r).
Proof.
  unfold info_of.
  destruct (OpRegistryBase.registry_ r !! op_type); [done|]. cbn.
  rewrite lookup_empty. by intros [? ?].
Qed.

Lemma make_registry_call_keys (call : registry_call)
    (r r' : OpRegistryBase.t) :
  keys_have_devices r ->
  make_registry_call call r = Ok r' ->
  keys_have_devices r'.
Proof.
  intros Hinv Hcall op_type info key Hinfo Hkey.
  destruct call as [t d dt creator|builder]; cbn in Hcall.
  - apply Register_ok_inv in Hcall as [_ ->]. cbn in Hinfo.
    destruct (decide (t = op_type)) as [->|Hne].
    + rewrite lookup_insert_eq in Hinfo. injection Hinfo as <-.
      cbn in *. unfold creators_of in Hkey.
      destruct (decide (key_text op_type d dt = key)) as [<-|Hother].
      * exists d, dt. split; [|done].
        apply elem_of_union. left. by apply elem_of_singleton.
      * rewrite lookup_insert_ne in Hkey by done.
        destruct (Hinv op_type _ key (info_of_key _ _ _ Hkey) Hkey)
          as (device & dt' & Hdevice & ->).
        exists device, dt'. split; [|done].
        apply elem_of_union. by right.
    + rewrite lookup_insert_ne in Hinfo by done. by eapply Hinv.
  - rewrite Register_condition_unfold in Hcall. injection Hcall as <-.
    cbn in Hinfo.
    destruct (decide (OpConditionBuilder.type builder = op_type))
      as [E|Hne].
    + rewrite E, lookup_insert_eq in Hinfo. injection Hinfo as <-.
      rewrite finalized_creators in Hkey. rewrite finalized_devices.
      exact (Hinv op_type _ key (info_of_key _ _ _ Hkey) Hkey).
    + rewrite lookup_insert_ne in Hinfo by done. by eapply Hinv.
Qed.

(** X9.  After any sequence of registrations from the empty registry that
    runs to its end, every creator key of every operator type is the key
    of that type with some data type and a device that is in the device
    set of the type: no creator is registered for a device that
    [AddDevice] has not recorded. *)
Theorem registered_keys_have_devices (calls : list registry_call)
    (r : OpRegistryBase.t) :
  for_each make_registry_call calls OpRegistryBase.empty = Ok r ->
  keys_have_devices r.
Proof.
  assert (keys_have_devices OpRegistryBase.empty) as Hempty.
  { intros op_type info key Hinfo. cbn in Hinfo.
    by rewrite lookup_empty in Hinfo. }
  revert Hempty. generalize OpRegistryBase.empty as r0.
  induction calls as [|call calls IH]; intros r0 Hinv Hcalls.
  - by injection Hcalls as <-.
  - rewrite for_each_cons in Hcalls.
    destruct (make_registry_call call r0) as [r1|] eqn:Hcall; [|done].
    apply (IH r1); [|done]. by eapply make_registry_call_keys.
Qed.

Lemma info_of_insert (op_type op_type' : string)
    (info : OpRegistrationInfo.t) (r : OpRegistryBase.t) :
  info_of op_type'
    {| OpRegistryBase.registry_ :=
         <[op_type := info]> (OpRegistryBase.registry_ r) |}
  = if decide (op_type = op_type') then info else info_of op_type' r.
Proof.
  unfold info_of. cbn. case_decide as E.
  - subst. by rewrite lookup_insert_eq.
  - by rewrite lookup_insert_ne by done.
Qed.

(** X10.  The two kinds of registration commute: registering a creator and
    then a condition builder gives the same registry, or the same abort,
    as registering the builder first and the creator second, whether or
    not they are for the same operator type. *)
Theorem registration_order (op_type : string) (device : DeviceType)
    (dt : DataType) (creator : OpRegistrationInfo.OpCreator)
    (builder : OpConditionBuilder.t) (r : OpRegistryBase.t) :
  OpRegistryBase.Register op_type device dt creator r
  ≫= OpRegistryBase.Register_condition builder
  = OpRegistryBase.Register_condition builder r
    ≫= OpRegistryBase.Register op_type device dt creator.
Proof.
  rewrite (Register_condition_unfold builder r). cbn [mbind result_bind].
  rewrite !Register_unfold. cbn zeta.
  rewrite (info_of_insert (OpConditionBuilder.type builder) op_type).
  destruct (decide (OpConditionBuilder.type builder = op_type)) as [<-|Hne].
  - rewrite finalized_creators, finalized_devices.
    destruct (OpRegistrationInfo.creators (info_of _ r) !! _); [done|].
    cbn [mbind result_bind]. rewrite Register_condition_unfold.
    rewrite info_of_insert, decide_True by done. cbn.
    rewrite !insert_insert_eq. do 3 f_equal.
    unfold finalized. by destruct (OpConditionBuilder.placer_ builder).
  - destruct (OpRegistrationInfo.creators (info_of op_type r) !! _);
      [done|].
    cbn [mbind result_bind]. rewrite Register_condition_unfold.
    rewrite info_of_insert, decide_False by auto. cbn.
    by rewrite insert_insert_ne by auto.
Qed.

(** X11.  A condition builder alone makes its operator type known.  After
    [Register(builder)] for a type that has no registration, with a
    builder that carries no placer, [AvailableDevices] no longer fails: it
    returns the empty set for every context; and [CreateOperation] for a
    definition of that type ends with ["Key not registered: <key>"]
    rather than with the message for an unknown type. *)
Theorem condition_only_registration (builder : OpConditionBuilder.t)
    (r : OpRegistryBase.t) (context : OpConstructContext.t) :
  OpRegistryBase.registry_ r !! OpConditionBuilder.type builder = None ->
  OpConditionBuilder.placer_ builder = None ->
  exists r',
    OpRegistryBase.Register_condition builder r = Ok r'
    /\ OpRegistryBase.AvailableDevices (OpConditionBuilder.type builder)
         context r'
       = Ok ∅
    /\ forall def device,
         OpConstructContext.operator_def context = Some def ->
         OperatorDef.type def = OpConditionBuilder.type builder ->
         OpRegistryBase.CreateOperation context device r'
         = Abort (CheckFailed
                    ("Key not registered: "
                     +:+ key_text (OperatorDef.type def) device
                           (dispatched_type device def))).
Proof.
  intros Hnone Hplacer. rewrite Register_condition_unfold.
  eexists. split; [done|].
  assert (finalized builder (info_of (OpConditionBuilder.type builder) r)
          = OpRegistrationInfo.new) as ->.
  { unfold finalized, info_of. by rewrite Hplacer, Hnone. }
  split.
  - erewrite AvailableDevices_registered by (cbn; apply lookup_insert_eq).
    unfold OpRegistrationInfo.call_device_placer,
      OpRegistrationInfo.default_device_placer. cbn.
    by rewrite bool_decide_false by (apply not_elem_of_empty).
  - intros def device Hdef Htype.
    rewrite (CreateOperation_unfold _ def) by done.
    unfold dispatch. cbn. rewrite Htype, lookup_insert_eq. cbn.
    by rewrite lookup_empty.
Qed.

(** X12.  Of two condition builders for one operator type the later one
    that carries a placer decides: after both are registered,
    [AvailableDevices] is the placer of the second builder when it has
    one, and the placer of the first when only the first has one. *)
Theorem later_condition_wins (first second : OpConditionBuilder.t)
    (r : OpRegistryBase.t) (context : OpConstructContext.t) :
  OpConditionBuilder.type first = OpConditionBuilder.type second ->
  exists r',
    OpRegistryBase.Register_condition first r
    ≫= OpRegistryBase.Register_condition second
    = Ok r'
    /\ (forall f2,
          OpConditionBuilder.placer_ second = Some f2 ->
          OpRegistryBase.AvailableDevices (OpConditionBuilder.type second)
            context r'
          = f2 context)
    /\ (forall f1,
          OpConditionBuilder.placer_ second = None ->
          OpConditionBuilder.placer_ first = Some f1 ->
          OpRegistryBase.AvailableDevices (OpConditionBuilder.type second)
            context r'
          = f1 context).
Proof.
  intros Htype. rewrite Register_condition_unfold. cbn [mbind result_bind].
  rewrite Register_condition_unfold. eexists. split; [done|].
  rewrite Htype, info_of_insert, decide_True by done. split.
  - intros f2 Hf2.
    erewrite AvailableDevices_registered by (cbn; apply lookup_insert_eq).
    unfold finalized at 1. rewrite Hf2. done.
  - intros f1 Hnone Hf1.
    erewrite AvailableDevices_registered by (cbn; apply lookup_insert_eq).
    unfold finalized. rewrite Hnone, Hf1. done.
Qed.
End registry_more.

(** ** The placer of the constructor *)

Section default_placer.
Context `{Declarations}.

(** X13.  The placer that the constructor installs never offers a device
    the operator type is not registered for: what [AvailableDevices]
    returns is the device set of the type or [{CPU}], and [{CPU}] only
    when [CPU] is in the device set.  It cannot abort for a definition
    with at least one declared output, and without [CPU] in the device set
    it returns the device set without looking at the definition. *)
Theorem default_placer_offers_registered (r : OpRegistryBase.t)
    (op_type : string) (info : OpRegistrationInfo.t)
    (context : OpConstructContext.t) :
  OpRegistryBase.registry_ r !! op_type = Some info ->
  OpRegistrationInfo.device_placer info
  = OpRegistrationInfo.constructor_lambda ->
  (forall placed,
     OpRegistryBase.AvailableDevices op_type context r = Ok placed ->
     placed ⊆ OpRegistrationInfo.devices info
     /\ (placed = {[ CPU ]} \/ placed = OpRegistrationInfo.devices info))
  /\ (forall def,
        OpConstructContext.operator_def context = Some def ->
        OperatorDef.output def <> [] ->
        exists placed,
          OpRegistryBase.AvailableDevices op_type context r = Ok placed)
  /\ (CPU ∉ OpRegistrationInfo.devices info ->
      OpRegistryBase.AvailableDevices op_type context r
      = Ok (OpRegistrationInfo.devices info)).
Proof.
  intros Hinfo Hplacer.
  rewrite (AvailableDevices_registered _ _ _ _ Hinfo).
  unfold OpRegistrationInfo.call_device_placer,
    OpRegistrationInfo.default_device_placer. rewrite Hplacer.
  split_and!.
  - intros placed. case_bool_decide as Hcpu.
    + destruct (OpConstructContext.operator_def context) as [def|]; [|done].
      cbn. case_bool_decide as Hsize.
      * destruct (Get (OperatorDef.output_shape def) 0) as [shape|];
          [|done].
        cbn. case_bool_decide; intros [= <-].
        -- split; [|by left]. by apply singleton_subseteq_l.
        -- split; [done|by right].
      * intros [= <-]. split; [done|by right].
    + intros [= <-]. split; [done|by right].
  - intros def Hdef Hout. rewrite Hdef.
    case_bool_decide as Hcpu; [|eauto]. cbn.
    case_bool_decide as Hsize; [|eauto].
    destruct (OperatorDef.output_shape def) as [|shape shapes] eqn:Hshapes.
    + unfold OperatorDef.output_shape_size, OperatorDef.output_size in Hsize.
      rewrite Hshapes in Hsize. symmetry in Hsize.
      by apply nil_length_inv in Hsize.
    + cbn. case_bool_decide; eauto.
  - intros Hcpu. by rewrite bool_decide_false by done.
Qed.

(** X14.  Only the first configured shape counts.  With [CPU] among the
    devices and as many configured shapes as declared outputs,
    [AvailableDevices] is the whole device set when the first shape has
    rank 4 and [{CPU}] otherwise, whatever the ranks of the other shapes;
    with any other number of configured shapes it is the whole device
    set. *)
Theorem first_output_decides (r : OpRegistryBase.t) (op_type : string)
    (info : OpRegistrationInfo.t) (context : OpConstructContext.t)
    (def : OperatorDef.t) :
  OpRegistryBase.registry_ r !! op_type = Some info ->
  OpRegistrationInfo.device_placer info
  = OpRegistrationInfo.constructor_lambda ->
  CPU ∈ OpRegistrationInfo.devices info ->
  OpConstructContext.operator_def context = Some def ->
  (forall shape shapes,
     OperatorDef.output_shape def = shape :: shapes ->
     length (shape :: shapes) = OperatorDef.output_size def ->
     OpRegistryBase.AvailableDevices op_type context r
     = Ok (if decide (OutputShape.dims_size shape = 4)
           then OpRegistrationInfo.devices info else {[ CPU ]}))
  /\ (OperatorDef.output_shape_size def <> OperatorDef.output_size def ->
      OpRegistryBase.AvailableDevices op_type context r
      = Ok (OpRegistrationInfo.devices info)).
Proof.
  intros Hinfo Hplacer Hcpu Hdef.
  rewrite (AvailableDevices_registered _ _ _ _ Hinfo).
  unfold OpRegistrationInfo.call_device_placer,
    OpRegistrationInfo.default_device_placer.
  rewrite Hplacer, Hdef, bool_decide_true by done. cbn. split.
  - intros shape shapes Hshapes Hsize.
    unfold OperatorDef.output_shape_size. rewrite Hshapes.
    rewrite bool_decide_true by done. cbn.
    case_decide as Hrank.
    + by rewrite bool_decide_false by auto.
    + by rewrite bool_decide_true by done.
  - intros Hsize. by rewrite bool_decide_false by done.
Qed.
End default_placer.

(** ** [Init] as a whole *)

Section init_whole.
Context `{Declarations}.

Lemma bind_inputs_ok_inv (def : OperatorDef.t) (ws : Workspace.t)
    (names : list string) (inputs inputs' : list Tensor_ptr) :
  for_each (Operation.bind_input def ws) names inputs = Ok inputs' ->
  inputs' = inputs ++ (Some <$> names)
  /\ forall name, name ∈ names -> Workspace.HasTensor name ws = true.
Proof.
  revert inputs. induction names as [|name names IH]; intros inputs Hloop.
  - injection Hloop as <-. split; [by rewrite app_nil_r|].
    intros name Hin. by apply elem_of_nil in Hin.
  - rewrite for_each_cons in Hloop.
    destruct (Workspace.HasTensor name ws) eqn:Hname.
    + rewrite bind_input_present in Hloop by done.
      destruct (IH _ Hloop) as [-> Hall]. split.
      * by rewrite <- app_assoc.
      * intros x [->|Hx]%elem_of_cons; auto.
    + by rewrite bind_input_absent in Hloop by done.
Qed.

(** a step of the loop over the outputs that does not abort either found
    the tensor or created it *)
Lemma bind_output_ok_inv (context : OpInitContext.t) (def : OperatorDef.t)
    (i : nat) (ws ws' : Workspace.t) (outputs outputs' : list Tensor_ptr) :
  Operation.bind_output context def i (ws, outputs) = Ok (ws', outputs') ->
  exists name,
    OperatorDef.output def !! i = Some name
    /\ outputs' = outputs ++ [Some name]
    /\ ((Workspace.HasTensor name ws = true
         /\ ws' = with_configured_shape def i name ws)
        \/ (Workspace.HasTensor name ws = false
            /\ ws' = with_configured_shape def i name
                       (with_created name
                          (Tensor.new
                             (Device.allocator (OpInitContext.device context))
                             (resolved_output_type def i))
                          ws))).
Proof.
  intros Hstep.
  destruct (OperatorDef.output def !! i) as [name|] eqn:Hi.
  2: { unfold Operation.bind_output, Get in Hstep. by rewrite Hi in Hstep. }
  exists name. split; [done|].
  destruct (Workspace.HasTensor name ws) eqn:Hname.
  - rewrite (bind_output_existing _ _ _ _ _ _ Hi Hname) in Hstep.
    injection Hstep as <- <-. split; [done|]. by left.
  - destruct (decide (OperatorDef.output_type_size def = 0
                      \/ OperatorDef.output_size def
                         = OperatorDef.output_type_size def)) as [Hcount|Hbad].
    + rewrite (bind_output_created _ _ _ _ _ _ Hi Hname Hcount) in Hstep.
      injection Hstep as <- <-. split; [done|]. by right.
    + rewrite (bind_output_mismatch _ _ _ _ _ _ Hi Hname) in Hstep
        by (intros ?; apply Hbad; auto). done.
Qed.

(** what one step of the loop does to the workspace *)
Lemma bind_output_frame (context : OpInitContext.t) (def : OperatorDef.t)
    (i : nat) (ws ws' : Workspace.t) (outputs outputs' : list Tensor_ptr) :
  Operation.bind_output context def i (ws, outputs) = Ok (ws', outputs') ->
  exists name,
    OperatorDef.output def !! i = Some name
    /\ outputs' = outputs ++ [Some name]
    /\ dom (Workspace.tensor_map_ ws')
       = {[ name ]} ∪ dom (Workspace.tensor_map_ ws)
    /\ (forall other tensor,
          Workspace.tensor_map_ ws !! other = Some tensor ->
          exists tensor',
            Workspace.tensor_map_ ws' !! other = Some tensor'
            /\ Tensor.allocator_ tensor' = Tensor.allocator_ tensor
            /\ Tensor.dtype_ tensor' = Tensor.dtype_ tensor)
    /\ (forall other, other <> name ->
          Workspace.tensor_map_ ws' !! other
          = Workspace.tensor_map_ ws !! other).
Proof.
  intros Hstep.
  destruct (bind_output_ok_inv _ _ _ _ _ _ _ Hstep)
    as (name & Hi & -> & [[Hname ->]|[Hname ->]]);
    exists name; split_and!; try done.
  - rewrite with_configured_shape_dom.
    apply HasTensor_lookup, elem_of_dom in Hname. symmetry.
    by apply subseteq_union_1_L, singleton_subseteq_l.
  - intros other tensor Hother.
    destruct (decide (other = name)) as [->|Hne].
    + by apply with_configured_shape_tensor.
    + exists tensor. by rewrite with_configured_shape_other.
  - intros other Hne. by apply with_configured_shape_other.
  - rewrite with_configured_shape_dom. cbn. by rewrite dom_insert_L.
  - intros other tensor Hother.
    assert (other <> name) as Hne.
    { intros ->. apply not_true_iff_false in Hname. apply Hname.
      apply HasTensor_lookup. eauto. }
    exists tensor. rewrite with_configured_shape_other by done.
    cbn. by rewrite lookup_insert_ne by auto.
  - intros other Hne. rewrite with_configured_shape_other by done.
    cbn. by rewrite lookup_insert_ne by auto.
Qed.

(** what [count] steps of the loop from output [first] do *)
Lemma outputs_loop_frame (context : OpInitContext.t) (def : OperatorDef.t)
    (count first : nat) (ws ws' : Workspace.t)
    (outputs outputs' : list Tensor_ptr) :
  for_range (Operation.bind_output context def) first count (ws, outputs)
  = Ok (ws', outputs') ->
  let names := take count (drop first (OperatorDef.output def)) in
  outputs' = outputs ++ (Some <$> names)
  /\ length names = count
  /\ dom (Workspace.tensor_map_ ws')
     = list_to_set names ∪ dom (Workspace.tensor_map_ ws)
  /\ (forall other tensor,
        Workspace.tensor_map_ ws !! other = Some tensor ->
        exists tensor',
          Workspace.tensor_map_ ws' !! other = Some tensor'
          /\ Tensor.allocator_ tensor' = Tensor.allocator_ tensor
          /\ Tensor.dtype_ tensor' = Tensor.dtype_ tensor)
  /\ (forall other, other ∉ names ->
        Workspace.tensor_map_ ws' !! other
        = Workspace.tensor_map_ ws !! other).
Proof.
  revert first ws outputs.
  induction count as [|count IH]; intros first ws outputs Hloop names.
  - injection Hloop as <- <-. unfold names. cbn.
    split_and!; [by rewrite app_nil_r|done| |eauto|done].
    rewrite take_0. cbn [list_to_set]. by rewrite (left_id_L ∅ (∪)).
  - rewrite for_range_S in Hloop.
    destruct (Operation.bind_output context def first (ws, outputs))
      as [[ws1 outputs1]|] eqn:Hstep; [|done].
    cbn [mbind result_bind] in Hloop.
    destruct (bind_output_frame _ _ _ _ _ _ _ Hstep)
      as (name & Hfirst & -> & Hdom1 & Hkeep1 & Hother1).
    destruct (IH _ _ _ Hloop) as (-> & Hlen & Hdom & Hkeep & Hother).
    assert (names
            = name :: take count (drop (S first) (OperatorDef.output def)))
      as ->.
    { unfold names. by rewrite (drop_S _ _ _ Hfirst). }
    split_and!.
    + by rewrite <- app_assoc.
    + cbn. by rewrite Hlen.
    + rewrite Hdom, Hdom1. cbn [list_to_set].
      rewrite (assoc_L (∪)).
      by rewrite (comm_L (∪) (list_to_set _) {[ name ]}).
    + intros other tensor Hlookup.
      destruct (Hkeep1 other tensor Hlookup) as (tensor1 & H1 & Ha1 & Ht1).
      destruct (Hkeep other tensor1 H1) as (tensor' & H2 & Ha2 & Ht2).
      exists tensor'. split_and!; [done|congruence..].
    + intros other Hnot. apply not_elem_of_cons in Hnot as [Hne Hnot].
      rewrite Hother by done. by apply Hother1.
Qed.

(** [Init] that returns has bound the inputs and run the loop over the
    outputs to its end. *)
Lemma Init_ok_inv (context : OpInitContext.t) (self op' : Operation.t)
    (def : OperatorDef.t) (ws' : Workspace.t) :
  Operation.operator_def_ self = Some def ->
  Operation.Init context self = Ok (op', ws') ->
  exists outputs,
    (forall name,
       name ∈ OperatorDef.input def ->
       Workspace.HasTensor name (OpInitContext.workspace context) = true)
    /\ for_range (Operation.bind_output context def) 0
         (OperatorDef.output_size def)
         (OpInitContext.workspace context, Operation.outputs_ self)
       = Ok (ws', outputs)
    /\ op' = Operation.mk (Some def)
               (Operation.inputs_ self ++ (Some <$> OperatorDef.input def))
               outputs.
Proof.
  intros Hdef Hinit. unfold Operation.Init in Hinit.
  rewrite Hdef in Hinit. cbn in Hinit.
  destruct (for_each _ _ _) as [inputs|] eqn:Hinputs; [|done].
  apply bind_inputs_ok_inv in Hinputs as [-> Hall].
  cbn in Hinit.
  destruct (for_range _ _ _ _) as [[ws1 outputs]|] eqn:Hloop; [|done].
  cbn in Hinit. injection Hinit as <- <-. by exists outputs.
Qed.

(** X15.  When [Init] returns, the operation holds one pointer for each
    declared input and one for each declared output, in declared order
    and after those it held before, none of them null; every declared
    input had a tensor in the workspace, and every declared output has
    one in the workspace that [Init] leaves. *)
Theorem init_binds_in_order (context : OpInitContext.t)
    (self op' : Operation.t) (def : OperatorDef.t) (ws' : Workspace.t) :
  Operation.operator_def_ self = Some def ->
  Operation.Init context self = Ok (op', ws') ->
  Operation.operator_def_ op' = Some def
  /\ Operation.inputs_ op'
     = Operation.inputs_ self ++ (Some <$> OperatorDef.input def)
  /\ Operation.outputs_ op'
     = Operation.outputs_ self ++ (Some <$> OperatorDef.output def)
  /\ (forall name,
        name ∈ OperatorDef.input def ->
        Workspace.HasTensor name (OpInitContext.workspace context) = true)
  /\ (forall name,
        name ∈ OperatorDef.output def ->
        Workspace.HasTensor name ws' = true).
Proof.
  intros Hdef Hinit.
  destruct (Init_ok_inv _ _ _ _ _ Hdef Hinit)
    as (outputs & Hall & Hloop & ->).
  destruct (outputs_loop_frame _ _ _ _ _ _ _ _ Hloop)
    as (-> & Hlen & Hdom & _ & _).
  rewrite drop_0 in Hlen, Hdom |- *.
  unfold OperatorDef.output_size in *. rewrite firstn_all in Hdom |- *.
  split_and!; [done..|].
  intros name Hin. apply HasTensor_lookup, elem_of_dom. rewrite Hdom.
  apply elem_of_union. left. by apply elem_of_list_to_set.
Qed.

(** X16.  What [Init] does to the workspace when it returns: the names in
    the workspace are those it had and the declared output names; every
    tensor it had is still there with its allocator and data type; and a
    tensor whose name is not a declared output is exactly as it was. *)
Theorem init_workspace_frame (context : OpInitContext.t)
    (self op' : Operation.t) (def : OperatorDef.t) (ws' : Workspace.t) :
  Operation.operator_def_ self = Some def ->
  Operation.Init context self = Ok (op', ws') ->
  let ws := OpInitContext.workspace context in
  dom (Workspace.tensor_map_ ws')
  = list_to_set (OperatorDef.output def) ∪ dom (Workspace.tensor_map_ ws)
  /\ (forall name tensor,
        Workspace.tensor_map_ ws !! name = Some tensor ->
        exists tensor',
          Workspace.tensor_map_ ws' !! name = Some tensor'
          /\ Tensor.allocator_ tensor' = Tensor.allocator_ tensor
          /\ Tensor.dtype_ tensor' = Tensor.dtype_ tensor)
  /\ (forall name,
        name ∉ OperatorDef.output def ->
        Workspace.tensor_map_ ws' !! name = Workspace.tensor_map_ ws !! name).
Proof.
  intros Hdef Hinit ws.
  destruct (Init_ok_inv _ _ _ _ _ Hdef Hinit)
    as (outputs & Hall & Hloop & ->).
  destruct (outputs_loop_frame _ _ _ _ _ _ _ _ Hloop)
    as (_ & _ & Hdom & Hkeep & Hother).
  rewrite drop_0 in Hdom, Hother.
  unfold OperatorDef.output_size in *. rewrite firstn_all in Hdom, Hother.
  done.
Qed.

Lemma HasTensor_dom (name : string) (ws : Workspace.t) :
  Workspace.HasTensor name ws = true
  <-> name ∈ dom (Workspace.tensor_map_ ws).
Proof. by rewrite HasTensor_lookup, elem_of_dom. Qed.

(** the loop over outputs that all have tensors finds them all *)
Lemma outputs_loop_present (context : OpInitContext.t) (def : OperatorDef.t)
    (count first : nat) (ws : Workspace.t) (outputs : list Tensor_ptr) :
  first + count <= length (OperatorDef.output def) ->
  (forall name,
     name ∈ take count (drop first (OperatorDef.output def)) ->
     Workspace.HasTensor name ws = true) ->
  exists ws' outputs',
    for_range (Operation.bind_output context def) first count (ws, outputs)
    = Ok (ws', outputs')
    /\ dom (Workspace.tensor_map_ ws') = dom (Workspace.tensor_map_ ws).
Proof.
  revert first ws outputs.
  induction count as [|count IH]; intros first ws outputs Hlen Hall.
  - by exists ws, outputs.
  - destruct (lookup_lt_is_Some_2 (OperatorDef.output def) first)
      as [name Hfirst]; [lia|].
    rewrite (drop_S _ _ _ Hfirst) in Hall. cbn in Hall.
    assert (Workspace.HasTensor name ws = true) as Hname.
    { apply Hall. by left. }
    rewrite for_range_S, (bind_output_existing _ _ _ _ _ _ Hfirst Hname).
    cbn [mbind result_bind].
    destruct (IH (S first) (with_configured_shape def first name ws)
                (outputs ++ [Some name])) as (ws' & outputs' & Hloop & Hdom).
    { lia. }
    { intros other Hother. apply HasTensor_dom.
      rewrite with_configured_shape_dom. apply HasTensor_dom.
      apply Hall. by right. }
    exists ws', outputs'. split; [done|].
    by rewrite Hdom, with_configured_shape_dom.
Qed.

(** [Init] returns when nothing has to be created *)
Lemma init_total (context : OpInitContext.t)
    (self : Operation.t) (def : OperatorDef.t) :
  Operation.operator_def_ self = Some def ->
  (forall name,
     name ∈ OperatorDef.input def ->
     Workspace.HasTensor name (OpInitContext.workspace context) = true) ->
  (forall name,
     name ∈ OperatorDef.output def ->
     Workspace.HasTensor name (OpInitContext.workspace context) = true) ->
  exists op' ws',
    Operation.Init context self = Ok (op', ws')
    /\ dom (Workspace.tensor_map_ ws')
       = dom (Workspace.tensor_map_ (OpInitContext.workspace context)).
Proof.
  intros Hdef Hinputs Houtputs.
  rewrite (Init_inputs_bound _ _ _ Hdef Hinputs).
  destruct (outputs_loop_present context def (OperatorDef.output_size def) 0
              (OpInitContext.workspace context) (Operation.outputs_ self))
    as (ws' & outputs' & Hloop & Hdom).
  { unfold OperatorDef.output_size. lia. }
  { intros name Hin. apply Houtputs.
    rewrite drop_0 in Hin. unfold OperatorDef.output_size in Hin.
    by rewrite firstn_all in Hin. }
  rewrite Hloop. cbn. eauto.
Qed.

(** X17.  When every declared input and every declared output already has
    a tensor in the workspace, [Init] returns, whatever the number of
    declared output types (the check of that number is made only before a
    tensor is created), and the workspace it leaves has the same names. *)
Theorem init_returns_when_present (context : OpInitContext.t)
    (self : Operation.t) (def : OperatorDef.t) :
  Operation.operator_def_ self = Some def ->
  (forall name,
     name ∈ OperatorDef.input def ->
     Workspace.HasTensor name (OpInitContext.workspace context) = true) ->
  (forall name,
     name ∈ OperatorDef.output def ->
     Workspace.HasTensor name (OpInitContext.workspace context) = true) ->
  exists op' ws',
    Operation.Init context self = Ok (op', ws')
    /\ dom (Workspace.tensor_map_ ws')
       = dom (Workspace.tensor_map_ (OpInitContext.workspace context)).
Proof.
  intros Hdef Hinputs Houtputs. by apply (init_total _ _ def).
Qed.

(** X18.  [Init] does not guard against a second call.  When [Init] has
    returned, calling it again on the operation and the workspace it left
    returns too, adds no tensor, and appends the same pointers once more:
    each input and each output is then held twice. *)
Theorem init_again_appends (context : OpInitContext.t)
    (self op' : Operation.t) (def : OperatorDef.t) (ws' : Workspace.t) :
  Operation.operator_def_ self = Some def ->
  Operation.Init context self = Ok (op', ws') ->
  exists op'' ws'',
    Operation.Init (OpInitContext.new ws' (OpInitContext.device context)) op'
    = Ok (op'', ws'')
    /\ Operation.inputs_ op''
       = Operation.inputs_ self
         ++ (Some <$> OperatorDef.input def)
         ++ (Some <$> OperatorDef.input def)
    /\ Operation.outputs_ op''
       = Operation.outputs_ self
         ++ (Some <$> OperatorDef.output def)
         ++ (Some <$> OperatorDef.output def)
    /\ dom (Workspace.tensor_map_ ws'') = dom (Workspace.tensor_map_ ws').
Proof.
  intros Hdef Hinit.
  destruct (Init_ok_inv _ _ _ _ _ Hdef Hinit)
    as (outputs & Hall & Hloop & ->).
  destruct (outputs_loop_frame _ _ _ _ _ _ _ _ Hloop)
    as (-> & _ & Hdom & _ & _).
  rewrite drop_0 in Hdom |- *.
  unfold OperatorDef.output_size in Hdom |- *.
  rewrite firstn_all in Hdom |- *.
  set (context' := OpInitContext.new ws' (OpInitContext.device context)).
  set (op' := Operation.mk (Some def) _ _).
  assert (forall name,
            name ∈ OperatorDef.input def ->
            Workspace.HasTensor name (OpInitContext.workspace context')
            = true) as Hinputs.
  { intros name Hin. apply HasTensor_dom. cbn. rewrite Hdom.
    apply elem_of_union. right. apply HasTensor_dom. by apply Hall. }
  assert (forall name,
            name ∈ OperatorDef.output def ->
            Workspace.HasTensor name (OpInitContext.workspace context')
            = true) as Houtputs.
  { intros name Hin. apply HasTensor_dom. cbn. rewrite Hdom.
    apply elem_of_union. left. by apply elem_of_list_to_set. }
  destruct (init_total context' op' def eq_refl Hinputs Houtputs)
    as (op'' & ws'' & Hagain & Hdom'').
  exists op'', ws''.
  destruct (Init_ok_inv context' op' op'' def ws'' eq_refl Hagain)
    as (outputs2 & _ & Hloop2 & ->).
  destruct (outputs_loop_frame _ _ _ _ _ _ _ _ Hloop2)
    as (-> & _ & _ & _ & _).
  rewrite drop_0 in Hagain |- *.
  unfold OperatorDef.output_size in Hagain |- *.
  rewrite firstn_all in Hagain |- *.
  split_and!; [done| | |done].
  - cbn. by rewrite <- app_assoc.
  - cbn. by rewrite <- app_assoc.
Qed.

Lemma NoDup_not_before {A : Type} (l : list A) (i : nat) (x : A) :
  NoDup l -> l !! i = Some x -> x ∉ take i l.
Proof.
  intros Hnodup Hi [j [Hj Hlt]]%elem_of_take.
  pose proof (NoDup_lookup _ _ _ _ Hnodup Hi Hj). lia.
Qed.

Lemma NoDup_not_after {A : Type} (l : list A) (i count : nat) (x : A) :
  NoDup l -> l !! i = Some x -> x ∉ take count (drop (S i) l).
Proof.
  intros Hnodup Hi [j [Hj Hlt]]%elem_of_take.
  rewrite lookup_drop in Hj.
  pose proof (NoDup_lookup _ _ _ _ Hnodup Hi Hj). lia.
Qed.

(** the tensor of output [i] when [Init] returns, for distinct output
    names: what the step for output [i] left *)
Lemma Init_output_tensor (context : OpInitContext.t)
    (self op' : Operation.t) (def : OperatorDef.t) (ws' : Workspace.t)
    (i : nat) (name : string) :
  Operation.operator_def_ self = Some def ->
  Operation.Init context self = Ok (op', ws') ->
  NoDup (OperatorDef.output def) ->
  OperatorDef.output def !! i = Some name ->
  let ws := OpInitContext.workspace context in
  let created :=
    Tensor.new (Device.allocator (OpInitContext.device context))
               (resolved_output_type def i) in
  Workspace.tensor_map_ ws' !! name
  = Workspace.tensor_map_
      (with_configured_shape def i name
         (if Workspace.HasTensor name ws then ws
          else with_created name created ws)) !! name.
Proof.
  intros Hdef Hinit Hnodup Hi ws created.
  destruct (Init_ok_inv _ _ _ _ _ Hdef Hinit)
    as (outputs & _ & Hloop & _).
  pose proof (lookup_lt_Some _ _ _ Hi) as Hlt.
  unfold OperatorDef.output_size in Hloop.
  replace (length (OperatorDef.output def))
    with (i + S (length (OperatorDef.output def) - S i)) in Hloop by lia.
  rewrite for_range_app in Hloop.
  destruct (for_range _ 0 i _) as [[ws_i outputs_i]|] eqn:Hbefore; [|done].
  cbn [mbind result_bind] in Hloop.
  rewrite Nat.add_0_l, for_range_S in Hloop.
  destruct (Operation.bind_output context def i (ws_i, outputs_i))
    as [[ws1 outputs1]|] eqn:Hstep; [|done].
  cbn [mbind result_bind] in Hloop.
  destruct (outputs_loop_frame _ _ _ _ _ _ _ _ Hbefore)
    as (_ & _ & _ & _ & Hsame_before).
  destruct (outputs_loop_frame _ _ _ _ _ _ _ _ Hloop)
    as (_ & _ & _ & _ & Hsame_after).
  rewrite Hsame_after by (by apply NoDup_not_after).
  assert (Workspace.tensor_map_ ws_i !! name
          = Workspace.tensor_map_ ws !! name) as Hname.
  { apply Hsame_before. rewrite drop_0. by apply NoDup_not_before. }
  assert (Workspace.HasTensor name ws_i = Workspace.HasTensor name ws)
    as Hhas.
  { unfold Workspace.HasTensor. by rewrite Hname. }
  destruct (bind_output_ok_inv _ _ _ _ _ _ _ Hstep)
    as (name' & Hi' & _ & Hcases).
  assert (name' = name) as -> by congruence.
  rewrite !with_configured_shape_lookup.
  destruct Hcases as [[Hfound ->]|[Habsent ->]].
  - rewrite <- Hhas, Hfound, with_configured_shape_lookup, Hname. done.
  - rewrite <- Hhas, Habsent, with_configured_shape_lookup. cbn.
    by rewrite !lookup_insert_eq.
Qed.

(** X19.  For distinct output names, when [Init] returns the tensor of the
    declared output [i] carries the shape configured for that output, when
    one is declared; a tensor that [Init] found and for which no shape is
    declared is exactly as it was; and a tensor that [Init] created has
    the allocator of the device and the data type declared for output
    [i], or the data type of the operation when none is declared. *)
Theorem init_configures_outputs (context : OpInitContext.t)
    (self op' : Operation.t) (def : OperatorDef.t) (ws' : Workspace.t)
    (i : nat) (name : string) :
  Operation.operator_def_ self = Some def ->
  Operation.Init context self = Ok (op', ws') ->
  NoDup (OperatorDef.output def) ->
  OperatorDef.output def !! i = Some name ->
  let ws := OpInitContext.workspace context in
  exists tensor',
    Workspace.tensor_map_ ws' !! name = Some tensor'
    /\ (forall shape,
          OperatorDef.output_shape def !! i = Some shape ->
          Tensor.shape_configured_ tensor' = OutputShape.dims shape)
    /\ (forall tensor,
          Workspace.tensor_map_ ws !! name = Some tensor ->
          OperatorDef.output_shape def !! i = None ->
          tensor' = tensor)
    /\ (Workspace.tensor_map_ ws !! name = None ->
        Tensor.allocator_ tensor'
        = Device.allocator (OpInitContext.device context)
        /\ Tensor.dtype_ tensor'
           = match OperatorDef.output_type def !! i with
             | Some output_type => output_type
             | None => op_data_type def
             end).
Proof.
  intros Hdef Hinit Hnodup Hi ws.
  rewrite (Init_output_tensor _ _ _ _ _ _ _ Hdef Hinit Hnodup Hi).
  rewrite with_configured_shape_lookup. fold ws.
  unfold Workspace.HasTensor.
  destruct (Workspace.tensor_map_ ws !! name) as [tensor|] eqn:Hname.
  - rewrite bool_decide_true by eauto. rewrite Hname.
    destruct (OperatorDef.output_shape def !! i) as [shape|].
    + rewrite decide_True by done. cbn. eexists. split; [done|].
      split_and!; [by intros ? [= <-]|done|done].
    + exists tensor. split; [done|].
      split_and!; [done|by intros ? [= <-]|done].
  - rewrite bool_decide_false by (by intros [? ?]). cbn.
    rewrite lookup_insert_eq.
    assert (resolved_output_type def i
            = match OperatorDef.output_type def !! i with
              | Some output_type => output_type
              | None => op_data_type def
              end) as Htype.
    { unfold resolved_output_type, op_data_type.
      by destruct (OperatorDef.output_type def !! i). }
    destruct (OperatorDef.output_shape def !! i) as [shape|].
    + rewrite decide_True by done. cbn. eexists. split; [done|].
      split_and!; [by intros ? [= <-]|done|]. intros _. by split.
    + eexists. split; [done|].
      split_and!; [done|done|]. intros _. by split.
Qed.
End init_whole.

(** ** Outputs at bind time *)

Section output_binding.
Context `{Declarations}.

(** the loop over the outputs returns when the number of declared output
    types allows a tensor to be created *)
Lemma outputs_loop_total (context : OpInitContext.t) (def : OperatorDef.t)
    (count first : nat) (ws : Workspace.t) (outputs : list Tensor_ptr) :
  first + count <= length (OperatorDef.output def) ->
  OperatorDef.output_type_size def = 0
  \/ OperatorDef.output_size def = OperatorDef.output_type_size def ->
  exists ws' outputs',
    for_range (Operation.bind_output context def) first count (ws, outputs)
    = Ok (ws', outputs').
Proof.
  intros Hlen Hcount. revert first ws outputs Hlen.
  induction count as [|count IH]; intros first ws outputs Hlen.
  - by exists ws, outputs.
  - destruct (lookup_lt_is_Some_2 (OperatorDef.output def) first)
      as [name Hfirst]; [lia|].
    rewrite for_range_S.
    destruct (Workspace.HasTensor name ws) eqn:Hname.
    + rewrite (bind_output_existing _ _ _ _ _ _ Hfirst Hname).
      cbn [mbind result_bind]. apply IH. lia.
    + rewrite (bind_output_created _ _ _ _ _ _ Hfirst Hname Hcount).
      cbn [mbind result_bind]. apply IH. lia.
Qed.

(** a tensor that the workspace holds is still there after the loop over
    the outputs, with its allocator and data type; its configured shape is
    the one it had or one declared for an output of its name *)
Lemma outputs_loop_kept (context : OpInitContext.t) (def : OperatorDef.t)
    (count first : nat) (ws ws' : Workspace.t)
    (outputs outputs' : list Tensor_ptr) (name : string)
    (tensor : Tensor.t) :
  for_range (Operation.bind_output context def) first count (ws, outputs)
  = Ok (ws', outputs') ->
  Workspace.tensor_map_ ws !! name = Some tensor ->
  exists tensor',
    Workspace.tensor_map_ ws' !! name = Some tensor'
    /\ Tensor.allocator_ tensor' = Tensor.allocator_ tensor
    /\ Tensor.dtype_ tensor' = Tensor.dtype_ tensor
    /\ (Tensor.shape_configured_ tensor' = Tensor.shape_configured_ tensor
        \/ exists i shape,
             OperatorDef.output def !! i = Some name
             /\ OperatorDef.output_shape def !! i = Some shape
             /\ Tensor.shape_configured_ tensor' = OutputShape.dims shape).
Proof.
  revert first ws outputs tensor.
  induction count as [|count IH]; intros first ws outputs tensor Hloop Hname.
  - injection Hloop as <- <-. exists tensor. split_and!; auto.
  - rewrite for_range_S in Hloop.
    destruct (Operation.bind_output context def first (ws, outputs))
      as [[ws1 outputs1]|] eqn:Hstep; [|done].
    cbn [mbind result_bind] in Hloop.
    assert (exists tensor1,
              Workspace.tensor_map_ ws1 !! name = Some tensor1
              /\ Tensor.allocator_ tensor1 = Tensor.allocator_ tensor
              /\ Tensor.dtype_ tensor1 = Tensor.dtype_ tensor
              /\ (Tensor.shape_configured_ tensor1
                  = Tensor.shape_configured_ tensor
                  \/ exists shape,
                       OperatorDef.output def !! first = Some name
                       /\ OperatorDef.output_shape def !! first = Some shape
                       /\ Tensor.shape_configured_ tensor1
                          = OutputShape.dims shape))
      as (tensor1 & H1 & Ha & Hd & Hs).
    { destruct (bind_output_ok_inv _ _ _ _ _ _ _ Hstep)
        as (name0 & Hfirst & _ & Hcases).
      destruct (decide (name = name0)) as [<-|Hne].
      - destruct Hcases as [[_ ->]|[Habsent _]].
        + rewrite with_configured_shape_lookup.
          destruct (OperatorDef.output_shape def !! first) as [shape|].
          * rewrite decide_True by done. rewrite Hname. cbn.
            eexists. split_and!; [done..|]. right. by exists shape.
          * exists tensor. split_and!; auto.
        + apply not_true_iff_false in Habsent. destruct Habsent.
          apply HasTensor_lookup. eauto.
      - exists tensor. split_and!; auto.
        destruct Hcases as [[_ ->]|[_ ->]].
        + by rewrite with_configured_shape_other.
        + rewrite with_configured_shape_other by done. cbn.
          by rewrite lookup_insert_ne by auto. }
    destruct (IH _ _ _ _ Hloop H1) as (tensor' & H' & Ha' & Hd' & Hs').
    exists tensor'. split_and!; [done|congruence..|].
    destruct Hs' as [Hs'|Hs']; [|by right].
    destruct Hs as [Hs|(shape & Hi & Hshape & Hs)].
    + left. congruence.
    + right. exists first, shape. split_and!; [done..|congruence].
Qed.

(** the tensor that [Init] creates for the first output of a name that the
    workspace does not hold *)
Lemma Init_created_tensor (context : OpInitContext.t)
    (self op' : Operation.t) (def : OperatorDef.t) (ws' : Workspace.t)
    (i : nat) (name : string) :
  Operation.operator_def_ self = Some def ->
  Operation.Init context self = Ok (op', ws') ->
  OperatorDef.output def !! i = Some name ->
  name ∉ take i (OperatorDef.output def) ->
  Workspace.tensor_map_ (OpInitContext.workspace context) !! name = None ->
  (OperatorDef.output_type_size def = 0
   \/ OperatorDef.output_size def = OperatorDef.output_type_size def)
  /\ exists tensor',
       Workspace.tensor_map_ ws' !! name = Some tensor'
       /\ Tensor.allocator_ tensor'
          = Device.allocator (OpInitContext.device context)
       /\ Tensor.dtype_ tensor' = resolved_output_type def i.
Proof.
  intros Hdef Hinit Hi Hfirst Habsent.
  destruct (Init_ok_inv _ _ _ _ _ Hdef Hinit)
    as (outputs & _ & Hloop & _).
  pose proof (lookup_lt_Some _ _ _ Hi) as Hlt.
  unfold OperatorDef.output_size in Hloop.
  replace (length (OperatorDef.output def))
    with (i + S (length (OperatorDef.output def) - S i)) in Hloop by lia.
  rewrite for_range_app in Hloop.
  destruct (for_range _ 0 i _) as [[ws_i outputs_i]|] eqn:Hbefore; [|done].
  cbn [mbind result_bind] in Hloop.
  rewrite Nat.add_0_l, for_range_S in Hloop.
  destruct (Operation.bind_output context def i (ws_i, outputs_i))
    as [[ws1 outputs1]|] eqn:Hstep; [|done].
  cbn [mbind result_bind] in Hloop.
  destruct (outputs_loop_frame _ _ _ _ _ _ _ _ Hbefore)
    as (_ & _ & _ & _ & Hsame_before).
  assert (Workspace.HasTensor name ws_i = false) as Hname.
  { apply not_true_iff_false. rewrite HasTensor_lookup.
    rewrite Hsame_before by (by rewrite drop_0). rewrite Habsent.
    by intros [? ?]. }
  destruct (decide (OperatorDef.output_type_size def = 0
                    \/ OperatorDef.output_size def
                       = OperatorDef.output_type_size def)) as [Hcount|Hbad].
  2: { rewrite (bind_output_mismatch _ _ _ _ _ _ Hi Hname) in Hstep
         by (intros ?; apply Hbad; auto). done. }
  split; [done|].
  rewrite (bind_output_created _ _ _ _ _ _ Hi Hname Hcount) in Hstep.
  injection Hstep as <- <-.
  destruct (with_configured_shape_tensor def i name
              (with_created name
                 (Tensor.new
                    (Device.allocator (OpInitContext.device context))
                    (resolved_output_type def i)) ws_i)
              (Tensor.new
                 (Device.allocator (OpInitContext.device context))
                 (resolved_output_type def i)))
    as (tensor1 & H1 & Ha1 & Hd1).
  { cbn. by rewrite lookup_insert_eq. }
  destruct (outputs_loop_kept _ _ _ _ _ _ _ _ _ _ Hloop H1)
    as (tensor' & H' & Ha' & Hd' & _).
  cbn in Ha1, Hd1. exists tensor'. split_and!; [done|congruence..].
Qed.

(** [Init] aborts on the check of the number of output types when a tensor
    has to be created and that number is neither zero nor the number of
    outputs *)
Lemma Init_output_types_abort (context : OpInitContext.t)
    (self : Operation.t) (def : OperatorDef.t) :
  Operation.operator_def_ self = Some def ->
  (forall name,
     name ∈ OperatorDef.input def ->
     Workspace.HasTensor name (OpInitContext.workspace context) = true) ->
  (exists name,
     name ∈ OperatorDef.output def
     /\ Workspace.HasTensor name (OpInitContext.workspace context) = false) ->
  OperatorDef.output_type_size def <> 0 ->
  OperatorDef.output_size def <> OperatorDef.output_type_size def ->
  Operation.Init context self
  = Abort (CheckFailed (Operation.output_type_diagnostic def)).
Proof.
  intros Hdef Hinputs Hmissing Hnonzero Hdiffer.
  destruct (first_missing _ _ Hmissing)
    as (present & missing & rest & Hnames & Hpresent & Habsent).
  assert (OperatorDef.output def !! length present = Some missing) as Hi.
  { rewrite Hnames. by rewrite list_lookup_middle. }
  destruct (outputs_loop_present context def (length present) 0
              (OpInitContext.workspace context) (Operation.outputs_ self))
    as (ws_i & outputs_i & Hbefore & Hdom).
  { apply lookup_lt_Some in Hi. lia. }
  { intros name Hin. apply Hpresent.
    by rewrite drop_0, Hnames, take_app_length in Hin. }
  apply (Init_output_abort context self def (length present) missing
           ws_i outputs_i); [done..|].
  apply (bind_output_mismatch _ _ _ missing); [done| |done..].
  apply not_true_iff_false. rewrite HasTensor_dom, Hdom, <- HasTensor_dom.
  by rewrite Habsent.
Qed.

(** C6.  [Init] on an operation whose declared inputs all have tensors.
    When the number of declared output types is zero or the number of
    declared outputs, [Init] returns.  Whenever [Init] returns, the names
    in the workspace it leaves are those the workspace had and the
    declared output names; every tensor the workspace had is still under
    its name, with its allocator and data type, and with the configured
    shape it had unless one is declared for an output of that name; and
    for a declared output name that the workspace did not hold, the tensor
    under that name has the allocator of the device and the data type
    declared at the index where the name first occurs, or, when no type is
    declared at that index, what the argument ["T"] resolves to, with
    [DT_FLOAT] as the default.  When some declared output has no tensor
    and the number of declared output types is neither zero nor the number
    of declared outputs, [Init] aborts on the check of that number. *)
Theorem bind_time_outputs (context : OpInitContext.t)
    (self : Operation.t) (def : OperatorDef.t) :
  Operation.operator_def_ self = Some def ->
  (forall name,
     name ∈ OperatorDef.input def ->
     Workspace.HasTensor name (OpInitContext.workspace context) = true) ->
  let ws := OpInitContext.workspace context in
  (OperatorDef.output_type_size def = 0
   \/ OperatorDef.output_size def = OperatorDef.output_type_size def ->
   exists op' ws', Operation.Init context self = Ok (op', ws'))
  /\ (forall (op' : Operation.t) (ws' : Workspace.t),
        Operation.Init context self = Ok (op', ws') ->
        Operation.outputs_ op'
        = Operation.outputs_ self ++ (Some <$> OperatorDef.output def)
        /\ dom (Workspace.tensor_map_ ws')
           = list_to_set (OperatorDef.output def)
             ∪ dom (Workspace.tensor_map_ ws)
        /\ (forall name tensor,
              Workspace.tensor_map_ ws !! name = Some tensor ->
              exists tensor',
                Workspace.tensor_map_ ws' !! name = Some tensor'
                /\ Tensor.allocator_ tensor' = Tensor.allocator_ tensor
                /\ Tensor.dtype_ tensor' = Tensor.dtype_ tensor
                /\ (Tensor.shape_configured_ tensor'
                    = Tensor.shape_configured_ tensor
                    \/ exists i shape,
                         OperatorDef.output def !! i = Some name
                         /\ OperatorDef.output_shape def !! i = Some shape
                         /\ Tensor.shape_configured_ tensor'
                            = OutputShape.dims shape))
        /\ (forall i name,
              OperatorDef.output def !! i = Some name ->
              name ∉ take i (OperatorDef.output def) ->
              Workspace.tensor_map_ ws !! name = None ->
              exists tensor',
                Workspace.tensor_map_ ws' !! name = Some tensor'
                /\ Tensor.allocator_ tensor'
                   = Device.allocator (OpInitContext.device context)
                /\ Tensor.dtype_ tensor'
                   = match OperatorDef.output_type def !! i with
                     | Some output_type => output_type
                     | None => ProtoArgHelper.GetOptionalArg def "T" DT_FLOAT
                     end))
  /\ ((exists name,
         name ∈ OperatorDef.output def
         /\ Workspace.HasTensor name ws = false) ->
      OperatorDef.output_type_size def <> 0 ->
      OperatorDef.output_size def <> OperatorDef.output_type_size def ->
      Operation.Init context self
      = Abort (CheckFailed
                 ("operator output size != operator output type size"
                    +:+ pretty (OperatorDef.output_size def)
                    +:+ pretty (OperatorDef.output_type_size def)))).
Proof.
  intros Hdef Hinputs ws. split_and!.
  - intros Hcount. rewrite (Init_inputs_bound _ _ _ Hdef Hinputs).
    destruct (outputs_loop_total context def (OperatorDef.output_size def) 0
                ws (Operation.outputs_ self)) as (ws' & outputs' & Hloop).
    { unfold OperatorDef.output_size. lia. }
    { done. }
    fold ws. rewrite Hloop. cbn. eauto.
  - intros op' ws' Hinit.
    destruct (Init_ok_inv _ _ _ _ _ Hdef Hinit)
      as (outputs & _ & Hloop & ->).
    destruct (outputs_loop_frame _ _ _ _ _ _ _ _ Hloop)
      as (-> & _ & Hdom & _ & _).
    rewrite drop_0 in Hdom |- *.
    unfold OperatorDef.output_size in Hdom |- *.
    rewrite firstn_all in Hdom |- *.
    split_and!; [done|done| |].
    + intros name tensor Hname.
      exact (outputs_loop_kept _ _ _ _ _ _ _ _ _ _ Hloop Hname).
    + intros i name Hi Hfirst Habsent.
      destruct (Init_created_tensor _ _ _ _ _ _ _ Hdef Hinit Hi Hfirst
                  Habsent) as (_ & tensor' & H' & Ha & Hd).
      exists tensor'. split_and!; [done..|].
      rewrite Hd. unfold resolved_output_type.
      by destruct (OperatorDef.output_type def !! i).
  - intros Hmissing Hnonzero Hdiffer.
    by apply Init_output_types_abort.
Qed.
End output_binding.

(** ** The key builder *)

Section key_builder.
Context `{Declarations}.

(** X20.  The key reads only the constraint named ["T"]: a type
    constraint under any other name leaves the key as it was; of two
    constraints for ["T"], and of two devices, the one set last counts;
    and a builder that was given a device but no constraint for ["T"]
    names the default data type [DataType()], the integer 0. *)
Theorem key_reads_last_setters :
  (forall (b : OpKeyBuilder.t) (attr_name : string) (dt : DataType),
     attr_name <> "T" ->
     OpKeyBuilder.Build (OpKeyBuilder.TypeConstraint attr_name dt b)
     = OpKeyBuilder.Build b)
  /\ (forall (b : OpKeyBuilder.t) (dt1 dt2 : DataType),
        OpKeyBuilder.Build
          (OpKeyBuilder.TypeConstraint "T" dt2
             (OpKeyBuilder.TypeConstraint "T" dt1 b))
        = OpKeyBuilder.Build (OpKeyBuilder.TypeConstraint "T" dt2 b))
  /\ (forall (b : OpKeyBuilder.t) (d1 d2 : DeviceType),
        OpKeyBuilder.Build (OpKeyBuilder.Device d2 (OpKeyBuilder.Device d1 b))
        = OpKeyBuilder.Build (OpKeyBuilder.Device d2 b))
  /\ (forall (op_name : string) (device : DeviceType),
        OpKeyBuilder.Build (OpKeyBuilder.Device device
                              (OpKeyBuilder.new op_name))
        = Ok (key_text op_name device 0%Z)).
Proof.
  split_and!.
  - intros b attr_name dt Hne.
    unfold OpKeyBuilder.Build, OpKeyBuilder.type_constraint_at. cbn.
    by rewrite lookup_insert_ne by done.
  - intros b dt1 dt2.
    unfold OpKeyBuilder.Build, OpKeyBuilder.type_constraint_at. cbn.
    by rewrite !lookup_insert_eq.
  - intros b d1 d2. reflexivity.
  - intros op_name device.
    unfold OpKeyBuilder.Build, OpKeyBuilder.type_constraint_at, key_text.
    cbn. rewrite lookup_empty. cbn.
    by rewrite !string_app_assoc.
Qed.
End key_builder.

(** * The statements on MACE's enumerators *)

Section on_mace_headers.
#[local] Existing Instance MaceHeaders.declarations.

Lemma string_app_length (a b : string) :
  String.length (a +:+ b) = String.length a + String.length b.
Proof. rewrite <- !to_list_length, to_list_app. apply length_app. Qed.

Lemma float_half_named_apart :
  types_named_apart MaceHeaders.DT_FLOAT MaceHeaders.DT_HALF.
Proof.
  intros p [E|E]; exfalso.
  - destruct p as [|c [|c' p]]; [discriminate E..|].
    apply (f_equal String.length) in E. rewrite string_app_length in E.
    change (String.length (DataTypeToString MaceHeaders.DT_FLOAT))
      with 8 in E.
    change (String.length (DataTypeToString MaceHeaders.DT_HALF))
      with 7 in E.
    cbn in E. lia.
  - apply (f_equal String.length) in E. rewrite string_app_length in E.
    change (String.length (DataTypeToString MaceHeaders.DT_FLOAT))
      with 8 in E.
    change (String.length (DataTypeToString MaceHeaders.DT_HALF))
      with 7 in E.
    lia.
Qed.

Lemma cpu_gpu_print_apart :
  devices_print_apart MaceHeaders.CPU MaceHeaders.GPU.
Proof. split; [reflexivity|]. intros E. discriminate E. Qed.

(** C3 on the triples (Conv2D, CPU, DT_FLOAT) and (Conv2D, GPU, DT_HALF). *)
Lemma key_deterministic_and_injective_witness :
  build_key "Conv2D" MaceHeaders.CPU MaceHeaders.DT_FLOAT
  = Ok "Conv2D0T_DT_FLOAT"
  /\ build_key "Conv2D" MaceHeaders.CPU MaceHeaders.DT_FLOAT
     <> build_key "Conv2D" MaceHeaders.GPU MaceHeaders.DT_HALF.
Proof.
  pose proof (key_deterministic_and_injective "Conv2D" "Conv2D"
                MaceHeaders.CPU MaceHeaders.GPU
                MaceHeaders.DT_FLOAT MaceHeaders.DT_HALF)
    as (_ & Hkey & Hdistinct).
  split; [exact Hkey|].
  apply Hdistinct.
  - exact cpu_gpu_print_apart.
  - exact float_half_named_apart.
  - discriminate.
Defined.

(** C1 on a Conv2D registered for CPU and GPU: a rank-3 output shape, a
    rank-4 output shape, and no configured shape. *)
Lemma default_placement_rule_witness :
  let placed output_shape :=
    OpRegistryBase.AvailableDevices "Conv2D"
      (MaceHeaders.context_of
         (MaceHeaders.conv2d ["x"] ["y"] [] output_shape [])
         MaceHeaders.GPU_IMAGE)
      MaceHeaders.cpu_gpu_registry in
  placed [OutputShape.mk [1; 8; 8]%Z] = Ok {[ MaceHeaders.CPU ]}
  /\ placed [OutputShape.mk [1; 8; 8; 3]%Z]
     = Ok {[ MaceHeaders.CPU; MaceHeaders.GPU ]}
  /\ placed [] = Ok {[ MaceHeaders.CPU; MaceHeaders.GPU ]}.
Proof.
  intros placed. subst placed. cbv beta.
  assert (OpRegistrationInfo.devices MaceHeaders.cpu_gpu_info
          = {[ MaceHeaders.CPU; MaceHeaders.GPU ]}) as Hdevices.
  { cbn. set_solver. }
  pose proof (fun output_shape =>
                default_placement_rule MaceHeaders.cpu_gpu_registry "Conv2D"
                  MaceHeaders.cpu_gpu_info MaceHeaders.GPU
                  (MaceHeaders.context_of
                     (MaceHeaders.conv2d ["x"] ["y"] [] output_shape [])
                     MaceHeaders.GPU_IMAGE)
                  (MaceHeaders.conv2d ["x"] ["y"] [] output_shape [])
                  eq_refl Hdevices eq_refl eq_refl eq_refl) as Hrule.
  split_and!.
  - exact (proj1 (Hrule [OutputShape.mk [1; 8; 8]%Z])
             (OutputShape.mk [1; 8; 8]%Z) eq_refl eq_refl).
  - exact (proj1 (proj2 (Hrule [OutputShape.mk [1; 8; 8; 3]%Z]))
             (OutputShape.mk [1; 8; 8; 3]%Z) eq_refl eq_refl).
  - exact (proj2 (proj2 (Hrule [])) eq_refl).
Defined.

(** C2 on a Conv2D whose ["T"] is [DT_HALF]. *)
Lemma half_precision_downgrade_witness :
  let def :=
    MaceHeaders.conv2d ["x"] ["y"]
      [Argument.mk "T" MaceHeaders.DT_HALF; Argument.mk "stride" 2%Z] [] [] in
  let def' :=
    MaceHeaders.conv2d ["x"] ["y"]
      [Argument.mk "T" MaceHeaders.DT_FLOAT; Argument.mk "stride" 2%Z] [] [] in
  let context := MaceHeaders.context_of def MaceHeaders.CPU_BUFFER in
  OpRegistryBase.CreateOperation context MaceHeaders.CPU
    MaceHeaders.cpu_gpu_registry
  = dispatch MaceHeaders.cpu_gpu_registry "Conv2D" "Conv2D0T_DT_FLOAT"
      (MaceHeaders.context_of def' MaceHeaders.CPU_BUFFER)
  /\ OpRegistryBase.CreateOperation context MaceHeaders.GPU
       MaceHeaders.cpu_gpu_registry
     = dispatch MaceHeaders.cpu_gpu_registry "Conv2D" "Conv2D2T_DT_HALF"
         context.
Proof.
  intros def def' context.
  pose proof (half_precision_downgrade MaceHeaders.cpu_gpu_registry context
                def eq_refl eq_refl) as [[Hcpu _] Hgpu].
  split; [exact Hcpu|]. apply Hgpu. discriminate.
Defined.

(** C4 on a Conv2D with four inputs. *)
Lemma input_mem_type_defaults_witness :
  exists c,
    OpConstructContext.set_output_mem_type MaceHeaders.CPU_BUFFER
      (OpConstructContext.set_operator_def
         (Some (MaceHeaders.conv2d ["a"; "b"; "c"; "d"] ["y"] [] [] []))
         (OpConstructContext.new None))
    ≫= OpConstructContext.SetInputInfo 2 MaceHeaders.GPU_IMAGE
         MaceHeaders.DT_HALF
    = Ok c
    /\ OpConstructContext.GetInputMemType 2 c = Ok MaceHeaders.GPU_IMAGE
    /\ OpConstructContext.GetInputMemType 0 c = Ok MaceHeaders.CPU_BUFFER
    /\ OpConstructContext.GetInputMemType 5 c
       = Abort (CheckFailed "5 < 4").
Proof.
  exact (proj2 (input_mem_type_defaults None
                  (MaceHeaders.conv2d ["a"; "b"; "c"; "d"] ["y"] [] [] [])
                  MaceHeaders.CPU_BUFFER MaceHeaders.GPU_IMAGE
                  MaceHeaders.DT_HALF)
               eq_refl).
Defined.

(** C5 as worded fails: after a definition with four inputs, a memory type
    and one [SetInputInfo], a definition with two inputs leaves
    [input_mem_types] with four elements. *)
Lemma input_vectors_sized_counterexample :
  ~ (forall (calls : list context_call) (c : OpConstructContext.t),
       make_calls calls (OpConstructContext.new None) = Ok c ->
       input_vectors_sized c).
Proof.
  intros Hclaim.
  pose (four := MaceHeaders.conv2d ["a"; "b"; "c"; "d"] ["y"] [] [] []).
  pose (two := MaceHeaders.conv2d ["a"; "b"] ["y"] [] [] []).
  pose (calls :=
          [call_set_operator_def (Some four);
           call_set_output_mem_type MaceHeaders.CPU_BUFFER;
           call_SetInputInfo 0 MaceHeaders.GPU_IMAGE MaceHeaders.DT_FLOAT;
           call_set_operator_def (Some two)]
          : list (@context_call MaceHeaders.declarations)).
  destruct (Hclaim calls _ eq_refl two eq_refl) as [Hmem _].
  cbn in Hmem. specialize (Hmem ltac:(discriminate)). discriminate Hmem.
Qed.

(** C5 as the code has it, on the calls of a loader for one node. *)
Lemma input_vectors_sized_unless_stale_witness :
  let four := MaceHeaders.conv2d ["a"; "b"; "c"; "d"] ["y"] [] [] [] in
  sized_for four
    [MaceHeaders.DT_FLOAT; MaceHeaders.DT_FLOAT; MaceHeaders.DT_HALF;
     MaceHeaders.DT_FLOAT]
  /\ sized_for four
       [MaceHeaders.CPU_BUFFER; MaceHeaders.CPU_BUFFER;
        MaceHeaders.GPU_IMAGE; MaceHeaders.CPU_BUFFER].
Proof.
  intros four.
  pose (calls :=
          [call_set_operator_def (Some four);
           call_set_output_mem_type MaceHeaders.CPU_BUFFER;
           call_SetInputInfo 2 MaceHeaders.GPU_IMAGE MaceHeaders.DT_HALF]
          : list (@context_call MaceHeaders.declarations)).
  pose proof (input_vectors_sized_unless_stale None calls _ four
                eq_refl eq_refl) as [Hdata Hmem].
  split; [exact Hdata|exact (Hmem eq_refl)].
Defined.

(** C6 on a Conv2D that writes ["x"], which the workspace holds, and
    ["y"], which it does not, and declares the types [DT_FLOAT] and
    [DT_HALF] for them: [Init] returns, ["x"] keeps its tensor and ["y"]
    gets one of type [DT_HALF]. *)
Lemma bind_time_outputs_witness :
  exists op' ws' tensor_x tensor_y,
    Operation.Init
      (OpInitContext.new MaceHeaders.workspace_x (@Device.mk MaceHeaders.declarations tt))
      (Operation.mk
         (Some (MaceHeaders.conv2d ["x"] ["x"; "y"] [] []
                  [MaceHeaders.DT_FLOAT; MaceHeaders.DT_HALF]))
         [] [])
    = Ok (op', ws')
    /\ Operation.outputs_ op' = [Some "x"; Some "y"]
    /\ dom (Workspace.tensor_map_ ws')
       = list_to_set ["x"; "y"]
         ∪ dom (Workspace.tensor_map_ MaceHeaders.workspace_x)
    /\ Workspace.tensor_map_ ws' !! "x" = Some tensor_x
    /\ Tensor.dtype_ tensor_x = MaceHeaders.DT_FLOAT
    /\ Tensor.shape_configured_ tensor_x = []
    /\ Workspace.tensor_map_ ws' !! "y" = Some tensor_y
    /\ Tensor.dtype_ tensor_y = MaceHeaders.DT_HALF.
Proof.
  destruct (@bind_time_outputs MaceHeaders.declarations
              (OpInitContext.new MaceHeaders.workspace_x (@Device.mk MaceHeaders.declarations tt))
              (Operation.mk
                 (Some (MaceHeaders.conv2d ["x"] ["x"; "y"] [] []
                          [MaceHeaders.DT_FLOAT; MaceHeaders.DT_HALF]))
                 [] [])
              _ eq_refl)
    as (Hreturns & Hresult & _).
  { intros name Hin. apply list_elem_of_singleton in Hin. by subst. }
  destruct (Hreturns (or_intror eq_refl)) as (op' & ws' & Hinit).
  destruct (Hresult op' ws' Hinit) as (Houtputs & Hdom & Hkept & Hcreated).
  destruct (Hkept "x" _ eq_refl) as (tensor_x & Hx & _ & Htype_x & Hshape_x).
  destruct (Hcreated 1 "y" eq_refl) as (tensor_y & Hy & _ & Htype_y).
  { intros Hin. apply list_elem_of_singleton in Hin. discriminate Hin. }
  { reflexivity. }
  exists op', ws', tensor_x, tensor_y.
  split_and!;
    [exact Hinit|exact Houtputs|exact Hdom|exact Hx|exact Htype_x|
     |exact Hy|exact Htype_y].
  destruct Hshape_x as [Hsame|(i & shape & _ & Hshape & _)];
    [exact Hsame|].
  destruct i; discriminate Hshape.
Defined.

(** C7 on a Conv2D whose input ["w"] has no tensor. *)
Lemma missing_input_fatality_witness :
  let def := MaceHeaders.conv2d ["x"; "w"] ["y"] [] [] [] in
  let context := OpInitContext.new MaceHeaders.workspace_x (Device.mk tt) in
  exists present missing rest,
    ["x"; "w"] = present ++ missing :: rest
    /\ (forall name, name ∈ present ->
          Workspace.HasTensor name MaceHeaders.workspace_x = true)
    /\ Workspace.HasTensor missing MaceHeaders.workspace_x = false
    /\ Operation.Init context (Operation.mk (Some def) [] [])
       = Abort (CheckFailed
                  ("op " +:+ "Conv2D"
                   +:+ ": Encountered a non-existing input tensor: "
                   +:+ missing)).
Proof.
  intros def context.
  apply (proj1 (missing_input_fatality context
                  (Operation.mk (Some def) [] []) def eq_refl)).
  exists "w". split; [|reflexivity].
  apply elem_of_cons. right. apply elem_of_cons. by left.
Defined.

(** C8 on Conv2D for CPU, registered with [DT_FLOAT] and [DT_HALF]. *)
Lemma register_twice_witness :
  let creator : OpRegistrationInfo.OpCreator := Operation.new in
  (exists r1 r2,
     OpRegistryBase.Register "Conv2D" MaceHeaders.CPU MaceHeaders.DT_FLOAT
       creator OpRegistryBase.empty = Ok r1
     /\ OpRegistryBase.Register "Conv2D" MaceHeaders.CPU MaceHeaders.DT_HALF
          creator r1 = Ok r2
     /\ "Conv2D0T_DT_FLOAT" <> "Conv2D0T_DT_HALF"
     /\ creators_of "Conv2D" r2 !! "Conv2D0T_DT_FLOAT" = Some creator
     /\ creators_of "Conv2D" r2 !! "Conv2D0T_DT_HALF" = Some creator
     /\ MaceHeaders.CPU ∈ OpRegistrationInfo.devices (info_of "Conv2D" r2))
  /\ (forall r1,
        OpRegistryBase.Register "Conv2D" MaceHeaders.CPU MaceHeaders.DT_FLOAT
          creator OpRegistryBase.empty = Ok r1 ->
        OpRegistryBase.Register "Conv2D" MaceHeaders.CPU MaceHeaders.DT_FLOAT
          creator r1
        = Abort (CheckFailed
                   ("Key already registered: " +:+ "Conv2D0T_DT_FLOAT"))).
Proof.
  intros creator.
  pose proof (@register_twice MaceHeaders.declarations OpRegistryBase.empty
                "Conv2D" MaceHeaders.CPU MaceHeaders.DT_FLOAT creator creator)
    as [Hboth Hagain].
  split; [|exact Hagain].
  apply (Hboth MaceHeaders.DT_HALF).
  - discriminate.
  - intros E. discriminate E.
  - reflexivity.
  - reflexivity.
Defined.

(** C9 on a Conv2D registered for CPU and GPU, and a definition whose
    first output shape has rank 3: the placer of the constructor offers
    CPU alone; once a builder for Conv2D that always places on GPU is
    registered, GPU alone is offered. *)
Lemma override_precedence_witness :
  let always_gpu : OpRegistrationInfo.DevicePlacer :=
    fun _ => Ok {[ MaceHeaders.GPU ]} in
  let context :=
    MaceHeaders.context_of
      (MaceHeaders.conv2d ["x"] ["y"] [] [OutputShape.mk [1; 8; 8]%Z] [])
      MaceHeaders.GPU_IMAGE in
  exists r',
    OpRegistryBase.Register_condition
      (OpConditionBuilder.SetDevicePlacerFunc (Some always_gpu)
         (OpConditionBuilder.new "Conv2D"))
      MaceHeaders.cpu_gpu_registry
    = Ok r'
    /\ OpRegistryBase.AvailableDevices "Conv2D" context r'
       = Ok {[ MaceHeaders.GPU ]}
    /\ OpRegistryBase.AvailableDevices "Conv2D" context
         MaceHeaders.cpu_gpu_registry
       = Ok {[ MaceHeaders.CPU ]}
    /\ OpRegistryBase.Register_condition (OpConditionBuilder.new "Conv2D")
         MaceHeaders.cpu_gpu_registry
       = Ok MaceHeaders.cpu_gpu_registry.
Proof.
  intros always_gpu context.
  destruct (@override_precedence MaceHeaders.declarations)
    as (Hoverride & _ & _ & Hkeep & _).
  destruct (Hoverride MaceHeaders.cpu_gpu_registry "Conv2D" always_gpu)
    as (r' & Hregister & Hplaced).
  exists r'. split_and!.
  - exact Hregister.
  - exact (Hplaced context).
  - reflexivity.
  - exact (Hkeep MaceHeaders.cpu_gpu_registry "Conv2D"
             MaceHeaders.cpu_gpu_info eq_refl).
Defined.
End on_mace_headers.

(** * The further statements on MACE's enumerators *)

Section further_on_mace_headers.
#[local] Existing Instance MaceHeaders.declarations.

Lemma four_inputs_held :
  holds
    (MaceHeaders.context_of
       (MaceHeaders.conv2d ["a"; "b"; "c"; "d"] ["y"] [] [] [])
       MaceHeaders.CPU_BUFFER)
    (MaceHeaders.conv2d ["a"; "b"; "c"; "d"] ["y"] [] [] [])
    MaceHeaders.CPU_BUFFER.
Proof. split; reflexivity. Defined.

Lemma four_inputs_unmaterialized :
  unmaterialized
    (MaceHeaders.context_of
       (MaceHeaders.conv2d ["a"; "b"; "c"; "d"] ["y"] [] [] [])
       MaceHeaders.CPU_BUFFER).
Proof. split; reflexivity. Defined.

(** X1 on a Conv2D with four inputs and an override of input 2. *)
Lemma first_override_reads_witness :
  exists c',
    OpConstructContext.SetInputInfo 2 MaceHeaders.GPU_IMAGE
      MaceHeaders.DT_HALF
      (MaceHeaders.context_of
         (MaceHeaders.conv2d ["a"; "b"; "c"; "d"] ["y"] [] [] [])
         MaceHeaders.CPU_BUFFER)
    = Ok c'
    /\ OpConstructContext.GetInputDataType 2 c' = Ok MaceHeaders.DT_HALF
    /\ OpConstructContext.GetInputDataType 1 c' = Ok MaceHeaders.DT_FLOAT
    /\ OpConstructContext.GetInputDataType 4 c' = Abort (CheckFailed "")
    /\ OpConstructContext.GetInputMemType 3 c' = Ok MaceHeaders.CPU_BUFFER.
Proof.
  destruct (@first_override_reads MaceHeaders.declarations _ _ _ 2 MaceHeaders.GPU_IMAGE
              MaceHeaders.DT_HALF four_inputs_held
              four_inputs_unmaterialized ltac:(cbn; lia))
    as (c' & Hset & Hreads).
  exists c'. split; [exact Hset|]. split_and!.
  - exact (proj2 (Hreads 2)).
  - exact (proj2 (Hreads 1)).
  - exact (proj2 (Hreads 4)).
  - exact (proj1 (Hreads 3)).
Defined.

(** X3 on the same node, with overrides of inputs 1 and 2. *)
Lemma second_override_reads_witness :
  exists c'',
    OpConstructContext.SetInputInfo 1 MaceHeaders.GPU_BUFFER
      MaceHeaders.DT_HALF
      (MaceHeaders.context_of
         (MaceHeaders.conv2d ["a"; "b"; "c"; "d"] ["y"] [] [] [])
         MaceHeaders.CPU_BUFFER)
    ≫= OpConstructContext.SetInputInfo 2 MaceHeaders.GPU_IMAGE
         MaceHeaders.DT_FLOAT
    = Ok c''
    /\ OpConstructContext.GetInputMemType 1 c'' = Ok MaceHeaders.GPU_BUFFER
    /\ OpConstructContext.GetInputMemType 2 c'' = Ok MaceHeaders.GPU_IMAGE
    /\ OpConstructContext.GetInputMemType 0 c'' = Ok MaceHeaders.CPU_BUFFER.
Proof.
  destruct (@second_override_reads MaceHeaders.declarations _ _ _ 1 2 MaceHeaders.GPU_BUFFER
              MaceHeaders.GPU_IMAGE MaceHeaders.DT_HALF MaceHeaders.DT_FLOAT
              four_inputs_held four_inputs_unmaterialized
              ltac:(cbn; lia) ltac:(cbn; lia))
    as (c'' & Hset & Hreads).
  exists c''. split; [exact Hset|]. split_and!.
  - exact (proj1 (Hreads 1 ltac:(cbn; lia))).
  - exact (proj1 (Hreads 2 ltac:(cbn; lia))).
  - exact (proj1 (Hreads 0 ltac:(cbn; lia))).
Defined.

(** X4 on the same node: a new output memory type after an override. *)
Lemma setters_discard_overrides_witness :
  exists c',
    OpConstructContext.SetInputInfo 2 MaceHeaders.GPU_IMAGE
      MaceHeaders.DT_HALF
      (MaceHeaders.context_of
         (MaceHeaders.conv2d ["a"; "b"; "c"; "d"] ["y"] [] [] [])
         MaceHeaders.CPU_BUFFER)
    ≫= OpConstructContext.set_output_mem_type MaceHeaders.GPU_BUFFER
    = Ok c'
    /\ (forall k,
          OpConstructContext.GetInputMemType k c'
          = Ok MaceHeaders.GPU_BUFFER)
    /\ OpConstructContext.GetInputDataType 2 c' = Ok MaceHeaders.DT_HALF.
Proof.
  exact (proj1 (@setters_discard_overrides MaceHeaders.declarations _ _ _ 2 MaceHeaders.GPU_IMAGE
                  MaceHeaders.DT_HALF four_inputs_held
                  four_inputs_unmaterialized ltac:(cbn; lia))
               MaceHeaders.GPU_BUFFER).
Defined.

(** X5 on the same node, replaced by a node with two inputs. *)
Lemma memory_types_keep_old_bounds_witness :
  exists c',
    OpConstructContext.SetInputInfo 0 MaceHeaders.GPU_IMAGE
      MaceHeaders.DT_HALF
      (MaceHeaders.context_of
         (MaceHeaders.conv2d ["a"; "b"; "c"; "d"] ["y"] [] [] [])
         MaceHeaders.CPU_BUFFER)
    ≫= (fun c' =>
          Ok (OpConstructContext.set_operator_def
                (Some (MaceHeaders.conv2d ["a"; "b"] ["y"] [] [] [])) c'))
    = Ok c'
    /\ OpConstructContext.GetInputMemType 3 c' = Ok MaceHeaders.CPU_BUFFER
    /\ OpConstructContext.SetInputInfo 2 MaceHeaders.GPU_IMAGE
         MaceHeaders.DT_HALF c'
       = Abort (CheckFailed "").
Proof.
  destruct (@memory_types_keep_old_bounds MaceHeaders.declarations _ _
              (MaceHeaders.conv2d ["a"; "b"] ["y"] [] [] []) _ 0
              MaceHeaders.GPU_IMAGE MaceHeaders.DT_HALF four_inputs_held
              four_inputs_unmaterialized ltac:(cbn; lia))
    as (c' & Hset & Hread & Hwrite).
  exists c'. split; [exact Hset|]. split.
  - exact (Hread 3 ltac:(cbn; lia)).
  - apply Hwrite. right. cbn. lia.
Defined.

(** X7 on the first registration of Conv2D for CPU. *)
Lemma registration_frame_witness :
  exists r',
    OpRegistryBase.Register "Conv2D" MaceHeaders.CPU MaceHeaders.DT_FLOAT
      Operation.new MaceHeaders.cpu_gpu_registry
    = Ok r'
    /\ OpRegistrationInfo.devices (info_of "Conv2D" r')
       = {[ MaceHeaders.CPU ]}
         ∪ OpRegistrationInfo.devices
             (info_of "Conv2D" MaceHeaders.cpu_gpu_registry)
    /\ creators_of "Conv2D" r' !! "Conv2D0T_DT_FLOAT" = Some Operation.new.
Proof.
  eexists. split; [reflexivity|].
  destruct (@registration_frame MaceHeaders.declarations "Conv2D"
              MaceHeaders.CPU MaceHeaders.DT_FLOAT Operation.new
              MaceHeaders.cpu_gpu_registry _ eq_refl)
    as (_ & _ & Hdevices & _ & Hcreator).
  split; [exact Hdevices|exact Hcreator].
Defined.

(** X8: a creator registered for (CPU, DT_FLOAT) serves a Conv2D whose
    ["T"] is [DT_HALF], also after a later registration for GPU. *)
Lemma register_then_create_witness :
  let def :=
    MaceHeaders.conv2d ["x"] ["y"] [Argument.mk "T" MaceHeaders.DT_HALF]
      [] [] in
  let def' :=
    MaceHeaders.conv2d ["x"] ["y"] [Argument.mk "T" MaceHeaders.DT_FLOAT]
      [] [] in
  exists r1 r2,
    OpRegistryBase.Register "Conv2D" MaceHeaders.CPU MaceHeaders.DT_FLOAT
      Operation.new OpRegistryBase.empty
    = Ok r1
    /\ OpRegistryBase.Register "Conv2D" MaceHeaders.GPU MaceHeaders.DT_HALF
         Operation.new r1
       = Ok r2
    /\ OpRegistryBase.CreateOperation
         (MaceHeaders.context_of def MaceHeaders.CPU_BUFFER)
         MaceHeaders.CPU r2
       = Ok (Operation.mk (Some def') [] [],
             MaceHeaders.context_of def' MaceHeaders.CPU_BUFFER).
Proof.
  intros def def'. eexists _, _. split; [reflexivity|].
  split; [reflexivity|].
  exact (@register_then_create MaceHeaders.declarations "Conv2D"
           MaceHeaders.CPU MaceHeaders.DT_FLOAT Operation.new
           [call_Register "Conv2D" MaceHeaders.GPU MaceHeaders.DT_HALF
              Operation.new]
           OpRegistryBase.empty _ _
           (MaceHeaders.context_of def MaceHeaders.CPU_BUFFER) def
           eq_refl eq_refl eq_refl eq_refl eq_refl).
Defined.

(** X9 on two registrations of Conv2D. *)
Lemma registered_keys_have_devices_witness :
  exists r,
    for_each make_registry_call
      [call_Register "Conv2D" MaceHeaders.CPU MaceHeaders.DT_FLOAT
         Operation.new;
       call_Register "Conv2D" MaceHeaders.GPU MaceHeaders.DT_HALF
         Operation.new]
      OpRegistryBase.empty
    = Ok r
    /\ keys_have_devices r.
Proof.
  eexists. split; [reflexivity|].
  exact (@registered_keys_have_devices MaceHeaders.declarations
           [call_Register "Conv2D" MaceHeaders.CPU MaceHeaders.DT_FLOAT
              Operation.new;
            call_Register "Conv2D" MaceHeaders.GPU MaceHeaders.DT_HALF
              Operation.new]
           _ eq_refl).
Defined.

(** X11 on a builder for Softmax without a placer, on the empty
    registry. *)
Lemma condition_only_registration_witness :
  exists r',
    OpRegistryBase.Register_condition (OpConditionBuilder.new "Softmax")
      OpRegistryBase.empty
    = Ok r'
    /\ OpRegistryBase.AvailableDevices "Softmax"
         (OpConstructContext.new None) r'
       = Ok ∅.
Proof.
  destruct (@condition_only_registration MaceHeaders.declarations
              (OpConditionBuilder.new "Softmax") OpRegistryBase.empty
              (OpConstructContext.new None) eq_refl eq_refl)
    as (r' & Hregister & Hdevices & _).
  exists r'. split; [exact Hregister|exact Hdevices].
Defined.

(** X12 on two builders for Conv2D, the second of which always places on
    GPU. *)
Lemma later_condition_wins_witness :
  let on device : OpRegistrationInfo.DevicePlacer :=
    fun _ => Ok {[ device ]} in
  exists r',
    OpRegistryBase.Register_condition
      (OpConditionBuilder.SetDevicePlacerFunc (Some (on MaceHeaders.CPU))
         (OpConditionBuilder.new "Conv2D"))
      OpRegistryBase.empty
    ≫= OpRegistryBase.Register_condition
         (OpConditionBuilder.SetDevicePlacerFunc (Some (on MaceHeaders.GPU))
            (OpConditionBuilder.new "Conv2D"))
    = Ok r'
    /\ OpRegistryBase.AvailableDevices "Conv2D"
         (OpConstructContext.new None) r'
       = Ok {[ MaceHeaders.GPU ]}.
Proof.
  intros on.
  destruct (@later_condition_wins MaceHeaders.declarations
              (OpConditionBuilder.SetDevicePlacerFunc
                 (Some (on MaceHeaders.CPU))
                 (OpConditionBuilder.new "Conv2D"))
              (OpConditionBuilder.SetDevicePlacerFunc
                 (Some (on MaceHeaders.GPU))
                 (OpConditionBuilder.new "Conv2D"))
              OpRegistryBase.empty (OpConstructContext.new None) eq_refl)
    as (r' & Hregister & Hsecond & _).
  exists r'. split; [exact Hregister|]. exact (Hsecond _ eq_refl).
Defined.

Lemma cpu_registered :
  MaceHeaders.CPU ∈ OpRegistrationInfo.devices MaceHeaders.cpu_gpu_info.
Proof.
  change (MaceHeaders.CPU
          ∈ ({[ MaceHeaders.GPU ]} ∪ ({[ MaceHeaders.CPU ]} ∪ ∅)
             : gset MaceHeaders.DeviceType)).
  apply elem_of_union. right. apply elem_of_union. left.
  by apply elem_of_singleton.
Defined.

(** X13 on Conv2D registered for CPU and GPU. *)
Lemma default_placer_offers_registered_witness :
  exists placed,
    OpRegistryBase.AvailableDevices "Conv2D"
      (MaceHeaders.context_of
         (MaceHeaders.conv2d ["x"] ["y"] [] [OutputShape.mk [1; 8]%Z] [])
         MaceHeaders.GPU_IMAGE)
      MaceHeaders.cpu_gpu_registry
    = Ok placed
    /\ placed ⊆ OpRegistrationInfo.devices MaceHeaders.cpu_gpu_info.
Proof.
  destruct (@default_placer_offers_registered MaceHeaders.declarations
              MaceHeaders.cpu_gpu_registry "Conv2D" MaceHeaders.cpu_gpu_info
              (MaceHeaders.context_of
                 (MaceHeaders.conv2d ["x"] ["y"] []
                    [OutputShape.mk [1; 8]%Z] [])
                 MaceHeaders.GPU_IMAGE)
              eq_refl eq_refl)
    as (Hsubset & Hreturns & _).
  destruct (Hreturns _ eq_refl ltac:(discriminate)) as (placed & Hplaced).
  exists placed. split; [exact Hplaced|]. exact (proj1 (Hsubset _ Hplaced)).
Defined.

(** X14 on a node with two outputs, of ranks 2 and 4. *)
Lemma first_output_decides_witness :
  OpRegistryBase.AvailableDevices "Conv2D"
    (MaceHeaders.context_of
       (MaceHeaders.conv2d ["x"] ["y"; "z"] []
          [OutputShape.mk [1; 8]%Z; OutputShape.mk [1; 8; 8; 3]%Z] [])
       MaceHeaders.GPU_IMAGE)
    MaceHeaders.cpu_gpu_registry
  = Ok {[ MaceHeaders.CPU ]}.
Proof.
  exact (proj1 (@first_output_decides MaceHeaders.declarations
                  MaceHeaders.cpu_gpu_registry "Conv2D"
                  MaceHeaders.cpu_gpu_info
                  (MaceHeaders.context_of
                     (MaceHeaders.conv2d ["x"] ["y"; "z"] []
                        [OutputShape.mk [1; 8]%Z;
                         OutputShape.mk [1; 8; 8; 3]%Z] [])
                     MaceHeaders.GPU_IMAGE)
                  _ eq_refl eq_refl cpu_registered eq_refl)
               (OutputShape.mk [1; 8]%Z) [OutputShape.mk [1; 8; 8; 3]%Z]
               eq_refl eq_refl).
Defined.

(** X15 on a Conv2D that reads ["x"] and writes ["y"]. *)
Lemma init_binds_in_order_witness :
  exists op' ws',
    Operation.Init
      (OpInitContext.new MaceHeaders.workspace_x (@Device.mk MaceHeaders.declarations tt))
      (Operation.mk
         (Some (MaceHeaders.conv2d ["x"] ["y"] []
                  [OutputShape.mk [1; 8; 8; 3]%Z] []))
         [] [])
    = Ok (op', ws')
    /\ Operation.inputs_ op' = [Some "x"]
    /\ Operation.outputs_ op' = [Some "y"].
Proof.
  eexists _, _. split; [reflexivity|].
  destruct (@init_binds_in_order MaceHeaders.declarations
              (OpInitContext.new MaceHeaders.workspace_x (@Device.mk MaceHeaders.declarations tt))
              (Operation.mk
                 (Some (MaceHeaders.conv2d ["x"] ["y"] []
                          [OutputShape.mk [1; 8; 8; 3]%Z] []))
                 [] [])
              _ _ _ eq_refl eq_refl)
    as (_ & Hinputs & Houtputs & _).
  split; [exact Hinputs|exact Houtputs].
Defined.

(** X16 on the same node: the workspace gains ["y"] and keeps ["x"]. *)
Lemma init_workspace_frame_witness :
  exists op' ws',
    Operation.Init
      (OpInitContext.new MaceHeaders.workspace_x (@Device.mk MaceHeaders.declarations tt))
      (Operation.mk
         (Some (MaceHeaders.conv2d ["x"] ["y"] []
                  [OutputShape.mk [1; 8; 8; 3]%Z] []))
         [] [])
    = Ok (op', ws')
    /\ dom (Workspace.tensor_map_ ws')
       = list_to_set ["y"]
         ∪ dom (Workspace.tensor_map_ MaceHeaders.workspace_x)
    /\ Workspace.tensor_map_ ws' !! "x"
       = Workspace.tensor_map_ MaceHeaders.workspace_x !! "x".
Proof.
  eexists _, _. split; [reflexivity|].
  destruct (@init_workspace_frame MaceHeaders.declarations
              (OpInitContext.new MaceHeaders.workspace_x (@Device.mk MaceHeaders.declarations tt))
              (Operation.mk
                 (Some (MaceHeaders.conv2d ["x"] ["y"] []
                          [OutputShape.mk [1; 8; 8; 3]%Z] []))
                 [] [])
              _ _ _ eq_refl eq_refl)
    as (Hdom & _ & Hother).
  split; [exact Hdom|]. apply Hother.
  intros Hin. apply list_elem_of_singleton in Hin. discriminate Hin.
Defined.

Lemma only_x (name : string) :
  name ∈ ["x"] -> Workspace.HasTensor name MaceHeaders.workspace_x = true.
Proof. intros Hin. apply list_elem_of_singleton in Hin. by subst. Defined.

(** X17 on a node that works in place on ["x"] and declares two output
    types for its one output. *)
Lemma init_returns_when_present_witness :
  exists op' ws',
    Operation.Init
      (OpInitContext.new MaceHeaders.workspace_x (@Device.mk MaceHeaders.declarations tt))
      (Operation.mk
         (Some (MaceHeaders.conv2d ["x"] ["x"] [] []
                  [MaceHeaders.DT_FLOAT; MaceHeaders.DT_HALF]))
         [] [])
    = Ok (op', ws')
    /\ dom (Workspace.tensor_map_ ws')
       = dom (Workspace.tensor_map_ MaceHeaders.workspace_x).
Proof.
  exact (@init_returns_when_present MaceHeaders.declarations
           (OpInitContext.new MaceHeaders.workspace_x (@Device.mk MaceHeaders.declarations tt))
           (Operation.mk
              (Some (MaceHeaders.conv2d ["x"] ["x"] [] []
                       [MaceHeaders.DT_FLOAT; MaceHeaders.DT_HALF]))
              [] [])
           _ eq_refl only_x only_x).
Defined.

(** X18 on the Conv2D that reads ["x"] and writes ["y"]. *)
Lemma init_again_appends_witness :
  exists op' ws' op'' ws'',
    Operation.Init
      (OpInitContext.new MaceHeaders.workspace_x (@Device.mk MaceHeaders.declarations tt))
      (Operation.mk
         (Some (MaceHeaders.conv2d ["x"] ["y"] [] [] [])) [] [])
    = Ok (op', ws')
    /\ Operation.Init (OpInitContext.new ws' (@Device.mk MaceHeaders.declarations tt)) op'
       = Ok (op'', ws'')
    /\ Operation.inputs_ op'' = [Some "x"; Some "x"]
    /\ Operation.outputs_ op'' = [Some "y"; Some "y"].
Proof.
  eexists _, _.
  destruct (@init_again_appends MaceHeaders.declarations
              (OpInitContext.new MaceHeaders.workspace_x (@Device.mk MaceHeaders.declarations tt))
              (Operation.mk
                 (Some (MaceHeaders.conv2d ["x"] ["y"] [] [] [])) [] [])
              _ _ _ eq_refl eq_refl)
    as (op'' & ws'' & Hagain & Hinputs & Houtputs & _).
  exists op'', ws''. split; [reflexivity|].
  split_and!; [exact Hagain|exact Hinputs|exact Houtputs].
Defined.

(** X19 on a Conv2D whose output ["y"] declares the type [DT_HALF] and a
    shape of rank 4. *)
Lemma init_configures_outputs_witness :
  exists op' ws' tensor',
    Operation.Init
      (OpInitContext.new MaceHeaders.workspace_x (@Device.mk MaceHeaders.declarations tt))
      (Operation.mk
         (Some (MaceHeaders.conv2d ["x"] ["y"] []
                  [OutputShape.mk [1; 8; 8; 3]%Z] [MaceHeaders.DT_HALF]))
         [] [])
    = Ok (op', ws')
    /\ Workspace.tensor_map_ ws' !! "y" = Some tensor'
    /\ Tensor.shape_configured_ tensor' = [1; 8; 8; 3]%Z
    /\ Tensor.dtype_ tensor' = MaceHeaders.DT_HALF.
Proof.
  eexists _, _.
  destruct (@init_configures_outputs MaceHeaders.declarations
              (OpInitContext.new MaceHeaders.workspace_x (@Device.mk MaceHeaders.declarations tt))
              (Operation.mk
                 (Some (MaceHeaders.conv2d ["x"] ["y"] []
                          [OutputShape.mk [1; 8; 8; 3]%Z]
                          [MaceHeaders.DT_HALF]))
                 [] [])
              _ _ _ 0 "y" eq_refl eq_refl (NoDup_singleton "y") eq_refl)
    as (tensor' & Hlookup & Hshape & _ & Hcreated).
  exists tensor'. split; [reflexivity|].
  split_and!; [exact Hlookup|exact (Hshape _ eq_refl)|].
  exact (proj2 (Hcreated eq_refl)).
Defined.
End further_on_mace_headers.
